(** * openpifpaf.decoder.factory: decoder configuration and construction

    A shallow embedding of [configure] and [factory_decode] of
    [openpifpaf/decoder/factory.py], with the properties of the decoder
    configuration surface proved about it.

    - Python floats are IEEE 754 binary64 values, taken from the
      specification of floating-point arithmetic of the Standard Library
      ([spec_float] at precision 53 and maximal exponent 1024).
    - [args] (an [argparse.Namespace]) and the class attributes that
      [configure] writes are mutable objects: [configure] is a computation
      over a store [World], and a failed [assert] keeps every write made
      before it.
    - Keyword dictionaries ([**kwargs]) are finite maps from names to
      values. *)

From Stdlib Require Import ZArith Bool List String Lia.
From Stdlib Require Import SpecFloat.
From Stdlib Require Import Ascii DecimalString.
From stdpp Require Import base option list strings gmap.

Local Open Scope string_scope.
Local Open Scope Z_scope.

(** ** Python floats *)

Module PyFloat.

Definition prec : Z := 53.
Definition emax : Z := 1024.

Definition float : Type := spec_float.

(** A [spec_float] is a binary64 value when its mantissa is canonical
    and its exponent in range. *)
Definition is_float (f : float) : bool := valid_binary prec emax f.

(** [float(z)] for an exactly given integer, rounded to nearest even. *)
Definition of_Z (z : Z) : float := binary_normalize prec emax z 0 false.

Definition mul (x y : float) : float := SFmul prec emax x y.
Definition div (x y : float) : float := SFdiv prec emax x y.

(** The comparison operators of Python on two floats. *)
Definition eqb (x y : float) : bool := SFeqb x y.      (* x == y *)
Definition ltb (x y : float) : bool := SFltb x y.      (* x <  y *)
Definition leb (x y : float) : bool := SFleb x y.      (* x <= y *)
Definition gtb (x y : float) : bool := SFltb y x.      (* x >  y *)
Definition geb (x y : float) : bool := SFleb y x.      (* x >= y *)

(** The float literals of the source. *)
Definition zero : float := S754_zero false.                          (* 0.0 *)
Definition neg_zero : float := S754_zero true.                       (* -0.0 *)
Definition nan : float := S754_nan.
Definition f0_001 : float := S754_finite false 4611686018427388 (-62). (* 0.001 *)
Definition f0_01 : float := S754_finite false 5764607523034235 (-59).  (* 0.01 *)
Definition f0_2 : float := S754_finite false 7205759403792794 (-55).   (* 0.2 *)
Definition one : float := of_Z 1.                                    (* 1.0 *)
Definition f1_5 : float := div (of_Z 3) (of_Z 2).                    (* 1.5 *)
Definition three : float := of_Z 3.                                  (* 3.0 *)

End PyFloat.

Abbreviation float := PyFloat.float.

(** ** Python exceptions and results *)

(** The exceptions the two functions can raise.  [Exception_ fmt names] is
    the base class [Exception] raised at the end of [factory_decode]: [fmt]
    is the message template and [names] the head-name tuple formatted into
    it. *)
Inductive PyError : Type :=
| AssertionError
| TypeError (what : string)
| IndexError
| OverflowError
| Exception_ (fmt : string) (names : list string).

Inductive result (A : Type) : Type :=
| Ok (a : A)
| Raise (e : PyError).
Arguments Ok {A} a.
Arguments Raise {A} e.

Definition is_ok {A} (r : result A) : bool :=
  match r with Ok _ => true | Raise _ => false end.

(** The class of an exception: [Exception] itself is the generic class,
    every other exception is an instance of a proper subclass. *)
Definition is_generic_exception (e : PyError) : bool :=
  match e with
  | Exception_ _ _ => true
  | _ => false
  end.


(** ** The argument namespace and the class-level configuration *)

(** [args]: the attributes of the parsed command line that [configure]
    reads or writes.  [keypoint_threshold] and [decoder_workers] are [None]
    until set; [batch_size] is [None] when the namespace has no such
    attribute (it is read with [getattr(args, 'batch_size', 1)]). *)
Record Namespace : Type := {
  paf_th : float;
  connection_method : string;
  force_complete_pose : bool;
  pif_th : float;
  seed_threshold : float;
  instance_threshold : float;
  keypoint_threshold : option float;
  greedy : bool;
  decoder_workers : option Z;
  batch_size : option Z;
  debug : bool
}.

Definition set_keypoint_threshold (v : option float) (a : Namespace) : Namespace :=
  {| paf_th := paf_th a; connection_method := connection_method a;
     force_complete_pose := force_complete_pose a; pif_th := pif_th a;
     seed_threshold := seed_threshold a;
     instance_threshold := instance_threshold a;
     keypoint_threshold := v;
     greedy := greedy a; decoder_workers := decoder_workers a;
     batch_size := batch_size a; debug := debug a |}.

Definition set_instance_threshold (v : float) (a : Namespace) : Namespace :=
  {| paf_th := paf_th a; connection_method := connection_method a;
     force_complete_pose := force_complete_pose a; pif_th := pif_th a;
     seed_threshold := seed_threshold a;
     instance_threshold := v;
     keypoint_threshold := keypoint_threshold a;
     greedy := greedy a; decoder_workers := decoder_workers a;
     batch_size := batch_size a; debug := debug a |}.

Definition set_decoder_workers (v : option Z) (a : Namespace) : Namespace :=
  {| paf_th := paf_th a; connection_method := connection_method a;
     force_complete_pose := force_complete_pose a; pif_th := pif_th a;
     seed_threshold := seed_threshold a;
     instance_threshold := instance_threshold a;
     keypoint_threshold := keypoint_threshold a;
     greedy := greedy a; decoder_workers := v;
     batch_size := batch_size a; debug := debug a |}.

(** The class attributes shared by the two assemblers, [CifCaf] and
    [PafsDijkstra]. *)
Record AssemblerCls : Type := {
  cls_paf_th : float;
  cls_connection_method : string;
  cls_force_complete : bool
}.

(** The class attributes of [generator.Frontier]. *)
Record FrontierCls : Type := {
  fr_keypoint_threshold : option float;
  fr_greedy : bool
}.

Section Configure.

(** [visualizer.configure] is imported from a sibling module: it is
    taken as a parameter that reads [args] and writes the class-level
    state of the debug visualizer, of some type [VisualizerCls]. *)
Context {VisualizerCls : Type}.
Variable visualizer_configure : Namespace -> VisualizerCls -> VisualizerCls.

(** The store [configure] runs in. *)
Record World : Type := {
  args : Namespace;
  CifCaf_cls : AssemblerCls;
  PafsDijkstra_cls : AssemblerCls;
  PifHr_v_threshold : float;
  Frontier_cls : FrontierCls;
  Visualizer_cls : VisualizerCls
}.

(** *** Statements: state passing, with exceptions that keep the state *)

Definition Stmt (A : Type) : Type := World -> World * result A.

Definition ret {A} (a : A) : Stmt A := fun w => (w, Ok a).

Definition bind {A B} (m : Stmt A) (k : A -> Stmt B) : Stmt B :=
  fun w =>
    match m w with
    | (w', Ok a) => k a w'
    | (w', Raise e) => (w', Raise e)
    end.

Definition raise {A} (e : PyError) : Stmt A := fun w => (w, Raise e).

Definition read {A} (f : World -> A) : Stmt A := fun w => (w, Ok (f w)).
Definition write (f : World -> World) : Stmt unit := fun w => (f w, Ok tt).

(** [assert b] *)
Definition py_assert (b : bool) : Stmt unit :=
  if b then ret tt else raise AssertionError.

(** [if b: body] *)
Definition when (b : bool) (body : Stmt unit) : Stmt unit :=
  if b then body else ret tt.

Notation "x <- m ;; k" := (bind m (fun x => k))
  (at level 100, m at next level, right associativity, only parsing).
Notation "m ;;; k" := (bind m (fun _ => k))
  (at level 100, right associativity, only parsing).

(** *** Attribute writes *)

Definition with_paf_th (v : float) (c : AssemblerCls) : AssemblerCls :=
  {| cls_paf_th := v; cls_connection_method := cls_connection_method c;
     cls_force_complete := cls_force_complete c |}.
Definition with_connection_method (v : string) (c : AssemblerCls) : AssemblerCls :=
  {| cls_paf_th := cls_paf_th c; cls_connection_method := v;
     cls_force_complete := cls_force_complete c |}.
Definition with_force_complete (v : bool) (c : AssemblerCls) : AssemblerCls :=
  {| cls_paf_th := cls_paf_th c;
     cls_connection_method := cls_connection_method c;
     cls_force_complete := v |}.

Definition with_fr_keypoint_threshold (v : option float) (c : FrontierCls) : FrontierCls :=
  {| fr_keypoint_threshold := v; fr_greedy := fr_greedy c |}.
Definition with_fr_greedy (v : bool) (c : FrontierCls) : FrontierCls :=
  {| fr_keypoint_threshold := fr_keypoint_threshold c; fr_greedy := v |}.

Definition on_args (f : Namespace -> Namespace) (w : World) : World :=
  {| args := f (args w); CifCaf_cls := CifCaf_cls w;
     PafsDijkstra_cls := PafsDijkstra_cls w;
     PifHr_v_threshold := PifHr_v_threshold w;
     Frontier_cls := Frontier_cls w; Visualizer_cls := Visualizer_cls w |}.
Definition on_CifCaf (f : AssemblerCls -> AssemblerCls) (w : World) : World :=
  {| args := args w; CifCaf_cls := f (CifCaf_cls w);
     PafsDijkstra_cls := PafsDijkstra_cls w;
     PifHr_v_threshold := PifHr_v_threshold w;
     Frontier_cls := Frontier_cls w; Visualizer_cls := Visualizer_cls w |}.
Definition on_PafsDijkstra (f : AssemblerCls -> AssemblerCls) (w : World) : World :=
  {| args := args w; CifCaf_cls := CifCaf_cls w;
     PafsDijkstra_cls := f (PafsDijkstra_cls w);
     PifHr_v_threshold := PifHr_v_threshold w;
     Frontier_cls := Frontier_cls w; Visualizer_cls := Visualizer_cls w |}.
Definition on_PifHr (f : float -> float) (w : World) : World :=
  {| args := args w; CifCaf_cls := CifCaf_cls w;
     PafsDijkstra_cls := PafsDijkstra_cls w;
     PifHr_v_threshold := f (PifHr_v_threshold w);
     Frontier_cls := Frontier_cls w; Visualizer_cls := Visualizer_cls w |}.
Definition on_Frontier (f : FrontierCls -> FrontierCls) (w : World) : World :=
  {| args := args w; CifCaf_cls := CifCaf_cls w;
     PafsDijkstra_cls := PafsDijkstra_cls w;
     PifHr_v_threshold := PifHr_v_threshold w;
     Frontier_cls := f (Frontier_cls w); Visualizer_cls := Visualizer_cls w |}.
Definition on_Visualizer (f : VisualizerCls -> VisualizerCls) (w : World) : World :=
  {| args := args w; CifCaf_cls := CifCaf_cls w;
     PafsDijkstra_cls := PafsDijkstra_cls w;
     PifHr_v_threshold := PifHr_v_threshold w;
     Frontier_cls := Frontier_cls w; Visualizer_cls := f (Visualizer_cls w) |}.

(** *** Comparisons on an attribute that may hold [None] *)

(** [k == f]: [None == 0.0] is [False]. *)
Definition opt_eqb (k : option float) (f : float) : bool :=
  match k with
  | Some k => PyFloat.eqb k f
  | None => false
  end.

(** [s >= k]: ordering a float against [None] raises [TypeError]. *)
Definition ge_opt (s : float) (k : option float) : Stmt bool :=
  match k with
  | Some k => ret (PyFloat.geb s k)
  | None => raise (TypeError "'>=' not supported between instances of 'float' and 'NoneType'")
  end.

(** *** [configure(args)] *)

Definition configure : Stmt unit :=
  (* configure CifCaf *)
  write (fun w => on_CifCaf (with_paf_th (paf_th (args w))) w) ;;;
  write (fun w => on_CifCaf (with_connection_method (connection_method (args w))) w) ;;;
  write (fun w => on_CifCaf (with_force_complete (force_complete_pose (args w))) w) ;;;
  (* configure PafsDijkstra *)
  write (fun w => on_PafsDijkstra (with_paf_th (paf_th (args w))) w) ;;;
  write (fun w => on_PafsDijkstra (with_connection_method (connection_method (args w))) w) ;;;
  write (fun w => on_PafsDijkstra (with_force_complete (force_complete_pose (args w))) w) ;;;
  (* configure PifHr *)
  write (fun w => on_PifHr (fun _ => pif_th (args w)) w) ;;;
  (* configure debug visualizer *)
  write (fun w => on_Visualizer (visualizer_configure (args w)) w) ;;;
  (* default value for keypoint filter depends on whether complete pose is forced *)
  a <- read args ;;
  when (bool_decide (keypoint_threshold a = None))
    (write (on_args (set_keypoint_threshold
       (Some (if negb (force_complete_pose a)
              then PyFloat.f0_001 else PyFloat.zero))))) ;;;
  (* check consistency *)
  a <- read args ;;
  when (force_complete_pose a)
    (py_assert (opt_eqb (keypoint_threshold a) PyFloat.zero)) ;;;
  a <- read args ;;
  consistent <- ge_opt (seed_threshold a) (keypoint_threshold a) ;;
  py_assert consistent ;;;
  (* configure decoder generator *)
  write (fun w => on_Frontier (with_fr_keypoint_threshold (keypoint_threshold (args w))) w) ;;;
  write (fun w => on_Frontier (with_fr_greedy (greedy (args w))) w) ;;;
  (* decoder workers *)
  a <- read args ;;
  when (bool_decide (decoder_workers a = None)
        && (1 <? default 1 (batch_size a))
        && negb (debug a))
    (write (on_args (set_decoder_workers (batch_size a)))).

(** *** The effect of [configure], statement by statement collapsed

    These definitions restate what the statements above compute; the
    lemma [configure_run] below proves that they agree with
    [configure]. *)

(** The keypoint threshold [args] holds once the default rule has run. *)
Definition resolved_keypoint_threshold (a : Namespace) : float :=
  match keypoint_threshold a with
  | Some k => k
  | None => if force_complete_pose a then PyFloat.zero else PyFloat.f0_001
  end.

(** The two assertions, on the resolved threshold. *)
Definition consistent (a : Namespace) : bool :=
  (if force_complete_pose a
   then PyFloat.eqb (resolved_keypoint_threshold a) PyFloat.zero else true)
  && PyFloat.geb (seed_threshold a) (resolved_keypoint_threshold a).

(** The guard of the last statement. *)
Definition workers_from_batch (a : Namespace) : bool :=
  bool_decide (decoder_workers a = None)
  && (1 <? default 1 (batch_size a))
  && negb (debug a).

Definition configured_assembler (a : Namespace) : AssemblerCls :=
  {| cls_paf_th := paf_th a;
     cls_connection_method := connection_method a;
     cls_force_complete := force_complete_pose a |}.

(** The store [configure] leaves, in closed form. *)
Definition configured (w : World) : World :=
  let a := args w in
  let a1 := set_keypoint_threshold (Some (resolved_keypoint_threshold a)) a in
  {| args :=
       if consistent a && workers_from_batch a
       then set_decoder_workers (batch_size a) a1 else a1;
     CifCaf_cls := configured_assembler a;
     PafsDijkstra_cls := configured_assembler a;
     PifHr_v_threshold := pif_th a;
     Frontier_cls :=
       if consistent a
       then {| fr_keypoint_threshold := Some (resolved_keypoint_threshold a);
               fr_greedy := greedy a |}
       else Frontier_cls w;
     Visualizer_cls := visualizer_configure a (Visualizer_cls w) |}.

End Configure.

(** ** Numbers, models and decoders *)

(** A Python number: an [int] or a [float]. *)
Inductive pynum : Type :=
| PyInt (z : Z)
| PyFlt (f : float).

(** The conversion of an [int] operand of a mixed product: correctly
    rounded, [OverflowError] when the integer is beyond the float range. *)
Definition float_of_int (z : Z) : result float :=
  match PyFloat.of_Z z with
  | S754_infinity _ => Raise OverflowError
  | f => Ok f
  end.

(** [a * b] *)
Definition py_mul (a b : pynum) : result pynum :=
  match a, b with
  | PyInt x, PyInt y => Ok (PyInt (x * y))
  | PyInt x, PyFlt g =>
      match float_of_int x with
      | Ok f => Ok (PyFlt (PyFloat.mul f g))
      | Raise e => Raise e
      end
  | PyFlt f, PyInt y =>
      match float_of_int y with
      | Ok g => Ok (PyFlt (PyFloat.mul f g))
      | Raise e => Raise e
      end
  | PyFlt f, PyFlt g => Ok (PyFlt (PyFloat.mul f g))
  end.

(** [l * n] on a list: [n] copies of [l], one after the other. *)
Fixpoint list_times {A} (l : list A) (n : nat) : list A :=
  match n with
  | O => []
  | S n' => (l ++ list_times l n')%list
  end.

(** [range(n)] *)
Definition range (n : nat) : list Z := map Z.of_nat (seq 0 n).

(** A list comprehension whose element expression may raise: the first
    exception, in list order, ends it. *)
Fixpoint comprehension {A B} (f : A -> result B) (l : list A) : result (list B) :=
  match l with
  | [] => Ok []
  | x :: l' =>
      match f x with
      | Raise e => Raise e
      | Ok y =>
          match comprehension f l' with
          | Raise e => Raise e
          | Ok ys => Ok (y :: ys)
          end
      end
  end.

(** [l[-1]] *)
Definition last_item {A} (l : list A) : result A :=
  match last l with
  | Some x => Ok x
  | None => Raise IndexError
  end.

(** What [factory_decode] reads of the network. *)
Record Model : Type := {
  head_names : list string;
  head_strides : list pynum
}.

(** The values forwarded in [**kwargs], opaque to the factory. *)
Inductive pyval : Type :=
| VNone
| VBool (b : bool)
| VNum (n : pynum)
| VStr (s : string)
| VObject (name : string).

(** An argument that is one value, or one value per decoded scale. *)
Inductive per_scale (A : Type) : Type :=
| Single (a : A)
| Table (l : list A).
Arguments Single {A} a.
Arguments Table {A} l.

(** A keyword of a constructor call: left out, or passed with a value. *)
Inductive keyword (A : Type) : Type :=
| Omitted
| Passed (a : A).
Arguments Omitted {A}.
Arguments Passed {A} a.

Definition skeleton_t : Type := list (Z * Z).

(** The three constructor calls of the factory, with the arguments they
    are made with. *)
Record PifCall : Type := {
  pif_stride : pynum;
  pif_head_index : Z;
  pif_kwargs : gmap string pyval
}.

Record PafsDijkstraCall : Type := {
  pd_stride : pynum;
  pd_paf_index : Z;
  pd_keypoints : list string;
  pd_skeleton : skeleton_t;
  pd_out_skeleton : skeleton_t;
  pd_confidence_scales : option (list float);
  pd_kwargs : gmap string pyval
}.

Record CifCafCall : Type := {
  cc_stride : per_scale pynum;
  cc_pif_index : per_scale Z;
  cc_paf_index : per_scale Z;
  cc_pif_min_scale : keyword (per_scale float);
  cc_paf_min_distance : keyword (per_scale float);
  cc_paf_max_distance : keyword (per_scale (option float));
  cc_keypoints : list string;
  cc_skeleton : skeleton_t;
  cc_out_skeleton : keyword skeleton_t;
  cc_confidence_scales : keyword (option (list float));
  cc_kwargs : gmap string pyval
}.

Inductive Decoder : Type :=
| Pif (c : PifCall)
| PafsDijkstra (c : PafsDijkstraCall)
| CifCaf (c : CifCafCall).

Inductive DecoderClass : Type := Class_Pif | Class_PafsDijkstra | Class_CifCaf.

Definition class_of (d : Decoder) : DecoderClass :=
  match d with
  | Pif _ => Class_Pif
  | PafsDijkstra _ => Class_PafsDijkstra
  | CifCaf _ => Class_CifCaf
  end.

(** The outcome of a run of the factory: the classes instantiated, in
    order, and the value returned or the exception raised. *)
Record Run : Type := {
  instantiated : list DecoderClass;
  outcome : result Decoder
}.

(** A call [cls(..., k1=..., ..., **kwargs)]: a name of [kwargs] that
    repeats one of the keywords written at the call is a [TypeError] raised
    before the class is entered; otherwise the instance is made. *)
Definition repeated_keyword (written : list string) (kwargs : gmap string pyval) : bool :=
  existsb (fun k => bool_decide (is_Some (kwargs !! k))) written.

Definition call (written : list string) (kwargs : gmap string pyval) (d : Decoder) : Run :=
  if repeated_keyword written kwargs
  then {| instantiated := [];
          outcome := Raise (TypeError "got multiple values for keyword argument") |}
  else {| instantiated := [class_of d]; outcome := Ok d |}.

(** An exception raised while the arguments are evaluated: nothing is
    instantiated. *)
Definition raised (e : PyError) : Run :=
  {| instantiated := []; outcome := Raise e |}.

Definition and_then {A} (r : result A) (k : A -> Run) : Run :=
  match r with
  | Ok a => k a
  | Raise e => raised e
  end.

(** ** [factory_decode] *)

Section Factory.

(** The keypoint names and the two edge lists are constants of the
    [data] module: they are parameters here. *)
Variable COCO_KEYPOINTS : list string.
Variable COCO_PERSON_SKELETON : skeleton_t.
Variable DENSER_COCO_PERSON_CONNECTIONS : skeleton_t.

Notation "x <- m ;; k" :=
  (match m with Ok x => k | Raise e => Raise e end)
  (at level 100, m at next level, right associativity, only parsing).

(** The local variables of the [('cif', 'paf', 'paf25')] branch, as they
    stand when the decoder is constructed. *)
Record PafLocals : Type := {
  stride : per_scale pynum;
  pif_index : per_scale Z;
  paf_index : per_scale Z;
  pif_min_scale : per_scale float;
  paf_min_distance : per_scale float;
  paf_max_distance : per_scale (option float)
}.

Definition paf_locals (model : Model)
    (dense_connections multi_scale multi_scale_hflip : bool) : result PafLocals :=
  stride0 <- last_item (head_strides model) ;;
  if multi_scale && multi_scale_hflip then
    let resolutions :=
      list_times [PyInt 1; PyFlt PyFloat.f1_5; PyInt 2; PyInt 3; PyInt 5] 2 in
    stride <- comprehension
                (fun r => s <- last_item (head_strides model) ;; py_mul s r)
                resolutions ;;
    let pif_min_scale :=
      list_times [PyFloat.zero; PyFloat.of_Z 12; PyFloat.of_Z 16;
                  PyFloat.of_Z 24; PyFloat.of_Z 40] 2 in
    Ok {| stride := Table stride;
          pif_index :=
            Table (if negb dense_connections
                   then map (fun v => v * 3) (range 10)
                   else map (fun v => v * 2) (range 10));
          paf_index :=
            Table (if negb dense_connections
                   then map (fun v => v * 3 + 1) (range 10)
                   else map (fun v => v * 2 + 1) (range 10));
          pif_min_scale := Table pif_min_scale;
          paf_min_distance :=
            Table (map (fun v => PyFloat.mul v PyFloat.three) pif_min_scale);
          paf_max_distance :=
            Table (list_times [Some (PyFloat.of_Z 160); Some (PyFloat.of_Z 240);
                               Some (PyFloat.of_Z 320); Some (PyFloat.of_Z 480);
                               None] 2) |}
  else if multi_scale && negb multi_scale_hflip then
    let resolutions :=
      [PyInt 1; PyFlt PyFloat.f1_5; PyInt 2; PyInt 3; PyInt 5] in
    stride <- comprehension
                (fun r => s <- last_item (head_strides model) ;; py_mul s r)
                resolutions ;;
    let pif_min_scale :=
      [PyFloat.zero; PyFloat.of_Z 12; PyFloat.of_Z 16;
       PyFloat.of_Z 24; PyFloat.of_Z 40] in
    Ok {| stride := Table stride;
          pif_index :=
            Table (if negb dense_connections
                   then map (fun v => v * 3) (range 5)
                   else map (fun v => v * 2) (range 5));
          paf_index :=
            Table (if negb dense_connections
                   then map (fun v => v * 3 + 1) (range 5)
                   else map (fun v => v * 2 + 1) (range 5));
          pif_min_scale := Table pif_min_scale;
          paf_min_distance :=
            Table (map (fun v => PyFloat.mul v PyFloat.three) pif_min_scale);
          paf_max_distance :=
            Table [Some (PyFloat.of_Z 160); Some (PyFloat.of_Z 240);
                   Some (PyFloat.of_Z 320); Some (PyFloat.of_Z 480); None] |}
  else
    Ok {| stride := Single stride0;
          pif_index := Single 0;
          paf_index := Single 1;
          pif_min_scale := Single PyFloat.zero;
          paf_min_distance := Single PyFloat.zero;
          paf_max_distance := Single None |}.

(** [[1.0 for _ in COCO_PERSON_SKELETON] +
     [dense_coupling for _ in DENSER_COCO_PERSON_CONNECTIONS]] *)
Definition dense_confidence_scales (dense_coupling : float) : list float :=
  (map (fun _ => PyFloat.one) COCO_PERSON_SKELETON
   ++ map (fun _ => dense_coupling) DENSER_COCO_PERSON_CONNECTIONS)%list.

Definition factory_decode (model : Model) (dense_coupling : float)
    (dense_connections paf_seeds multi_scale multi_scale_hflip : bool)
    (kwargs : gmap string pyval) : Run :=
  let head_names := head_names model in
  if bool_decide (head_names = ["cif"]) then
    and_then (last_item (head_strides model)) (fun s =>
      call ["head_index"] kwargs
        (Pif {| pif_stride := s; pif_head_index := 0; pif_kwargs := kwargs |}))
  else if bool_decide (head_names = ["cif"; "caf"; "caf25"]) then
    let '(confidence_scales, skeleton) :=
      if dense_connections
      then (Some (dense_confidence_scales dense_coupling),
            (COCO_PERSON_SKELETON ++ DENSER_COCO_PERSON_CONNECTIONS)%list)
      else (None, COCO_PERSON_SKELETON) in
    if paf_seeds then
      and_then (last_item (head_strides model)) (fun s =>
        call ["paf_index"; "keypoints"; "skeleton"; "out_skeleton";
              "confidence_scales"] kwargs
          (PafsDijkstra
             {| pd_stride := s;
                pd_paf_index := 1;
                pd_keypoints := COCO_KEYPOINTS;
                pd_skeleton := skeleton;
                pd_out_skeleton := COCO_PERSON_SKELETON;
                pd_confidence_scales := confidence_scales;
                pd_kwargs := kwargs |}))
    else
      and_then (last_item (head_strides model)) (fun s =>
        call ["pif_index"; "paf_index"; "keypoints"; "skeleton";
              "out_skeleton"; "confidence_scales"] kwargs
          (CifCaf
             {| cc_stride := Single s;
                cc_pif_index := Single 0;
                cc_paf_index := Single 1;
                cc_pif_min_scale := Omitted;
                cc_paf_min_distance := Omitted;
                cc_paf_max_distance := Omitted;
                cc_keypoints := COCO_KEYPOINTS;
                cc_skeleton := skeleton;
                cc_out_skeleton := Passed COCO_PERSON_SKELETON;
                cc_confidence_scales := Passed confidence_scales;
                cc_kwargs := kwargs |}))
  else if bool_decide (head_names = ["cif"; "paf"; "paf25"]) then
    and_then (paf_locals model dense_connections multi_scale multi_scale_hflip)
      (fun l =>
        if dense_connections then
          let confidence_scales := dense_confidence_scales dense_coupling in
          call ["pif_index"; "paf_index"; "pif_min_scale"; "paf_min_distance";
                "paf_max_distance"; "keypoints"; "skeleton";
                "confidence_scales"] kwargs
            (CifCaf
               {| cc_stride := stride l;
                  cc_pif_index := pif_index l;
                  cc_paf_index := paf_index l;
                  cc_pif_min_scale := Passed (pif_min_scale l);
                  cc_paf_min_distance := Passed (paf_min_distance l);
                  cc_paf_max_distance := Passed (paf_max_distance l);
                  cc_keypoints := COCO_KEYPOINTS;
                  cc_skeleton :=
                    (COCO_PERSON_SKELETON ++ DENSER_COCO_PERSON_CONNECTIONS)%list;
                  cc_out_skeleton := Omitted;
                  cc_confidence_scales := Passed (Some confidence_scales);
                  cc_kwargs := kwargs |})
        else
          call ["pif_index"; "paf_index"; "pif_min_scale"; "paf_min_distance";
                "paf_max_distance"; "keypoints"; "skeleton"] kwargs
            (CifCaf
               {| cc_stride := stride l;
                  cc_pif_index := pif_index l;
                  cc_paf_index := paf_index l;
                  cc_pif_min_scale := Passed (pif_min_scale l);
                  cc_paf_min_distance := Passed (paf_min_distance l);
                  cc_paf_max_distance := Passed (paf_max_distance l);
                  cc_keypoints := COCO_KEYPOINTS;
                  cc_skeleton := COCO_PERSON_SKELETON;
                  cc_out_skeleton := Omitted;
                  cc_confidence_scales := Omitted;
                  cc_kwargs := kwargs |}))
  else
    raised (Exception_ "decoder unknown for head names: {}" head_names).

End Factory.

(** ** Reading a constructed decoder *)

(** The head-name tuples the factory has a branch for. *)
Definition supported_head_names : list (list string) :=
  [ ["cif"]; ["cif"; "caf"; "caf25"]; ["cif"; "paf"; "paf25"] ].

(** The edge list a decoder was constructed with ([Pif] takes none). *)
Definition decoder_skeleton (d : Decoder) : option skeleton_t :=
  match d with
  | Pif _ => None
  | PafsDijkstra c => Some (pd_skeleton c)
  | CifCaf c => Some (cc_skeleton c)
  end.

(** The confidence-scale list a decoder was constructed with: [None] when
    the keyword was left out or passed as [None]. *)
Definition decoder_confidence_scales (d : Decoder) : option (list float) :=
  match d with
  | Pif _ => None
  | PafsDijkstra c => pd_confidence_scales c
  | CifCaf c =>
      match cc_confidence_scales c with
      | Passed (Some l) => Some l
      | Passed None | Omitted => None
      end
  end.

(** Every keyword that one of the constructor calls writes out. *)
Definition written_keywords : list string :=
  ["head_index"; "pif_index"; "paf_index"; "pif_min_scale";
   "paf_min_distance"; "paf_max_distance"; "keypoints"; "skeleton";
   "out_skeleton"; "confidence_scales"].

(** A stride that every resolution can multiply: an [int] stride must be
    convertible to a float for the product with 1.5. *)
Definition usable_stride (s : pynum) : bool :=
  is_ok (py_mul s (PyFlt PyFloat.f1_5)).

(** The calls on which no argument expression and no constructor call can
    raise: the model has a last head stride, the stride is usable, and the
    forwarded keywords repeat none of the written ones. *)
Definition well_formed_call (model : Model) (kwargs : gmap string pyval) : bool :=
  match last (head_strides model) with
  | Some s => usable_stride s
  | None => false
  end
  && negb (repeated_keyword written_keywords kwargs).

(** A per-resolution table: given once, or twice over when the mirrored
    pass is decoded as well. *)
Definition per_pass {A} (hflip : bool) (l : list A) : list A :=
  if hflip then (l ++ l)%list else l.

(** ** Concrete inputs *)

Module Examples.

(** A visualizer whose only class-level state is whether debugging is on. *)
Definition vis_configure (a : Namespace) (_ : bool) : bool := debug a.

Definition assembler0 : AssemblerCls :=
  {| cls_paf_th := PyFloat.zero; cls_connection_method := "max";
     cls_force_complete := true |}.

Definition world_of (a : Namespace) : World (VisualizerCls := bool) :=
  {| args := a; CifCaf_cls := assembler0; PafsDijkstra_cls := assembler0;
     PifHr_v_threshold := PyFloat.zero;
     Frontier_cls := {| fr_keypoint_threshold := None; fr_greedy := false |};
     Visualizer_cls := false |}.

(** The command line [--no-force-complete-pose --batch-size 8], every
    other option at its default. *)
Definition args_incomplete : Namespace :=
  {| paf_th := PyFloat.f0_2; connection_method := "blend";
     force_complete_pose := false; pif_th := PyFloat.f0_2;
     seed_threshold := PyFloat.f0_2; instance_threshold := PyFloat.zero;
     keypoint_threshold := None; greedy := false;
     decoder_workers := None; batch_size := Some 8; debug := false |}.

(** The defaults: complete poses are forced. *)
Definition args_default : Namespace :=
  {| paf_th := PyFloat.f0_2; connection_method := "blend";
     force_complete_pose := true; pif_th := PyFloat.f0_2;
     seed_threshold := PyFloat.f0_2; instance_threshold := PyFloat.zero;
     keypoint_threshold := None; greedy := false;
     decoder_workers := None; batch_size := None; debug := false |}.

(** [--keypoint-threshold 0.01 --no-force-complete-pose] *)
Definition args_explicit : Namespace :=
  set_keypoint_threshold (Some PyFloat.f0_01) args_incomplete.

(** [--keypoint-threshold 0.001] with complete poses forced. *)
Definition args_forced_nonzero : Namespace :=
  set_keypoint_threshold (Some PyFloat.f0_001) args_default.

(** [--seed-threshold 0.0 --no-force-complete-pose --batch-size 8] *)
Definition args_low_seed : Namespace :=
  {| paf_th := PyFloat.f0_2; connection_method := "blend";
     force_complete_pose := false; pif_th := PyFloat.f0_2;
     seed_threshold := PyFloat.zero; instance_threshold := PyFloat.zero;
     keypoint_threshold := None; greedy := false;
     decoder_workers := None; batch_size := Some 8; debug := false |}.

(** [--decoder-workers 2 --batch-size 8 --no-force-complete-pose] *)
Definition args_workers_given : Namespace :=
  set_decoder_workers (Some 2) args_incomplete.

(** A sample of the constants of the [data] module. *)
Definition keypoints3 : list string := ["nose"; "left_eye"; "right_eye"].
Definition skeleton3 : skeleton_t := [(2, 3); (1, 2); (1, 3)].
Definition denser3 : skeleton_t := [(1, 4); (1, 5)].

(** The keywords [factory_from_args] forwards. *)
Definition kwargs0 : gmap string pyval :=
  <["seed_threshold" := VNum (PyFlt PyFloat.f0_2)]>
    (<["debug_visualizer" := VNone]> ∅).

Definition model_cif : Model :=
  {| head_names := ["cif"]; head_strides := [PyInt 8] |}.
Definition model_caf : Model :=
  {| head_names := ["cif"; "caf"; "caf25"];
     head_strides := [PyInt 8; PyInt 8; PyInt 8] |}.
Definition model_paf : Model :=
  {| head_names := ["cif"; "paf"; "paf25"];
     head_strides := [PyInt 8; PyInt 8; PyInt 8] |}.
(** The head names of an earlier naming scheme. *)
Definition model_pif_paf : Model :=
  {| head_names := ["pif"; "paf"];
     head_strides := [PyInt 16; PyInt 16] |}.

End Examples.

(** ** [factory_from_args] *)

(** The attributes of [args] that [factory_from_args] reads and
    [configure] does not: they belong to the same namespace object, which
    [configure] leaves untouched in these. *)
Record DecoderOptions : Type := {
  dense_coupling : float;
  dense_connections : bool;
  paf_seeds : bool;
  multi_scale : bool;
  multi_scale_hflip : bool;
  profile_decoder : option bool
}.

(** The call [Visualizer(keypoints=..., skeleton=...)]. *)
Record VisualizerCall : Type := {
  vis_keypoints : list string;
  vis_skeleton : skeleton_t
}.

(** The call [Processor(model, decode, instance_threshold=..., ...)]. *)
Record ProcessorCall : Type := {
  pr_model : Model;
  pr_decode : Decoder;
  pr_instance_threshold : float;
  pr_keypoint_threshold : option float;
  pr_debug_visualizer : option VisualizerCall;
  pr_profile : option bool;
  pr_worker_pool : option Z;
  pr_device : option string
}.

Section FromArgs.

Context {VisualizerCls : Type}.
Variable visualizer_configure : Namespace -> VisualizerCls -> VisualizerCls.
Variable COCO_KEYPOINTS : list string.
Variable COCO_PERSON_SKELETON : skeleton_t.
Variable DENSER_COCO_PERSON_CONNECTIONS : skeleton_t.

(** What a run of [factory_from_args] leaves: the store, the decoder
    classes instantiated, and the processor returned or the exception
    raised. *)
Record FromArgsRun : Type := {
  fa_world : World (VisualizerCls := VisualizerCls);
  fa_instantiated : list DecoderClass;
  fa_outcome : result ProcessorCall
}.

(** The keywords [factory_decode] receives in [**kwargs]: the two that
    are not parameters of its own. *)
Definition forwarded_kwargs (seed : float) (debug_visualizer : option VisualizerCall)
    : gmap string pyval :=
  <["seed_threshold" := VNum (PyFlt seed)]>
    (<["debug_visualizer" :=
         match debug_visualizer with
         | Some _ => VObject "Visualizer"
         | None => VNone
         end]> ∅).

Definition factory_from_args (opts : DecoderOptions) (model : Model)
    (device : option string) (w : World) : FromArgsRun :=
  match configure visualizer_configure w with
  | (w1, Raise e) =>
      {| fa_world := w1; fa_instantiated := []; fa_outcome := Raise e |}
  | (w1, Ok _) =>
      let a := args w1 in
      let debug_visualizer :=
        if debug a
        then Some {| vis_keypoints := COCO_KEYPOINTS;
                     vis_skeleton :=
                       (COCO_PERSON_SKELETON ++ DENSER_COCO_PERSON_CONNECTIONS)%list |}
        else None in
      let run :=
        factory_decode COCO_KEYPOINTS COCO_PERSON_SKELETON
          DENSER_COCO_PERSON_CONNECTIONS model
          (dense_coupling opts) (dense_connections opts) (paf_seeds opts)
          (multi_scale opts) (multi_scale_hflip opts)
          (forwarded_kwargs (seed_threshold a) debug_visualizer) in
      match outcome run with
      | Raise e =>
          {| fa_world := w1; fa_instantiated := instantiated run;
             fa_outcome := Raise e |}
      | Ok decode =>
          {| fa_world := w1; fa_instantiated := instantiated run;
             fa_outcome :=
               Ok {| pr_model := model;
                     pr_decode := decode;
                     pr_instance_threshold := instance_threshold a;
                     pr_keypoint_threshold := keypoint_threshold a;
                     pr_debug_visualizer := debug_visualizer;
                     pr_profile := profile_decoder opts;
                     pr_worker_pool := decoder_workers a;
                     pr_device := device |} |}
      end
  end.

End FromArgs.

(** The forwarded keywords of a constructed decoder. *)
Definition decoder_kwargs (d : Decoder) : gmap string pyval :=
  match d with
  | Pif c => pif_kwargs c
  | PafsDijkstra c => pd_kwargs c
  | CifCaf c => cc_kwargs c
  end.

(** ** [train.py]: the default output file *)

(** [s.rfind(c)] for a one-character [c]: the highest index at which [c]
    occurs, or [-1]. *)
Fixpoint rfind (c : ascii) (s : string) : Z :=
  match s with
  | EmptyString => -1
  | String a s' =>
      let r := rfind c s' in
      if 0 <=? r then r + 1
      else if Ascii.eqb a c then 0 else -1
  end.

(** [s[n:]] *)
Fixpoint string_from (n : nat) (s : string) : string :=
  match n, s with
  | O, _ => s
  | S n', String _ s' => string_from n' s'
  | S _, EmptyString => EmptyString
  end.

(** [os.path.basename(p)] of [posixpath]:
    [i = p.rfind('/') + 1; return p[i:]]. *)
Definition basename (p : string) : string :=
  string_from (Z.to_nat (rfind "/"%char p + 1)) p.

(** [s.partition(c)] for a one-character [c]: the part before the first
    [c], the separator, and the part after it; [(s, '', '')] when [c] does
    not occur. *)
Fixpoint partition (c : ascii) (s : string) : string * string * string :=
  match s with
  | EmptyString => (EmptyString, EmptyString, EmptyString)
  | String a s' =>
      if Ascii.eqb a c then (EmptyString, String c EmptyString, s')
      else let '(h, sep, t) := partition c s' in (String a h, sep, t)
  end.

(** [str(z)] for an [int]. *)
Definition str_int (z : Z) : string := NilZero.string_of_int (Z.to_int z).

(** The attributes of the training arguments that [default_output_file]
    and the set-up statements of [cli] read or write.  [device] and
    [pin_memory] do not exist until [cli] adds them. *)
Record TrainArgs : Type := {
  basenet : option string;
  checkpoint : option string;
  dataset : string;
  cocokp_square_edge : Z;
  regression_loss : string;
  r_smooth : float;
  cocokp_orientation_invariant : float;
  cocokp_extended_scale : bool;
  output : option string;
  disable_cuda : bool;
  local_rank : option Z;
  device : option string;
  pin_memory : option bool
}.

Section DefaultOutputFile.

(** The clock and the two float formats are taken as parameters:
    [now] is [datetime.datetime.now().strftime('%y%m%d-%H%M%S')],
    [str_float x] is ['{}'.format(x)] and [format_02_0f x] is
    ['{:02.0f}'.format(x)]. *)
Variable now : string.
Variable str_float : float -> string.
Variable format_02_0f : float -> string.

(** [if not base_name]: [None] and the empty string are falsy. *)
Definition falsy_name (b : option string) : bool :=
  match b with
  | None => true
  | Some EmptyString => true
  | Some _ => false
  end.

(** The truth value of a float: every float but the zeros. *)
Definition float_truth (x : float) : bool := negb (PyFloat.eqb x PyFloat.zero).

Definition default_output_file (args : TrainArgs) : result string :=
  match
    (if falsy_name (basenet args) then
       match checkpoint args with
       | Some c => Ok (partition "-"%char (basename c)).1.1
       | None => Raise (TypeError "expected str, bytes or os.PathLike object, not NoneType")
       end
     else Ok (default EmptyString (basenet args)))
  with
  | Raise e => Raise e
  | Ok base_name =>
      let out := "outputs/" +:+ base_name +:+ "-" +:+ now +:+ "-" +:+ dataset args in
      let out :=
        if negb (cocokp_square_edge args =? 385)
        then out +:+ "-edge" +:+ str_int (cocokp_square_edge args) else out in
      let out :=
        if negb (String.eqb (regression_loss args) "laplace")
        then out +:+ "-" +:+ regression_loss args else out in
      let out :=
        if negb (PyFloat.eqb (r_smooth args) PyFloat.zero)
        then out +:+ "-rsmooth" +:+ str_float (r_smooth args) else out in
      let out :=
        if float_truth (cocokp_orientation_invariant args)
           || cocokp_extended_scale args
        then
          let out := out +:+ "-" in
          let out :=
            if float_truth (cocokp_orientation_invariant args)
            then out +:+ "o" +:+
                 format_02_0f (PyFloat.mul (cocokp_orientation_invariant args)
                                           (PyFloat.of_Z 100))
            else out in
          if cocokp_extended_scale args then out +:+ "s" else out
        else out in
      Ok (out +:+ ".pkl")
  end.

(** *** The set-up statements of [cli], from the SLURM block to the
    default output file (after [parse_args], before the [configure] calls
    of the other modules) *)

(** The process state these statements work on: the parsed arguments,
    [os.environ], and the directories asked of [os.makedirs]. *)
Record TrainWorld : Type := {
  targs : TrainArgs;
  environ : gmap string string;
  made_dirs : list string
}.

Definition set_local_rank (v : option Z) (a : TrainArgs) : TrainArgs :=
  {| basenet := basenet a; checkpoint := checkpoint a; dataset := dataset a;
     cocokp_square_edge := cocokp_square_edge a;
     regression_loss := regression_loss a; r_smooth := r_smooth a;
     cocokp_orientation_invariant := cocokp_orientation_invariant a;
     cocokp_extended_scale := cocokp_extended_scale a;
     output := output a; disable_cuda := disable_cuda a;
     local_rank := v; device := device a; pin_memory := pin_memory a |}.

Definition set_device (d : string) (pin : bool) (a : TrainArgs) : TrainArgs :=
  {| basenet := basenet a; checkpoint := checkpoint a; dataset := dataset a;
     cocokp_square_edge := cocokp_square_edge a;
     regression_loss := regression_loss a; r_smooth := r_smooth a;
     cocokp_orientation_invariant := cocokp_orientation_invariant a;
     cocokp_extended_scale := cocokp_extended_scale a;
     output := output a; disable_cuda := disable_cuda a;
     local_rank := local_rank a; device := Some d; pin_memory := Some pin |}.

Definition set_output (o : option string) (a : TrainArgs) : TrainArgs :=
  {| basenet := basenet a; checkpoint := checkpoint a; dataset := dataset a;
     cocokp_square_edge := cocokp_square_edge a;
     regression_loss := regression_loss a; r_smooth := r_smooth a;
     cocokp_orientation_invariant := cocokp_orientation_invariant a;
     cocokp_extended_scale := cocokp_extended_scale a;
     output := o; disable_cuda := disable_cuda a;
     local_rank := local_rank a; device := device a;
     pin_memory := pin_memory a |}.

(** The truth value of [os.environ.get(k)]: set, and not empty. *)
Definition env_truth (env : gmap string string) (k : string) : bool :=
  match env !! k with
  | Some EmptyString | None => false
  | Some _ => true
  end.

(** The SLURM block. *)
Definition slurm_setup (w : TrainWorld) : TrainWorld :=
  match environ w !! "SLURM_PROCID" with
  | None => w
  | Some slurm_process_id =>
      let env := <["RANK" := slurm_process_id]> (environ w) in
      let env :=
        if negb (env_truth env "WORLD_SIZE") && env_truth env "SLURM_NTASKS"
        then match env !! "SLURM_NTASKS" with
             | Some n => <["WORLD_SIZE" := n]> env
             | None => env
             end
        else env in
      {| targs := set_local_rank (Some 0) (targs w);
         environ := env; made_dirs := made_dirs w |}
  end.

(** [args.device], [args.pin_memory]. *)
Definition device_setup (cuda_is_available : bool) (w : TrainWorld) : TrainWorld :=
  let a := set_device "cpu" false (targs w) in
  let a :=
    if negb (disable_cuda a) && cuda_is_available
    then set_device "cuda" true a else a in
  {| targs := a; environ := environ w; made_dirs := made_dirs w |}.

(** The output block. *)
Definition output_setup (w : TrainWorld) : TrainWorld * result unit :=
  match output (targs w) with
  | Some _ => (w, Ok tt)
  | None =>
      match default_output_file (targs w) with
      | Raise e => (w, Raise e)
      | Ok out =>
          ({| targs := set_output (Some out) (targs w);
              environ := environ w;
              made_dirs := (made_dirs w ++ ["outputs"])%list |}, Ok tt)
      end
  end.

Definition cli_setup (cuda_is_available : bool) (w : TrainWorld)
    : TrainWorld * result unit :=
  output_setup (device_setup cuda_is_available (slurm_setup w)).

(** *** The parts of the default name

    [base_name] and [name_suffix] restate the two halves of
    [default_output_file]; the lemma [default_output_file_shape] below
    proves that they agree with it. *)

Definition base_name (args : TrainArgs) : result string :=
  if falsy_name (basenet args) then
    match checkpoint args with
    | Some c => Ok (partition "-"%char (basename c)).1.1
    | None => Raise (TypeError "expected str, bytes or os.PathLike object, not NoneType")
    end
  else Ok (default EmptyString (basenet args)).

Definition name_suffix (args : TrainArgs) : string :=
  (if negb (cocokp_square_edge args =? 385)
   then "-edge" +:+ str_int (cocokp_square_edge args) else "")
  +:+ (if negb (String.eqb (regression_loss args) "laplace")
       then "-" +:+ regression_loss args else "")
  +:+ (if negb (PyFloat.eqb (r_smooth args) PyFloat.zero)
       then "-rsmooth" +:+ str_float (r_smooth args) else "")
  +:+ (if float_truth (cocokp_orientation_invariant args)
          || cocokp_extended_scale args
       then "-"
            +:+ (if float_truth (cocokp_orientation_invariant args)
                 then "o" +:+
                      format_02_0f (PyFloat.mul (cocokp_orientation_invariant args)
                                                (PyFloat.of_Z 100))
                 else "")
            +:+ (if cocokp_extended_scale args then "s" else "")
       else "").

Definition set_basenet (b : option string) (a : TrainArgs) : TrainArgs :=
  {| basenet := b; checkpoint := checkpoint a; dataset := dataset a;
     cocokp_square_edge := cocokp_square_edge a;
     regression_loss := regression_loss a; r_smooth := r_smooth a;
     cocokp_orientation_invariant := cocokp_orientation_invariant a;
     cocokp_extended_scale := cocokp_extended_scale a;
     output := output a; disable_cuda := disable_cuda a;
     local_rank := local_rank a; device := device a;
     pin_memory := pin_memory a |}.

Definition set_checkpoint (c : option string) (a : TrainArgs) : TrainArgs :=
  {| basenet := basenet a; checkpoint := c; dataset := dataset a;
     cocokp_square_edge := cocokp_square_edge a;
     regression_loss := regression_loss a; r_smooth := r_smooth a;
     cocokp_orientation_invariant := cocokp_orientation_invariant a;
     cocokp_extended_scale := cocokp_extended_scale a;
     output := output a; disable_cuda := disable_cuda a;
     local_rank := local_rank a; device := device a;
     pin_memory := pin_memory a |}.

End DefaultOutputFile.

(** A character occurs in a string. *)
Fixpoint occurs (c : ascii) (s : string) : bool :=
  match s with
  | EmptyString => false
  | String a s' => Ascii.eqb a c || occurs c s'
  end.

(** ** Concrete training arguments *)

Module TrainExamples.

Definition now0 : string := "201104-101010".
(** The clock one second later. *)
Definition later0 : string := "201104-101011".
Definition str_float0 (x : float) : string :=
  if PyFloat.eqb x PyFloat.f0_2 then "0.2" else "0.0".
Definition format0 (x : float) : string :=
  if PyFloat.eqb x (PyFloat.of_Z 20) then "20" else "00".

(** [--basenet resnet50 --dataset cocokp], everything else standard. *)
Definition args_basenet : TrainArgs :=
  {| basenet := Some "resnet50"; checkpoint := None; dataset := "cocokp";
     cocokp_square_edge := 385; regression_loss := "laplace";
     r_smooth := PyFloat.zero;
     cocokp_orientation_invariant := PyFloat.zero;
     cocokp_extended_scale := false;
     output := None; disable_cuda := false; local_rank := None;
     device := None; pin_memory := None |}.

(** [--checkpoint outputs/resnet50-200101-120000-cocokp.pkl
     --cocokp-square-edge 401 --cocokp-extended-scale] *)
Definition args_checkpoint : TrainArgs :=
  {| basenet := None;
     checkpoint := Some "outputs/resnet50-200101-120000-cocokp.pkl";
     dataset := "cocokp";
     cocokp_square_edge := 401; regression_loss := "laplace";
     r_smooth := PyFloat.zero;
     cocokp_orientation_invariant := PyFloat.zero;
     cocokp_extended_scale := true;
     output := None; disable_cuda := false; local_rank := None;
     device := None; pin_memory := None |}.

(** Neither [--basenet] nor [--checkpoint]. *)
Definition args_nameless : TrainArgs := set_basenet None args_basenet.

(** [-o my.pkl] *)
Definition args_output : TrainArgs :=
  {| basenet := None; checkpoint := None; dataset := "cocokp";
     cocokp_square_edge := 385; regression_loss := "laplace";
     r_smooth := PyFloat.zero;
     cocokp_orientation_invariant := PyFloat.zero;
     cocokp_extended_scale := false;
     output := Some "my.pkl"; disable_cuda := true; local_rank := None;
     device := None; pin_memory := None |}.

(** A SLURM job of 8 tasks, this one being task 3. *)
Definition env_slurm : gmap string string :=
  <["SLURM_PROCID" := "3"]> (<["SLURM_NTASKS" := "8"]> ∅).

(** The same with the world size already exported. *)
Definition env_slurm_world : gmap string string :=
  <["WORLD_SIZE" := "4"]> env_slurm.

Definition world_of (a : TrainArgs) (env : gmap string string) : TrainWorld :=
  {| targs := a; environ := env; made_dirs := [] |}.

End TrainExamples.

(** ** [cli]: the decoder's command line *)

(** What [add_argument] records of an option: its option string, the
    attribute it sets, its default, its action, its type and its choices. *)
Inductive ArgAction : Type := store | store_true | store_false.
Inductive ArgType : Type := type_float | type_int.

Record Argument : Type := {
  option_string : string;
  arg_dest : string;
  arg_default : pyval;
  arg_action : ArgAction;
  arg_type : option ArgType;
  arg_choices : option (list string)
}.

(** [add_argument] either registers the option or raises
    [argparse.ArgumentError] for an option string that is taken. *)
Inductive Registration (A : Type) : Type :=
| Registered (a : A)
| ArgumentError (conflicting : string).
Arguments Registered {A} a.
Arguments ArgumentError {A} conflicting.

(** [s.lstrip(c)] and [s.replace(a, b)] for single characters. *)
Fixpoint lstrip (c : ascii) (s : string) : string :=
  match s with
  | EmptyString => EmptyString
  | String a s' => if Ascii.eqb a c then lstrip c s' else s
  end.

Fixpoint replace_char (a b : ascii) (s : string) : string :=
  match s with
  | EmptyString => EmptyString
  | String x s' => String (if Ascii.eqb x a then b else x) (replace_char a b s')
  end.

(** The attribute an option sets when no [dest] is given. *)
Definition dest_of_option (opt : string) : string :=
  replace_char "-"%char "_"%char (lstrip "-"%char opt).

Definition add_argument (opt : string) (dest : option string) (dflt : pyval)
    (act : ArgAction) (ty : option ArgType) (choices : option (list string))
    (parser : list Argument) : Registration (list Argument) :=
  if existsb (fun a => String.eqb (option_string a) opt) parser
  then ArgumentError opt
  else Registered
         (parser ++ [ {| option_string := opt;
                         arg_dest := default (dest_of_option opt) dest;
                         arg_default := dflt;
                         arg_action := act;
                         arg_type := ty;
                         arg_choices := choices |} ])%list.

Definition and_register (r : Registration (list Argument))
    (k : list Argument -> Registration (list Argument))
    : Registration (list Argument) :=
  match r with
  | Registered parser => k parser
  | ArgumentError o => ArgumentError o
  end.

Definition opt_float (o : option float) : pyval :=
  match o with Some f => VNum (PyFlt f) | None => VNone end.
Definition opt_int (o : option Z) : pyval :=
  match o with Some z => VNum (PyInt z) | None => VNone end.

(** [cli(parser, *, force_complete_pose, seed_threshold, instance_threshold,
    keypoint_threshold, workers)].  [parser] holds what [visualizer.cli]
    registered; the defaults of three options are read off the class
    attributes [PifHr.v_threshold], [CifCaf.paf_th] and
    [CifCaf.connection_method]. *)
Definition cli (PifHr_v_threshold CifCaf_paf_th : float)
    (CifCaf_connection_method : string)
    (force_complete_pose : bool) (seed_threshold instance_threshold : float)
    (keypoint_threshold : option float) (workers : option Z)
    (parser : list Argument) : Registration (list Argument) :=
  and_register (add_argument "--seed-threshold" None
                  (VNum (PyFlt seed_threshold)) store (Some type_float) None parser)
  (fun parser =>
  and_register (add_argument "--instance-threshold" None
                  (VNum (PyFlt instance_threshold)) store (Some type_float) None parser)
  (fun parser =>
  and_register (add_argument "--keypoint-threshold" None
                  (opt_float keypoint_threshold) store (Some type_float) None parser)
  (fun parser =>
  and_register (add_argument "--decoder-workers" None
                  (opt_int workers) store (Some type_int) None parser)
  (fun parser =>
  and_register (add_argument "--dense-connections" None
                  (VBool false) store_true None None parser)
  (fun parser =>
  and_register (add_argument "--dense-coupling" None
                  (VNum (PyFlt PyFloat.f0_01)) store (Some type_float) None parser)
  (fun parser =>
  and_register (add_argument "--paf-seeds" None
                  (VBool false) store_true None None parser)
  (fun parser =>
  and_register
    (if force_complete_pose
     then add_argument "--no-force-complete-pose" (Some "force_complete_pose")
            (VBool true) store_false None None parser
     else add_argument "--force-complete-pose" (Some "force_complete_pose")
            (VBool false) store_true None None parser)
  (fun parser =>
  and_register (add_argument "--profile-decoder" None
                  VNone store_true None None parser)
  (fun parser =>
  and_register (add_argument "--pif-th" None
                  (VNum (PyFlt PifHr_v_threshold)) store (Some type_float) None parser)
  (fun parser =>
  and_register (add_argument "--paf-th" None
                  (VNum (PyFlt CifCaf_paf_th)) store (Some type_float) None parser)
  (fun parser =>
  and_register (add_argument "--connection-method" None
                  (VStr CifCaf_connection_method) store None
                  (Some ["median"; "max"; "blend"]) parser)
  (fun parser =>
  add_argument "--greedy" None (VBool false) store_true None None
    parser)))))))))))).

(** The namespace of an empty command line: every attribute at the
    default of the first option registered for it. *)
Definition parse_defaults (parser : list Argument) : gmap string pyval :=
  fold_right (fun a ns => <[arg_dest a := arg_default a]> ns) ∅ parser.

(** The value an option's flag stores, for the two flag actions. *)
Definition flag_value (a : Argument) : option bool :=
  match arg_action a with
  | store_true => Some true
  | store_false => Some false
  | store => None
  end.

(** The option strings [cli] registers, whichever flag it offers. *)
Definition cli_option_strings (force_complete_pose : bool) : list string :=
  ["--seed-threshold"; "--instance-threshold"; "--keypoint-threshold";
   "--decoder-workers"; "--dense-connections"; "--dense-coupling";
   "--paf-seeds";
   if force_complete_pose then "--no-force-complete-pose"
   else "--force-complete-pose";
   "--profile-decoder"; "--pif-th"; "--paf-th"; "--connection-method";
   "--greedy"].

(** *** The registrations of [cli], as a list

    [register_all] registers a list of arguments in order;
    [cli_arguments] lists what [cli] registers.  The lemma
    [cli_register_all] below proves that [cli] is [register_all] on that
    list. *)
Fixpoint register_all (specs parser : list Argument) : Registration (list Argument) :=
  match specs with
  | [] => Registered parser
  | a :: rest =>
      if existsb (fun b => String.eqb (option_string b) (option_string a)) parser
      then ArgumentError (option_string a)
      else register_all rest (parser ++ [a])%list
  end.

Definition argument (opt : string) (dest : option string) (dflt : pyval)
    (act : ArgAction) (ty : option ArgType) (choices : option (list string))
    : Argument :=
  {| option_string := opt; arg_dest := default (dest_of_option opt) dest;
     arg_default := dflt; arg_action := act; arg_type := ty;
     arg_choices := choices |}.

Definition cli_arguments (PifHr_v_threshold CifCaf_paf_th : float)
    (CifCaf_connection_method : string)
    (force_complete_pose : bool) (seed_threshold instance_threshold : float)
    (keypoint_threshold : option float) (workers : option Z) : list Argument :=
  [ argument "--seed-threshold" None (VNum (PyFlt seed_threshold)) store
      (Some type_float) None;
    argument "--instance-threshold" None (VNum (PyFlt instance_threshold)) store
      (Some type_float) None;
    argument "--keypoint-threshold" None (opt_float keypoint_threshold) store
      (Some type_float) None;
    argument "--decoder-workers" None (opt_int workers) store (Some type_int) None;
    argument "--dense-connections" None (VBool false) store_true None None;
    argument "--dense-coupling" None (VNum (PyFlt PyFloat.f0_01)) store
      (Some type_float) None;
    argument "--paf-seeds" None (VBool false) store_true None None;
    (if force_complete_pose
     then argument "--no-force-complete-pose" (Some "force_complete_pose")
            (VBool true) store_false None None
     else argument "--force-complete-pose" (Some "force_complete_pose")
            (VBool false) store_true None None);
    argument "--profile-decoder" None VNone store_true None None;
    argument "--pif-th" None (VNum (PyFlt PifHr_v_threshold)) store
      (Some type_float) None;
    argument "--paf-th" None (VNum (PyFlt CifCaf_paf_th)) store
      (Some type_float) None;
    argument "--connection-method" None (VStr CifCaf_connection_method) store
      None (Some ["median"; "max"; "blend"]);
    argument "--greedy" None (VBool false) store_true None None ].

(** The attributes [cli] provides. *)
Definition cli_dests : list string :=
  ["seed_threshold"; "instance_threshold"; "keypoint_threshold";
   "decoder_workers"; "dense_connections"; "dense_coupling"; "paf_seeds";
   "force_complete_pose"; "profile_decoder"; "pif_th"; "paf_th";
   "connection_method"; "greedy"].

(** Reading the attributes of a parsed namespace. *)
Definition as_float (v : option pyval) : option float :=
  match v with Some (VNum (PyFlt f)) => Some f | _ => None end.
Definition as_bool (v : option pyval) : option bool :=
  match v with Some (VBool b) => Some b | _ => None end.
Definition as_str (v : option pyval) : option string :=
  match v with Some (VStr s) => Some s | _ => None end.
Definition as_opt_float (v : option pyval) : option (option float) :=
  match v with
  | Some VNone => Some None
  | Some (VNum (PyFlt f)) => Some (Some f)
  | _ => None
  end.
Definition as_opt_int (v : option pyval) : option (option Z) :=
  match v with
  | Some VNone => Some None
  | Some (VNum (PyInt z)) => Some (Some z)
  | _ => None
  end.

(** The attributes [configure] reads, taken from a parsed namespace;
    [debug] and [batch_size] are registered by other modules. *)
Definition decoder_args (ns : gmap string pyval) (debug : bool)
    (batch_size : option Z) : option Namespace :=
  pt ← as_float (ns !! "paf_th");
  cm ← as_str (ns !! "connection_method");
  fcp ← as_bool (ns !! "force_complete_pose");
  pif ← as_float (ns !! "pif_th");
  seed ← as_float (ns !! "seed_threshold");
  inst ← as_float (ns !! "instance_threshold");
  kp ← as_opt_float (ns !! "keypoint_threshold");
  gr ← as_bool (ns !! "greedy");
  dw ← as_opt_int (ns !! "decoder_workers");
  Some {| paf_th := pt; connection_method := cm; force_complete_pose := fcp;
          pif_th := pif; seed_threshold := seed; instance_threshold := inst;
          keypoint_threshold := kp; greedy := gr; decoder_workers := dw;
          batch_size := batch_size; debug := debug |}.

(** ** Further concrete inputs *)

Module MoreExamples.

(** [--seed-threshold nan] *)
Definition args_nan_seed : Namespace :=
  {| paf_th := PyFloat.f0_2; connection_method := "blend";
     force_complete_pose := false; pif_th := PyFloat.f0_2;
     seed_threshold := PyFloat.nan; instance_threshold := PyFloat.zero;
     keypoint_threshold := None; greedy := false;
     decoder_workers := None; batch_size := Some 8; debug := false |}.

(** [--debug --batch-size 8 --no-force-complete-pose] *)
Definition args_debug : Namespace :=
  {| paf_th := PyFloat.f0_2; connection_method := "blend";
     force_complete_pose := false; pif_th := PyFloat.f0_2;
     seed_threshold := PyFloat.f0_2; instance_threshold := PyFloat.zero;
     keypoint_threshold := None; greedy := false;
     decoder_workers := None; batch_size := Some 8; debug := true |}.

Definition options0 : DecoderOptions :=
  {| dense_coupling := PyFloat.f0_01; dense_connections := false;
     paf_seeds := false; multi_scale := false; multi_scale_hflip := false;
     profile_decoder := None |}.

(** A model with the paf heads and no head strides. *)
Definition model_no_strides : Model :=
  {| head_names := ["cif"; "paf"; "paf25"]; head_strides := [] |}.

(** A model whose last head stride is an [int] beyond the float range. *)
Definition model_huge_stride : Model :=
  {| head_names := ["cif"; "paf"; "paf25"];
     head_strides := [PyInt 8; PyInt (2 ^ 1030)] |}.

(** A parser holding two options of the visualizer. *)
Definition parser_visualizer : list Argument :=
  [ argument "--debug-pif-indices" None VNone store (Some type_int) None;
    argument "--debug-file-prefix" None VNone store None None ].

(** A parser on which [--greedy] is taken. *)
Definition parser_taken : list Argument :=
  (parser_visualizer
   ++ [argument "--greedy" None (VBool false) store_true None None])%list.

End MoreExamples.

(** * Properties *)

(** ** Facts about float comparison *)

Module PyFloatFacts.

Lemma compare_antisym (x y : float) :
  SFcompare y x = CompOpp <$> SFcompare x y.
Proof.
  destruct x as [sx|sx| |sx mx ex], y as [sy|sy| |sy my ey];
    try (destruct sx); try (destruct sy); try reflexivity.
  - cbn. rewrite (Z.compare_antisym ey ex).
    pose proof (Pos.compare_cont_antisym mx my Eq) as H. cbn in H.
    destruct (ey ?= ex); cbn; try reflexivity.
    now rewrite <- H, CompOpp_involutive.
  - cbn. rewrite (Z.compare_antisym ey ex).
    pose proof (Pos.compare_cont_antisym mx my Eq) as H. cbn in H.
    destruct (ey ?= ex); cbn; try reflexivity.
    now rewrite <- H.
Qed.

(** [x < y] excludes [x >= y]. *)
Lemma ltb_geb (x y : float) :
  PyFloat.ltb x y = true -> PyFloat.geb x y = false.
Proof.
  unfold PyFloat.ltb, PyFloat.geb, SFltb, SFleb.
  rewrite (compare_antisym x y).
  destruct (SFcompare x y) as [[]|]; cbn; congruence.
Qed.

(** [y > x] is [x < y]. *)
Lemma gtb_ltb (x y : float) : PyFloat.gtb y x = PyFloat.ltb x y.
Proof. reflexivity. Qed.

(** The literals of the source are the correctly rounded binary64
    values of their decimal notation. *)
Lemma literals :
  PyFloat.f0_001 = PyFloat.div (PyFloat.of_Z 1) (PyFloat.of_Z 1000)
  /\ PyFloat.f0_01 = PyFloat.div (PyFloat.of_Z 1) (PyFloat.of_Z 100)
  /\ PyFloat.f0_2 = PyFloat.div (PyFloat.of_Z 1) (PyFloat.of_Z 5)
  /\ forallb PyFloat.is_float
       [PyFloat.zero; PyFloat.neg_zero; PyFloat.f0_001; PyFloat.f0_01;
        PyFloat.f0_2; PyFloat.one; PyFloat.f1_5; PyFloat.three] = true.
Proof. repeat split; vm_compute; reflexivity. Qed.

(** [-0.0 == 0.0], and NaN equals nothing. *)
Lemma eqb_zero_cases :
  PyFloat.eqb PyFloat.neg_zero PyFloat.zero = true
  /\ PyFloat.eqb PyFloat.nan PyFloat.zero = false
  /\ PyFloat.eqb PyFloat.f0_001 PyFloat.zero = false.
Proof. repeat split. Qed.

End PyFloatFacts.

(** ** [configure] *)

Section ConfigureFacts.

Context {VisualizerCls : Type}.
Variable vc : Namespace -> VisualizerCls -> VisualizerCls.

Implicit Types (w : World (VisualizerCls := VisualizerCls)) (a : Namespace).

Lemma configure_run w :
  configure vc w =
  (configured vc w, if consistent (args w) then Ok tt else Raise AssertionError).
Proof.
  destruct w as [a cc pd ph fr vz].
  destruct a as [pt cm fcp pif seed inst kp gr dw bs dbg].
  unfold configure, configured, consistent, workers_from_batch,
    resolved_keypoint_threshold, bind, read, write, when, py_assert,
    ge_opt, ret, raise, opt_eqb; cbn.
  destruct kp as [k|]; cbn.
  - destruct fcp; cbn.
    + destruct (PyFloat.eqb k PyFloat.zero); cbn; [|reflexivity].
      destruct (PyFloat.geb seed k); cbn; [|reflexivity].
      destruct dw, (1 <? default 1 bs), dbg; reflexivity.
    + destruct (PyFloat.geb seed k); cbn; [|reflexivity].
      destruct dw, (1 <? default 1 bs), dbg; reflexivity.
  - destruct fcp; cbn.
    + destruct (PyFloat.geb seed PyFloat.zero); cbn; [|reflexivity].
      destruct dw, (1 <? default 1 bs), dbg; reflexivity.
    + destruct (PyFloat.geb seed PyFloat.f0_001); cbn; [|reflexivity].
      destruct dw, (1 <? default 1 bs), dbg; reflexivity.
Qed.

Lemma configure_outcome w :
  (configure vc w).2 = if consistent (args w) then Ok tt else Raise AssertionError.
Proof. now rewrite configure_run. Qed.

Lemma configure_store w : (configure vc w).1 = configured vc w.
Proof. now rewrite configure_run. Qed.

Lemma configure_ok_consistent w :
  (configure vc w).2 = Ok tt <-> consistent (args w) = true.
Proof.
  rewrite configure_outcome. destruct (consistent (args w)); split; congruence.
Qed.

Lemma configure_only_asserts w e :
  (configure vc w).2 = Raise e -> e = AssertionError.
Proof.
  rewrite configure_outcome. destruct (consistent (args w)); congruence.
Qed.

Lemma configured_keypoint_threshold w :
  keypoint_threshold (args (configured vc w))
  = Some (resolved_keypoint_threshold (args w)).
Proof.
  unfold configured; cbn.
  destruct (consistent (args w) && workers_from_batch (args w)); reflexivity.
Qed.

Lemma configured_seed_threshold w :
  seed_threshold (args (configured vc w)) = seed_threshold (args w).
Proof.
  unfold configured; cbn.
  destruct (consistent (args w) && workers_from_batch (args w)); reflexivity.
Qed.

Lemma configured_instance_threshold w :
  instance_threshold (args (configured vc w)) = instance_threshold (args w).
Proof.
  unfold configured; cbn.
  destruct (consistent (args w) && workers_from_batch (args w)); reflexivity.
Qed.

Lemma configured_decoder_workers w :
  decoder_workers (args (configured vc w))
  = if consistent (args w) && workers_from_batch (args w)
    then batch_size (args w) else decoder_workers (args w).
Proof.
  unfold configured; cbn.
  destruct (consistent (args w) && workers_from_batch (args w)); reflexivity.
Qed.

(** *** The thresholds *)

(** C1 (as amended).  The threshold that [configure] holds the keypoint
    threshold against is the seed threshold: when [configure] returns,
    the seed threshold is greater than or equal to the resolved keypoint
    threshold; when the seed threshold is below the resolved keypoint
    threshold, [configure] raises [AssertionError].  The instance
    threshold is left as it was and has no part in the outcome. *)
Theorem C1_seed_threshold_checked_against_keypoint_threshold w :
  ((configure vc w).2 = Ok tt ->
     exists k, keypoint_threshold (args (configure vc w).1) = Some k
               /\ PyFloat.geb (seed_threshold (args w)) k = true)
  /\ (forall k, keypoint_threshold (args (configure vc w).1) = Some k ->
                PyFloat.ltb (seed_threshold (args w)) k = true ->
                (configure vc w).2 = Raise AssertionError)
  /\ instance_threshold (args (configure vc w).1) = instance_threshold (args w)
  /\ (forall i, (configure vc (on_args (set_instance_threshold i) w)).2
                = (configure vc w).2).
Proof.
  rewrite configure_store, configure_outcome, configured_keypoint_threshold.
  repeat split.
  - intros Hok. exists (resolved_keypoint_threshold (args w)). split; [done|].
    destruct (consistent (args w)) eqn:E; [|done].
    unfold consistent in E. now apply andb_prop in E as [_ E].
  - intros k [= <-] Hlt. apply PyFloatFacts.ltb_geb in Hlt.
    unfold consistent. rewrite Hlt, andb_false_r. reflexivity.
  - apply configured_instance_threshold.
  - intros i. rewrite configure_outcome. now destruct w as [[] ? ? ? ? ?].
Qed.

(** C8.  After every successful call to [configure] the seed threshold,
    which [configure] does not change, is greater than or equal to the
    resolved keypoint threshold; and [configure] fails whenever the
    resolved keypoint threshold exceeds the seed threshold. *)
Theorem C8_seed_threshold_at_least_keypoint_threshold w :
  (is_ok (configure vc w).2 = true ->
     seed_threshold (args (configure vc w).1) = seed_threshold (args w)
     /\ exists k, keypoint_threshold (args (configure vc w).1) = Some k
                  /\ PyFloat.geb (seed_threshold (args (configure vc w).1)) k = true)
  /\ (forall k, keypoint_threshold (args (configure vc w).1) = Some k ->
                PyFloat.gtb k (seed_threshold (args w)) = true ->
                is_ok (configure vc w).2 = false).
Proof.
  rewrite configure_store, configure_outcome, configured_keypoint_threshold,
    configured_seed_threshold.
  split.
  - destruct (consistent (args w)) eqn:E; [|done]. intros _. split; [done|].
    exists (resolved_keypoint_threshold (args w)). split; [done|].
    unfold consistent in E. now apply andb_prop in E as [_ E].
  - intros k [= <-] Hgt. rewrite PyFloatFacts.gtb_ltb in Hgt.
    apply PyFloatFacts.ltb_geb in Hgt.
    unfold consistent. now rewrite Hgt, andb_false_r.
Qed.

(** C2.  A keypoint threshold left unset is resolved by [configure] to
    0.001 when complete poses are not forced and to 0.0 when they are; a
    keypoint threshold that was given is kept.  This is what [args] holds
    afterwards, whether or not the checks that follow pass; when they
    pass, the decoder generator is configured with the same value. *)
Theorem C2_keypoint_threshold_default w :
  (keypoint_threshold (args w) = None -> force_complete_pose (args w) = false ->
     keypoint_threshold (args (configure vc w).1) = Some PyFloat.f0_001)
  /\ (keypoint_threshold (args w) = None -> force_complete_pose (args w) = true ->
        keypoint_threshold (args (configure vc w).1) = Some PyFloat.zero)
  /\ (forall k, keypoint_threshold (args w) = Some k ->
        keypoint_threshold (args (configure vc w).1) = Some k)
  /\ ((configure vc w).2 = Ok tt ->
        fr_keypoint_threshold (Frontier_cls (configure vc w).1)
        = keypoint_threshold (args (configure vc w).1)).
Proof.
  rewrite configure_store, configure_outcome, configured_keypoint_threshold.
  unfold resolved_keypoint_threshold.
  repeat split.
  - now intros -> ->.
  - now intros -> ->.
  - now intros k ->.
  - unfold configured; cbn. now destruct (consistent (args w)).
Qed.

(** C3.  With complete poses forced and a keypoint threshold given that
    is not equal to 0.0, [configure] stops with [AssertionError]; the
    threshold in [args] is still the one given, and the decoder generator
    has not been configured with it. *)
Theorem C3_forced_pose_rejects_nonzero_keypoint_threshold w k :
  force_complete_pose (args w) = true ->
  keypoint_threshold (args w) = Some k ->
  PyFloat.eqb k PyFloat.zero = false ->
  (configure vc w).2 = Raise AssertionError
  /\ keypoint_threshold (args (configure vc w).1) = Some k
  /\ Frontier_cls (configure vc w).1 = Frontier_cls w.
Proof.
  intros Hf Hk Hne.
  rewrite configure_store, configure_outcome, configured_keypoint_threshold.
  assert (consistent (args w) = false) as Hc.
  { unfold consistent, resolved_keypoint_threshold. now rewrite Hf, Hk, Hne. }
  rewrite Hc. repeat split.
  - unfold resolved_keypoint_threshold. now rewrite Hk.
  - unfold configured; cbn. now rewrite Hc.
Qed.

(** *** Running [configure] twice *)

Lemma resolved_keypoint_threshold_set a k :
  resolved_keypoint_threshold (set_keypoint_threshold (Some k) a) = k.
Proof. reflexivity. Qed.

Lemma consistent_configured w :
  consistent (args w) = true -> consistent (args (configured vc w)) = true.
Proof.
  intros Hc. unfold configured; cbn. rewrite Hc; cbn.
  destruct (workers_from_batch (args w)); exact Hc.
Qed.

Lemma workers_from_batch_configured w :
  consistent (args w) = true -> workers_from_batch (args (configured vc w)) = false.
Proof.
  intros Hc. unfold configured; cbn. rewrite Hc; cbn.
  destruct (workers_from_batch (args w)) eqn:Hw; [|exact Hw].
  unfold workers_from_batch in *; cbn.
  destruct (batch_size (args w)) as [b|]; [reflexivity|].
  cbn in Hw. now rewrite andb_false_r in Hw.
Qed.

(** A second run changes nothing but what [visualizer_configure] writes. *)
Lemma configured_twice w :
  consistent (args w) = true ->
  configured vc (configured vc w)
  = on_Visualizer (vc (args (configured vc w))) (configured vc w).
Proof.
  intros Hc.
  pose proof (consistent_configured w Hc) as Hc'.
  pose proof (workers_from_batch_configured w Hc) as Hw'.
  unfold configured at 1. rewrite Hc', Hw'. cbn.
  unfold on_Visualizer, configured, configured_assembler,
    resolved_keypoint_threshold.
  rewrite Hc. cbn.
  destruct (workers_from_batch (args w)); cbn; reflexivity.
Qed.

(** C9.  [configure] is idempotent on the arguments it accepts: a second
    call on the arguments the first one left succeeds, and leaves [args],
    the class attributes of both assemblers, the threshold of [PifHr] and
    the class attributes of the decoder generator as the first call left
    them. *)
Theorem C9_configure_idempotent w :
  (configure vc w).2 = Ok tt ->
  (configure vc (configure vc w).1).2 = Ok tt
  /\ args (configure vc (configure vc w).1).1 = args (configure vc w).1
  /\ CifCaf_cls (configure vc (configure vc w).1).1 = CifCaf_cls (configure vc w).1
  /\ PafsDijkstra_cls (configure vc (configure vc w).1).1
     = PafsDijkstra_cls (configure vc w).1
  /\ PifHr_v_threshold (configure vc (configure vc w).1).1
     = PifHr_v_threshold (configure vc w).1
  /\ Frontier_cls (configure vc (configure vc w).1).1 = Frontier_cls (configure vc w).1.
Proof.
  intros Hok. apply configure_ok_consistent in Hok.
  rewrite !configure_store, configure_outcome.
  rewrite (consistent_configured w Hok), (configured_twice w Hok).
  repeat split.
Qed.

(** *** Decoder workers *)

(** C10 (as amended).  [configure] sets the decoder worker count to the
    batch size exactly when the call returns, both assertions having
    passed, and the worker count was unset, the batch size is greater than
    1 and debug mode is off; in every other case, a call that an assertion
    stops included, the decoder worker count is left as it was. *)
Theorem C10_decoder_workers_from_batch_size w :
  ((configure vc w).2 = Ok tt ->
   decoder_workers (args w) = None ->
   1 < default 1 (batch_size (args w)) ->
   debug (args w) = false ->
   decoder_workers (args (configure vc w).1) = batch_size (args w)
   /\ exists b, batch_size (args w) = Some b /\ 1 < b)
  /\ (~ ((configure vc w).2 = Ok tt
         /\ decoder_workers (args w) = None
         /\ 1 < default 1 (batch_size (args w))
         /\ debug (args w) = false) ->
      decoder_workers (args (configure vc w).1) = decoder_workers (args w)).
Proof.
  rewrite configure_store, configure_outcome, configured_decoder_workers.
  split.
  - intros Hok Hw Hb Hd. split.
    + destruct (consistent (args w)); [|done].
      unfold workers_from_batch. rewrite Hw, Hd.
      apply Z.ltb_lt in Hb. now rewrite Hb.
    + destruct (batch_size (args w)) as [b|]; [eauto|].
      cbn in Hb. lia.
  - intros Hn.
    destruct (consistent (args w)); [|reflexivity].
    destruct (workers_from_batch (args w)) eqn:Hw; [|reflexivity].
    exfalso. apply Hn. unfold workers_from_batch in Hw.
    apply andb_prop in Hw as [Hw Hd]. apply andb_prop in Hw as [Hw Hb].
    apply bool_decide_eq_true in Hw. apply Z.ltb_lt in Hb.
    apply negb_true_iff in Hd. done.
Qed.

End ConfigureFacts.

(** *** [configure] on concrete command lines *)

Lemma C1_seed_threshold_checked_against_keypoint_threshold_witness :
  (exists k,
     keypoint_threshold
       (args (configure Examples.vis_configure
                (Examples.world_of Examples.args_incomplete)).1) = Some k
     /\ PyFloat.geb (seed_threshold (args (Examples.world_of Examples.args_incomplete))) k
        = true)
  /\ (configure Examples.vis_configure (Examples.world_of Examples.args_low_seed)).2
     = Raise AssertionError.
Proof.
  split.
  - apply (C1_seed_threshold_checked_against_keypoint_threshold
             Examples.vis_configure (Examples.world_of Examples.args_incomplete)).
    vm_compute. reflexivity.
  - destruct (C1_seed_threshold_checked_against_keypoint_threshold
                Examples.vis_configure (Examples.world_of Examples.args_low_seed))
      as (_ & H & _).
    apply (H PyFloat.f0_001); vm_compute; reflexivity.
Defined.

(** C1, as stated, fails on [--no-force-complete-pose]: [configure]
    accepts the arguments, the keypoint threshold is resolved to 0.001 and
    the instance threshold, 0.0, is below it. *)
Lemma C1_counterexample_instance_threshold_below_keypoint_threshold :
  (configure Examples.vis_configure (Examples.world_of Examples.args_incomplete)).2
  = Ok tt
  /\ keypoint_threshold
       (args (configure Examples.vis_configure
                (Examples.world_of Examples.args_incomplete)).1)
     = Some PyFloat.f0_001
  /\ instance_threshold
       (args (configure Examples.vis_configure
                (Examples.world_of Examples.args_incomplete)).1)
     = PyFloat.zero
  /\ PyFloat.geb PyFloat.zero PyFloat.f0_001 = false
  /\ PyFloat.ltb PyFloat.zero PyFloat.f0_001 = true.
Proof. repeat split. Qed.

Lemma C8_seed_threshold_at_least_keypoint_threshold_witness :
  (seed_threshold
     (args (configure Examples.vis_configure
              (Examples.world_of Examples.args_incomplete)).1)
   = seed_threshold (args (Examples.world_of Examples.args_incomplete))
   /\ exists k,
        keypoint_threshold
          (args (configure Examples.vis_configure
                   (Examples.world_of Examples.args_incomplete)).1) = Some k
        /\ PyFloat.geb
             (seed_threshold
                (args (configure Examples.vis_configure
                         (Examples.world_of Examples.args_incomplete)).1)) k
           = true)
  /\ is_ok (configure Examples.vis_configure
              (Examples.world_of Examples.args_low_seed)).2 = false.
Proof.
  split.
  - apply (C8_seed_threshold_at_least_keypoint_threshold
             Examples.vis_configure (Examples.world_of Examples.args_incomplete)).
    vm_compute. reflexivity.
  - destruct (C8_seed_threshold_at_least_keypoint_threshold
                Examples.vis_configure (Examples.world_of Examples.args_low_seed))
      as [_ H].
    apply (H PyFloat.f0_001); vm_compute; reflexivity.
Defined.

Lemma C2_keypoint_threshold_default_witness :
  keypoint_threshold
    (args (configure Examples.vis_configure
             (Examples.world_of Examples.args_incomplete)).1)
  = Some PyFloat.f0_001
  /\ keypoint_threshold
       (args (configure Examples.vis_configure
                (Examples.world_of Examples.args_default)).1)
     = Some PyFloat.zero
  /\ keypoint_threshold
       (args (configure Examples.vis_configure
                (Examples.world_of Examples.args_explicit)).1)
     = Some PyFloat.f0_01
  /\ fr_keypoint_threshold
       (Frontier_cls (configure Examples.vis_configure
                        (Examples.world_of Examples.args_incomplete)).1)
     = keypoint_threshold
         (args (configure Examples.vis_configure
                  (Examples.world_of Examples.args_incomplete)).1).
Proof.
  split; [|split; [|split]].
  - apply (C2_keypoint_threshold_default
             Examples.vis_configure (Examples.world_of Examples.args_incomplete));
      reflexivity.
  - apply (C2_keypoint_threshold_default
             Examples.vis_configure (Examples.world_of Examples.args_default));
      reflexivity.
  - apply (C2_keypoint_threshold_default
             Examples.vis_configure (Examples.world_of Examples.args_explicit));
      reflexivity.
  - apply (C2_keypoint_threshold_default
             Examples.vis_configure (Examples.world_of Examples.args_incomplete)).
    vm_compute. reflexivity.
Defined.

Lemma C3_forced_pose_rejects_nonzero_keypoint_threshold_witness :
  (configure Examples.vis_configure
     (Examples.world_of Examples.args_forced_nonzero)).2 = Raise AssertionError
  /\ keypoint_threshold
       (args (configure Examples.vis_configure
                (Examples.world_of Examples.args_forced_nonzero)).1)
     = Some PyFloat.f0_001
  /\ Frontier_cls (configure Examples.vis_configure
                     (Examples.world_of Examples.args_forced_nonzero)).1
     = Frontier_cls (Examples.world_of Examples.args_forced_nonzero).
Proof.
  apply (C3_forced_pose_rejects_nonzero_keypoint_threshold
           Examples.vis_configure
           (Examples.world_of Examples.args_forced_nonzero) PyFloat.f0_001);
    reflexivity.
Defined.

Lemma C9_configure_idempotent_witness :
  (configure Examples.vis_configure
     (configure Examples.vis_configure
        (Examples.world_of Examples.args_incomplete)).1).2 = Ok tt
  /\ args (configure Examples.vis_configure
             (configure Examples.vis_configure
                (Examples.world_of Examples.args_incomplete)).1).1
     = args (configure Examples.vis_configure
               (Examples.world_of Examples.args_incomplete)).1.
Proof.
  assert ((configure Examples.vis_configure
             (Examples.world_of Examples.args_incomplete)).2 = Ok tt) as Hok
    by (vm_compute; reflexivity).
  destruct (C9_configure_idempotent Examples.vis_configure
              (Examples.world_of Examples.args_incomplete) Hok)
    as (H1 & H2 & _).
  split; assumption.
Defined.

Lemma C10_decoder_workers_from_batch_size_witness :
  decoder_workers
    (args (configure Examples.vis_configure
             (Examples.world_of Examples.args_incomplete)).1) = Some 8
  /\ decoder_workers
       (args (configure Examples.vis_configure
                (Examples.world_of Examples.args_workers_given)).1) = Some 2
  /\ decoder_workers
       (args (configure Examples.vis_configure
                (Examples.world_of Examples.args_low_seed)).1) = None.
Proof.
  split; [|split].
  - apply (proj1 (C10_decoder_workers_from_batch_size
             Examples.vis_configure (Examples.world_of Examples.args_incomplete)));
      [vm_compute; reflexivity | reflexivity | cbn; lia | reflexivity].
  - apply (proj2 (C10_decoder_workers_from_batch_size
             Examples.vis_configure (Examples.world_of Examples.args_workers_given))).
    intros (_ & H & _). discriminate H.
  - apply (proj2 (C10_decoder_workers_from_batch_size
             Examples.vis_configure (Examples.world_of Examples.args_low_seed))).
    intros (H & _). vm_compute in H. discriminate H.
Defined.

(** C10, as stated, fails on [--seed-threshold 0.0
    --no-force-complete-pose --batch-size 8]: the worker count is unset,
    the batch size is 8 and debug mode is off, yet the second assertion
    stops [configure] before the statement that sets the worker count, which
    stays [None] instead of becoming the batch size. *)
Lemma C10_counterexample_failed_check_leaves_workers_unset :
  decoder_workers (args (Examples.world_of Examples.args_low_seed)) = None
  /\ batch_size (args (Examples.world_of Examples.args_low_seed)) = Some 8
  /\ 1 < default 1 (batch_size (args (Examples.world_of Examples.args_low_seed)))
  /\ debug (args (Examples.world_of Examples.args_low_seed)) = false
  /\ (configure Examples.vis_configure
        (Examples.world_of Examples.args_low_seed)).2 = Raise AssertionError
  /\ decoder_workers
       (args (configure Examples.vis_configure
                (Examples.world_of Examples.args_low_seed)).1) = None
  /\ decoder_workers
       (args (configure Examples.vis_configure
                (Examples.world_of Examples.args_low_seed)).1)
     <> batch_size (args (Examples.world_of Examples.args_low_seed)).
Proof. repeat split; try done. Qed.

(** ** [factory_decode] *)

(** *** List comprehensions and constructor calls *)

Lemma comprehension_Forall2 {A B} (f : A -> result B) (l : list A) (ys : list B) :
  comprehension f l = Ok ys <-> Forall2 (fun x y => f x = Ok y) l ys.
Proof.
  revert ys. induction l as [|x l IH]; intros ys; cbn.
  - split.
    + intros [= <-]. constructor.
    + intros H. inversion H. reflexivity.
  - destruct (f x) as [y|e] eqn:Hx.
    + destruct (comprehension f l) as [zs|e] eqn:Hl.
      * split.
        -- intros [= <-]. constructor; [exact Hx|]. now apply IH.
        -- intros H. inversion H as [|? y' ? zs' Hy Hzs]; subst.
           apply IH in Hzs. congruence.
      * split; [discriminate|].
        intros H. inversion H as [|? y' ? zs' Hy Hzs]; subst.
        apply IH in Hzs. discriminate.
    + split; [discriminate|].
      intros H. inversion H; subst. congruence.
Qed.

Lemma comprehension_is_ok {A B} (f : A -> result B) (l : list A) :
  Forall (fun x => is_ok (f x) = true) l -> is_ok (comprehension f l) = true.
Proof.
  induction 1 as [|x l Hx _ IH]; cbn; [reflexivity|].
  destruct (f x); [|discriminate].
  destruct (comprehension f l); [reflexivity|discriminate].
Qed.

Lemma comprehension_length {A B} (f : A -> result B) (l : list A) (ys : list B) :
  comprehension f l = Ok ys -> length ys = length l.
Proof.
  intros H. apply comprehension_Forall2 in H.
  symmetry. eapply Forall2_length, H.
Qed.

Lemma map_const_replicate {A B} (b : B) (l : list A) :
  map (fun _ => b) l = replicate (length l) b.
Proof. induction l as [|x l IH]; cbn; [reflexivity|]. now rewrite IH. Qed.

Lemma repeated_keyword_subset (ks ks' : list string) (kwargs : gmap string pyval) :
  (forall k, In k ks -> In k ks') ->
  repeated_keyword ks' kwargs = false -> repeated_keyword ks kwargs = false.
Proof.
  intros Hsub Hno. unfold repeated_keyword in *.
  destruct (existsb _ ks) eqn:E; [|reflexivity].
  apply existsb_exists in E as (k & Hin & Hk).
  assert (existsb (fun k => bool_decide (is_Some (kwargs !! k))) ks' = true) as E'.
  { apply existsb_exists. exists k. split; [now apply Hsub|exact Hk]. }
  congruence.
Qed.

Lemma call_made written kwargs d :
  repeated_keyword written kwargs = false ->
  call written kwargs d = {| instantiated := [class_of d]; outcome := Ok d |}.
Proof. intros H. unfold call. now rewrite H. Qed.

(** A call either makes exactly the instance it is written for, or
    raises [TypeError] and makes none. *)
Lemma call_cases written kwargs d :
  (outcome (call written kwargs d) = Ok d
   /\ instantiated (call written kwargs d) = [class_of d])
  \/ (exists what, outcome (call written kwargs d) = Raise (TypeError what))
     /\ instantiated (call written kwargs d) = [].
Proof.
  unfold call. destruct (repeated_keyword written kwargs); cbn; eauto.
Qed.

Lemma well_formed_call_inv model kwargs :
  well_formed_call model kwargs = true ->
  exists s, last (head_strides model) = Some s
            /\ usable_stride s = true
            /\ repeated_keyword written_keywords kwargs = false.
Proof.
  unfold well_formed_call. intros H. apply andb_prop in H as [Hs Hk].
  destruct (last (head_strides model)) as [s|]; [|discriminate].
  exists s. repeat split; [exact Hs|]. now apply negb_true_iff in Hk.
Qed.

(** *** Products of a stride with the resolutions *)

Lemma py_mul_int_int x y : py_mul (PyInt x) (PyInt y) = Ok (PyInt (x * y)).
Proof. reflexivity. Qed.

Lemma py_mul_float_int_is_ok f k :
  is_ok (float_of_int k) = true -> is_ok (py_mul (PyFlt f) (PyInt k)) = true.
Proof. unfold py_mul. destruct (float_of_int k); [reflexivity|discriminate]. Qed.

Lemma usable_stride_resolutions s :
  usable_stride s = true ->
  Forall (fun r => is_ok (py_mul s r) = true)
    [PyInt 1; PyFlt PyFloat.f1_5; PyInt 2; PyInt 3; PyInt 5].
Proof.
  intros Hs. destruct s as [z|f].
  - repeat constructor. exact Hs.
  - repeat constructor; try exact Hs;
      apply py_mul_float_int_is_ok; vm_compute; reflexivity.
Qed.

(** *** What the argument expressions can raise *)

Lemma last_item_raises {A} (l : list A) e :
  last_item l = Raise e -> e = IndexError.
Proof. unfold last_item. destruct (last l); [discriminate|]. now intros [= <-]. Qed.

Lemma float_of_int_raises z e :
  float_of_int z = Raise e -> e = OverflowError.
Proof.
  unfold float_of_int. destruct (PyFloat.of_Z z); try discriminate.
  now intros [= <-].
Qed.

Lemma py_mul_raises a b e :
  py_mul a b = Raise e -> e = OverflowError.
Proof.
  destruct a as [x|f], b as [y|g]; cbn; try discriminate.
  - destruct (float_of_int x) eqn:E; [discriminate|].
    intros [= <-]. now apply float_of_int_raises in E.
  - destruct (float_of_int y) eqn:E; [discriminate|].
    intros [= <-]. now apply float_of_int_raises in E.
Qed.

Lemma comprehension_raises {A B} (P : PyError -> Prop) (f : A -> result B) l e :
  (forall x e', f x = Raise e' -> P e') ->
  comprehension f l = Raise e -> P e.
Proof.
  intros Hf. induction l as [|x l IH]; cbn; [discriminate|].
  destruct (f x) as [y|e'] eqn:Hx.
  - destruct (comprehension f l); [discriminate|].
    intros [= <-]. now apply IH.
  - intros [= <-]. eapply Hf, Hx.
Qed.

Section FactoryFacts.

Variable KEYPOINTS : list string.
Variables SKELETON DENSER : skeleton_t.

Abbreviation decode := (factory_decode KEYPOINTS SKELETON DENSER).

Implicit Types (model : Model) (kwargs : gmap string pyval) (d : Decoder).

(** *** The branches *)

Lemma decode_unknown model dc dense seeds ms hflip kwargs :
  head_names model ∉ supported_head_names ->
  decode model dc dense seeds ms hflip kwargs
  = raised (Exception_ "decoder unknown for head names: {}" (head_names model)).
Proof.
  intros Hn. unfold factory_decode, supported_head_names in *.
  repeat case_bool_decide; try reflexivity; exfalso; apply Hn; set_solver.
Qed.

Lemma decode_cif model dc dense seeds ms hflip kwargs :
  head_names model = ["cif"] ->
  decode model dc dense seeds ms hflip kwargs
  = and_then (last_item (head_strides model)) (fun s =>
      call ["head_index"] kwargs
        (Pif {| pif_stride := s; pif_head_index := 0; pif_kwargs := kwargs |})).
Proof.
  intros H. unfold factory_decode. rewrite H.
  case_bool_decide; [reflexivity|done].
Qed.

Lemma decode_caf model dc dense seeds ms hflip kwargs :
  head_names model = ["cif"; "caf"; "caf25"] ->
  decode model dc dense seeds ms hflip kwargs
  = let confidence_scales :=
      if dense then Some (dense_confidence_scales SKELETON DENSER dc) else None in
    let skeleton := if dense then (SKELETON ++ DENSER)%list else SKELETON in
    and_then (last_item (head_strides model)) (fun s =>
      if seeds then
        call ["paf_index"; "keypoints"; "skeleton"; "out_skeleton";
              "confidence_scales"] kwargs
          (PafsDijkstra
             {| pd_stride := s; pd_paf_index := 1; pd_keypoints := KEYPOINTS;
                pd_skeleton := skeleton; pd_out_skeleton := SKELETON;
                pd_confidence_scales := confidence_scales;
                pd_kwargs := kwargs |})
      else
        call ["pif_index"; "paf_index"; "keypoints"; "skeleton";
              "out_skeleton"; "confidence_scales"] kwargs
          (CifCaf
             {| cc_stride := Single s; cc_pif_index := Single 0;
                cc_paf_index := Single 1; cc_pif_min_scale := Omitted;
                cc_paf_min_distance := Omitted; cc_paf_max_distance := Omitted;
                cc_keypoints := KEYPOINTS; cc_skeleton := skeleton;
                cc_out_skeleton := Passed SKELETON;
                cc_confidence_scales := Passed confidence_scales;
                cc_kwargs := kwargs |})).
Proof.
  intros H. unfold factory_decode. rewrite H.
  case_bool_decide; [done|]. case_bool_decide; [|done].
  destruct dense, seeds, (last_item (head_strides model)); reflexivity.
Qed.

Lemma decode_paf model dc dense seeds ms hflip kwargs :
  head_names model = ["cif"; "paf"; "paf25"] ->
  decode model dc dense seeds ms hflip kwargs
  = and_then (paf_locals model dense ms hflip) (fun l =>
      call (["pif_index"; "paf_index"; "pif_min_scale"; "paf_min_distance";
             "paf_max_distance"; "keypoints"; "skeleton"]
            ++ (if dense then ["confidence_scales"] else []))%list kwargs
        (CifCaf
           {| cc_stride := stride l; cc_pif_index := pif_index l;
              cc_paf_index := paf_index l;
              cc_pif_min_scale := Passed (pif_min_scale l);
              cc_paf_min_distance := Passed (paf_min_distance l);
              cc_paf_max_distance := Passed (paf_max_distance l);
              cc_keypoints := KEYPOINTS;
              cc_skeleton := if dense then (SKELETON ++ DENSER)%list else SKELETON;
              cc_out_skeleton := Omitted;
              cc_confidence_scales :=
                if dense
                then Passed (Some (dense_confidence_scales SKELETON DENSER dc))
                else Omitted;
              cc_kwargs := kwargs |})).
Proof.
  intros H. unfold factory_decode. rewrite H.
  do 2 (case_bool_decide; [done|]). case_bool_decide; [|done].
  destruct dense, (paf_locals model _ ms hflip); reflexivity.
Qed.

(** *** The local variables of the [('cif', 'paf', 'paf25')] branch *)

Lemma paf_locals_single_scale model s dense hflip :
  last (head_strides model) = Some s ->
  paf_locals model dense false hflip
  = Ok {| stride := Single s; pif_index := Single 0; paf_index := Single 1;
          pif_min_scale := Single PyFloat.zero;
          paf_min_distance := Single PyFloat.zero;
          paf_max_distance := Single None |}.
Proof.
  intros H. unfold paf_locals, last_item. rewrite H. reflexivity.
Qed.

Lemma paf_locals_multi_scale model s dense hflip :
  last (head_strides model) = Some s ->
  paf_locals model dense true hflip
  = match comprehension (py_mul s)
            (per_pass hflip
               [PyInt 1; PyFlt PyFloat.f1_5; PyInt 2; PyInt 3; PyInt 5]) with
    | Raise e => Raise e
    | Ok strides =>
        Ok {| stride := Table strides;
              pif_index :=
                Table (map (fun v => v * (if dense then 2 else 3))
                         (range (if hflip then 10 else 5)));
              paf_index :=
                Table (map (fun v => v * (if dense then 2 else 3) + 1)
                         (range (if hflip then 10 else 5)));
              pif_min_scale :=
                Table (per_pass hflip
                         [PyFloat.zero; PyFloat.of_Z 12; PyFloat.of_Z 16;
                          PyFloat.of_Z 24; PyFloat.of_Z 40]);
              paf_min_distance :=
                Table (map (fun v => PyFloat.mul v PyFloat.three)
                         (per_pass hflip
                            [PyFloat.zero; PyFloat.of_Z 12; PyFloat.of_Z 16;
                             PyFloat.of_Z 24; PyFloat.of_Z 40]));
              paf_max_distance :=
                Table (per_pass hflip
                         [Some (PyFloat.of_Z 160); Some (PyFloat.of_Z 240);
                          Some (PyFloat.of_Z 320); Some (PyFloat.of_Z 480);
                          None]) |}
    end.
Proof.
  intros H. unfold paf_locals, last_item. rewrite H.
  destruct hflip, dense; reflexivity.
Qed.

Lemma per_pass_Forall {A} (P : A -> Prop) hflip (l : list A) :
  Forall P l -> Forall P (per_pass hflip l).
Proof.
  intros H. destruct hflip; cbn; [|exact H]. now apply Forall_app.
Qed.

Lemma paf_locals_is_ok model s dense ms hflip :
  last (head_strides model) = Some s ->
  usable_stride s = true ->
  is_ok (paf_locals model dense ms hflip) = true.
Proof.
  intros H Hs. destruct ms.
  - rewrite (paf_locals_multi_scale _ s) by exact H.
    pose proof (comprehension_is_ok (py_mul s) _
                  (per_pass_Forall _ hflip _ (usable_stride_resolutions s Hs))) as Hc.
    destruct (comprehension _ _); [reflexivity|discriminate].
  - now rewrite (paf_locals_single_scale _ s) by exact H.
Qed.

Lemma paf_locals_raises model dense ms hflip e :
  paf_locals model dense ms hflip = Raise e ->
  e = IndexError \/ e = OverflowError.
Proof.
  destruct (last (head_strides model)) as [s|] eqn:Hlast.
  - destruct ms.
    + rewrite (paf_locals_multi_scale _ s) by exact Hlast.
      destruct (comprehension _ _) as [ys|e'] eqn:Hc; [discriminate|].
      intros [= <-]. right.
      eapply (comprehension_raises (fun e => e = OverflowError)), Hc.
      intros x e0. apply py_mul_raises.
    + now rewrite (paf_locals_single_scale _ s) by exact Hlast.
  - unfold paf_locals, last_item. rewrite Hlast. intros [= <-]. now left.
Qed.

(** An exception raised by a call to a supported model is never the
    generic one. *)
Lemma call_not_generic written kwargs d e :
  outcome (call written kwargs d) = Raise e -> is_generic_exception e = false.
Proof.
  destruct (call_cases written kwargs d) as [[-> _]|[[what ->] _]];
    [discriminate|now intros [= <-]].
Qed.

(** On a well-formed call to a supported model a decoder is returned. *)
Lemma decode_is_ok model dc dense seeds ms hflip kwargs :
  head_names model ∈ supported_head_names ->
  well_formed_call model kwargs = true ->
  exists d, decode model dc dense seeds ms hflip kwargs
            = {| instantiated := [class_of d]; outcome := Ok d |}.
Proof.
  intros Hin Hwf.
  apply well_formed_call_inv in Hwf as (s & Hlast & Hs & Hk).
  unfold supported_head_names in Hin.
  apply elem_of_cons in Hin as [H|Hin];
    [|apply elem_of_cons in Hin as [H|Hin];
      [|apply list_elem_of_singleton in Hin as H]].
  - rewrite decode_cif by exact H. unfold last_item. rewrite Hlast. cbn.
    eexists. apply call_made.
    apply (repeated_keyword_subset _ written_keywords); [cbn; tauto|exact Hk].
  - rewrite decode_caf by exact H. unfold last_item. rewrite Hlast. cbn.
    destruct seeds; eexists; apply call_made;
      (apply (repeated_keyword_subset _ written_keywords); [cbn; tauto|exact Hk]).
  - rewrite decode_paf by exact H.
    pose proof (paf_locals_is_ok model s dense ms hflip Hlast Hs) as Hl.
    destruct (paf_locals model dense ms hflip) as [l|]; [|discriminate]. cbn.
    eexists. apply call_made.
    apply (repeated_keyword_subset _ written_keywords); [|exact Hk].
    destruct dense; cbn; tauto.
Qed.

(** *** Dispatch on the head names *)

(** C4 (as amended).  For a head-name tuple that is none of [('cif',)],
    [('cif', 'caf', 'caf25')] and [('cif', 'paf', 'paf25')] the factory raises
    the base class [Exception], with the message template
    ['decoder unknown for head names: {}'] filled with the tuple, and
    instantiates no decoder.  For each of the three tuples that exception is
    never raised, and a well-formed call returns the one decoder it
    instantiates. *)
Theorem C4_head_name_dispatch model dc dense seeds ms hflip kwargs :
  (head_names model ∉ supported_head_names ->
     outcome (decode model dc dense seeds ms hflip kwargs)
     = Raise (Exception_ "decoder unknown for head names: {}" (head_names model))
     /\ instantiated (decode model dc dense seeds ms hflip kwargs) = [])
  /\ (head_names model ∈ supported_head_names ->
       (forall e, outcome (decode model dc dense seeds ms hflip kwargs) = Raise e ->
                  is_generic_exception e = false)
       /\ (well_formed_call model kwargs = true ->
           exists d, outcome (decode model dc dense seeds ms hflip kwargs) = Ok d
                     /\ instantiated (decode model dc dense seeds ms hflip kwargs)
                        = [class_of d])).
Proof.
  split.
  - intros Hn. now rewrite decode_unknown by exact Hn.
  - intros Hin. split.
    + intros e. unfold supported_head_names in Hin.
      apply elem_of_cons in Hin as [H|Hin];
        [|apply elem_of_cons in Hin as [H|Hin];
          [|apply list_elem_of_singleton in Hin as H]].
      * rewrite decode_cif by exact H.
        destruct (last_item (head_strides model)) as [s|e'] eqn:Hl; cbn.
        -- apply call_not_generic.
        -- intros [= <-]. now rewrite (last_item_raises _ _ Hl).
      * rewrite decode_caf by exact H. cbn zeta.
        destruct (last_item (head_strides model)) as [s|e'] eqn:Hl; cbn.
        -- destruct seeds; apply call_not_generic.
        -- intros [= <-]. now rewrite (last_item_raises _ _ Hl).
      * rewrite decode_paf by exact H.
        destruct (paf_locals model dense ms hflip) as [l|e'] eqn:Hl; cbn.
        -- apply call_not_generic.
        -- intros [= <-]. now destruct (paf_locals_raises _ _ _ _ _ Hl) as [->| ->].
    + intros Hwf.
      destruct (decode_is_ok model dc dense seeds ms hflip kwargs Hin Hwf)
        as [d ->]. now exists d.
Qed.

(** *** Dense connections *)

Lemma dense_confidence_scales_replicate dc :
  dense_confidence_scales SKELETON DENSER dc
  = (replicate (length SKELETON) PyFloat.one ++ replicate (length DENSER) dc)%list.
Proof. unfold dense_confidence_scales. now rewrite !map_const_replicate. Qed.

(** Past the base edges the scale list holds the coupling only: when
    there is a dense edge, its entries are below the scale of a base edge
    exactly when the coupling is below 1.0. *)
Lemma dense_scales_below_one dc :
  DENSER <> [] ->
  Forall (fun c => PyFloat.ltb c PyFloat.one = true)
    (drop (length SKELETON)
       (replicate (length SKELETON) PyFloat.one
        ++ replicate (length DENSER) dc)%list)
  <-> PyFloat.ltb dc PyFloat.one = true.
Proof.
  intros Hne.
  rewrite drop_app_length' by now rewrite length_replicate.
  split.
  - destruct DENSER as [|e es]; [done|]. cbn. now intros H%Forall_cons_1.
  - intros H. now apply Forall_replicate.
Qed.

(** C5 (as amended).  In both the [('cif', 'caf', 'caf25')] and the
    [('cif', 'paf', 'paf25')] configuration: with dense connections the
    decoder is constructed with the base skeleton followed by the denser
    connections, and with a confidence scale of 1.0 for each base edge
    followed by the dense coupling for each dense edge, whatever the
    coupling is: it is not held against any bound, and the dense edges of
    the decoder weigh less than its base edges exactly when the coupling
    given is below 1.0.  Without dense connections the decoder is
    constructed with the base skeleton alone and with no confidence-scale
    list.  A well-formed call does construct a decoder. *)
Theorem C5_dense_connections model dc dense seeds ms hflip kwargs :
  head_names model = ["cif"; "caf"; "caf25"]
  \/ head_names model = ["cif"; "paf"; "paf25"] ->
  (well_formed_call model kwargs = true ->
     is_ok (outcome (decode model dc dense seeds ms hflip kwargs)) = true)
  /\ (forall d, outcome (decode model dc dense seeds ms hflip kwargs) = Ok d ->
       if dense
       then decoder_skeleton d = Some (SKELETON ++ DENSER)%list
            /\ decoder_confidence_scales d
               = Some (replicate (length SKELETON) PyFloat.one
                       ++ replicate (length DENSER) dc)%list
            /\ (forall l, decoder_confidence_scales d = Some l ->
                  DENSER <> [] ->
                  Forall (fun c => PyFloat.ltb c PyFloat.one = true)
                    (drop (length SKELETON) l)
                  <-> PyFloat.ltb dc PyFloat.one = true)
       else decoder_skeleton d = Some SKELETON
            /\ decoder_confidence_scales d = None).
Proof.
  intros Hhead. split.
  - intros Hwf.
    assert (head_names model ∈ supported_head_names) as Hin
      by (unfold supported_head_names; destruct Hhead as [-> | ->]; set_solver).
    destruct (decode_is_ok model dc dense seeds ms hflip kwargs Hin Hwf)
      as [d ->]. reflexivity.
  - intros d. destruct Hhead as [H|H].
    + rewrite decode_caf by exact H. cbn zeta.
      destruct (last_item (head_strides model)) as [s|]; cbn; [|discriminate].
      destruct seeds;
        match goal with
        | |- outcome (call ?w ?k ?d') = _ -> _ =>
            destruct (call_cases w k d') as [[-> _]|[[what ->] _]];
            [intros [= <-]|discriminate]
        end;
        destruct dense; cbn; rewrite ?dense_confidence_scales_replicate;
        (split; [reflexivity|]); (split; [reflexivity|]) || reflexivity;
        intros l [= <-]; apply dense_scales_below_one.
    + rewrite decode_paf by exact H.
      destruct (paf_locals model dense ms hflip) as [l|]; cbn; [|discriminate].
      match goal with
      | |- outcome (call ?w ?k ?d') = _ -> _ =>
          destruct (call_cases w k d') as [[-> _]|[[what ->] _]];
          [intros [= <-]|discriminate]
      end.
      destruct dense; cbn; rewrite ?dense_confidence_scales_replicate;
        (split; [reflexivity|]); (split; [reflexivity|]) || reflexivity;
        intros l' [= <-]; apply dense_scales_below_one.
Qed.

(** *** Greedy or Dijkstra *)

Lemma call_run written kwargs d :
  call written kwargs d = {| instantiated := [class_of d]; outcome := Ok d |}
  \/ exists what, call written kwargs d = raised (TypeError what).
Proof.
  unfold call, raised. destruct (repeated_keyword written kwargs); eauto.
Qed.

(** The three ways a run on [('cif', 'caf', 'caf25')] can end. *)
Lemma decode_caf_run model dc dense seeds ms hflip kwargs :
  head_names model = ["cif"; "caf"; "caf25"] ->
  (exists e, decode model dc dense seeds ms hflip kwargs = raised e)
  \/ exists d,
       decode model dc dense seeds ms hflip kwargs
       = {| instantiated := [class_of d]; outcome := Ok d |}
       /\ class_of d = if seeds then Class_PafsDijkstra else Class_CifCaf.
Proof.
  intros H. rewrite decode_caf by exact H. cbn zeta.
  destruct (last_item (head_strides model)) as [s|e]; cbn; [|eauto].
  destruct seeds;
    match goal with
    | |- context [call ?w ?k ?d'] =>
        destruct (call_run w k d') as [-> | [what ->]]
    end; eauto.
Qed.

(** C6.  For the head names [('cif', 'caf', 'caf25')] a run of the factory
    instantiates at most one class, never both assemblers.  The decoder it
    returns is the only instance made; it is a [PafsDijkstra] exactly when
    [paf_seeds] is set, and a [CifCaf] exactly when it is not.  A
    well-formed call does return one. *)
Theorem C6_assembler_selection model dc dense seeds ms hflip kwargs :
  head_names model = ["cif"; "caf"; "caf25"] ->
  (well_formed_call model kwargs = true ->
     is_ok (outcome (decode model dc dense seeds ms hflip kwargs)) = true)
  /\ (forall d, outcome (decode model dc dense seeds ms hflip kwargs) = Ok d ->
       instantiated (decode model dc dense seeds ms hflip kwargs) = [class_of d]
       /\ (class_of d = Class_PafsDijkstra <-> seeds = true)
       /\ (class_of d = Class_CifCaf <-> seeds = false))
  /\ (is_ok (outcome (decode model dc dense seeds ms hflip kwargs)) = false ->
      instantiated (decode model dc dense seeds ms hflip kwargs) = [])
  /\ ~ (Class_PafsDijkstra ∈ instantiated (decode model dc dense seeds ms hflip kwargs)
        /\ Class_CifCaf ∈ instantiated (decode model dc dense seeds ms hflip kwargs)).
Proof.
  intros H. split.
  - intros Hwf.
    assert (head_names model ∈ supported_head_names) as Hin
      by (unfold supported_head_names; rewrite H; set_solver).
    destruct (decode_is_ok model dc dense seeds ms hflip kwargs Hin Hwf)
      as [d ->]. reflexivity.
  - destruct (decode_caf_run model dc dense seeds ms hflip kwargs H)
      as [[e ->] | (d & -> & Hcls)]; cbn.
    + split; [discriminate|]. split; [reflexivity|].
      intros [Habs _]. inversion Habs.
    + split; [|split; [discriminate|]].
      * intros d' [= <-]. split; [reflexivity|]. rewrite Hcls.
        destruct seeds; split; split; congruence.
      * rewrite Hcls. intros [H1 H2].
        apply list_elem_of_singleton in H1, H2. destruct seeds; discriminate.
Qed.

(** *** Multi-scale tables *)

(** The tables, written out. *)
Lemma index_tables_enumerated :
  map (fun v => v * 3) (range 10) = [0; 3; 6; 9; 12; 15; 18; 21; 24; 27]
  /\ map (fun v => v * 3 + 1) (range 10) = [1; 4; 7; 10; 13; 16; 19; 22; 25; 28]
  /\ map (fun v => v * 2) (range 10) = [0; 2; 4; 6; 8; 10; 12; 14; 16; 18]
  /\ map (fun v => v * 2 + 1) (range 10) = [1; 3; 5; 7; 9; 11; 13; 15; 17; 19]
  /\ map (fun v => v * 3) (range 5) = [0; 3; 6; 9; 12]
  /\ map (fun v => v * 3 + 1) (range 5) = [1; 4; 7; 10; 13]
  /\ map (fun v => v * 2) (range 5) = [0; 2; 4; 6; 8]
  /\ map (fun v => v * 2 + 1) (range 5) = [1; 3; 5; 7; 9].
Proof. repeat split. Qed.



End FactoryFacts.

(** *** [factory_decode] on concrete models *)

(** C4, as stated, fails on the head names [('pif', 'paf')]: the exception
    raised is the base class [Exception], not one of a class of its own. *)
Lemma C4_counterexample_generic_exception :
  outcome (factory_decode Examples.keypoints3 Examples.skeleton3 Examples.denser3
             Examples.model_pif_paf PyFloat.zero false false false true
             Examples.kwargs0)
  = Raise (Exception_ "decoder unknown for head names: {}" ["pif"; "paf"])
  /\ is_generic_exception
       (Exception_ "decoder unknown for head names: {}" ["pif"; "paf"]) = true.
Proof. split; reflexivity. Qed.

Lemma C4_head_name_dispatch_witness :
  (outcome (factory_decode Examples.keypoints3 Examples.skeleton3 Examples.denser3
              Examples.model_pif_paf PyFloat.zero false false false true
              Examples.kwargs0)
   = Raise (Exception_ "decoder unknown for head names: {}" ["pif"; "paf"])
   /\ instantiated
        (factory_decode Examples.keypoints3 Examples.skeleton3 Examples.denser3
           Examples.model_pif_paf PyFloat.zero false false false true
           Examples.kwargs0) = [])
  /\ exists d,
       outcome (factory_decode Examples.keypoints3 Examples.skeleton3
                  Examples.denser3 Examples.model_cif PyFloat.zero false false
                  false true Examples.kwargs0) = Ok d
       /\ instantiated
            (factory_decode Examples.keypoints3 Examples.skeleton3
               Examples.denser3 Examples.model_cif PyFloat.zero false false
               false true Examples.kwargs0) = [class_of d].
Proof.
  split.
  - apply (proj1 (C4_head_name_dispatch Examples.keypoints3 Examples.skeleton3
                    Examples.denser3 Examples.model_pif_paf PyFloat.zero
                    false false false true Examples.kwargs0)).
    intros Hin.
    repeat (apply elem_of_cons in Hin as [Hin|Hin]; [discriminate Hin|]).
    inversion Hin.
  - apply (proj2 (C4_head_name_dispatch Examples.keypoints3 Examples.skeleton3
                    Examples.denser3 Examples.model_cif PyFloat.zero
                    false false false true Examples.kwargs0)).
    + constructor.
    + vm_compute. reflexivity.
Defined.

Lemma C5_dense_connections_witness :
  (exists d,
     outcome (factory_decode Examples.keypoints3 Examples.skeleton3
                Examples.denser3 Examples.model_caf PyFloat.f0_01 true false
                false true Examples.kwargs0) = Ok d
     /\ decoder_skeleton d = Some [(2, 3); (1, 2); (1, 3); (1, 4); (1, 5)]
     /\ decoder_confidence_scales d
        = Some [PyFloat.one; PyFloat.one; PyFloat.one;
                PyFloat.f0_01; PyFloat.f0_01])
  /\ (exists d,
        outcome (factory_decode Examples.keypoints3 Examples.skeleton3
                   Examples.denser3 Examples.model_paf PyFloat.f0_01 false false
                   false true Examples.kwargs0) = Ok d
        /\ decoder_skeleton d = Some [(2, 3); (1, 2); (1, 3)]
        /\ decoder_confidence_scales d = None).
Proof.
  split.
  - destruct (C5_dense_connections Examples.keypoints3 Examples.skeleton3
                Examples.denser3 Examples.model_caf PyFloat.f0_01 true false
                false true Examples.kwargs0 (or_introl eq_refl)) as [Hok Hd].
    destruct (outcome _) as [d|] eqn:E;
      [|exfalso; specialize (Hok eq_refl); discriminate Hok].
    exists d. split; [reflexivity|].
    destruct (Hd d eq_refl) as (Hs & Hc & _). split; assumption.
  - destruct (C5_dense_connections Examples.keypoints3 Examples.skeleton3
                Examples.denser3 Examples.model_paf PyFloat.f0_01 false false
                false true Examples.kwargs0 (or_intror eq_refl)) as [Hok Hd].
    destruct (outcome _) as [d|] eqn:E;
      [|exfalso; specialize (Hok eq_refl); discriminate Hok].
    exists d. split; [reflexivity|].
    destruct (Hd d eq_refl) as (Hs & Hc). split; assumption.
Defined.

(** C5, as stated, fails on a dense coupling of 2.0: the decoder is
    constructed with the scales 1.0, 1.0, 1.0, 2.0, 2.0, and its dense
    edges weigh more than its base edges, not less. *)
Lemma C5_counterexample_dense_edges_weigh_more :
  match outcome (factory_decode Examples.keypoints3 Examples.skeleton3
                   Examples.denser3 Examples.model_caf (PyFloat.of_Z 2) true
                   false false true Examples.kwargs0) with
  | Ok d => decoder_confidence_scales d
  | Raise _ => None
  end
  = Some [PyFloat.one; PyFloat.one; PyFloat.one;
          PyFloat.of_Z 2; PyFloat.of_Z 2]
  /\ PyFloat.ltb (PyFloat.of_Z 2) PyFloat.one = false
  /\ PyFloat.gtb (PyFloat.of_Z 2) PyFloat.one = true.
Proof. repeat split. Qed.

Lemma C6_assembler_selection_witness :
  (exists d,
     outcome (factory_decode Examples.keypoints3 Examples.skeleton3
                Examples.denser3 Examples.model_caf PyFloat.zero false true
                false true Examples.kwargs0) = Ok d
     /\ instantiated
          (factory_decode Examples.keypoints3 Examples.skeleton3
             Examples.denser3 Examples.model_caf PyFloat.zero false true
             false true Examples.kwargs0) = [class_of d]
     /\ class_of d = Class_PafsDijkstra)
  /\ (exists d,
        outcome (factory_decode Examples.keypoints3 Examples.skeleton3
                   Examples.denser3 Examples.model_caf PyFloat.zero false false
                   false true Examples.kwargs0) = Ok d
        /\ instantiated
             (factory_decode Examples.keypoints3 Examples.skeleton3
                Examples.denser3 Examples.model_caf PyFloat.zero false false
                false true Examples.kwargs0) = [class_of d]
        /\ class_of d = Class_CifCaf).
Proof.
  split.
  - destruct (C6_assembler_selection Examples.keypoints3 Examples.skeleton3
                Examples.denser3 Examples.model_caf PyFloat.zero false true
                false true Examples.kwargs0 eq_refl) as (Hok & Hd & _).
    destruct (outcome _) as [d|] eqn:E;
      [|exfalso; specialize (Hok eq_refl); discriminate Hok].
    exists d. split; [reflexivity|].
    destruct (Hd d eq_refl) as (Hi & Hc & _). split; [exact Hi|].
    now apply Hc.
  - destruct (C6_assembler_selection Examples.keypoints3 Examples.skeleton3
                Examples.denser3 Examples.model_caf PyFloat.zero false false
                false true Examples.kwargs0 eq_refl) as (Hok & Hd & _).
    destruct (outcome _) as [d|] eqn:E;
      [|exfalso; specialize (Hok eq_refl); discriminate Hok].
    exists d. split; [reflexivity|].
    destruct (Hd d eq_refl) as (Hi & _ & Hc). split; [exact Hi|].
    now apply Hc.
Defined.


(** * Further properties *)

(** ** [configure]: what a rejected configuration leaves behind *)

Section ConfigureMore.

Context {VisualizerCls : Type}.
Variable vc : Namespace -> VisualizerCls -> VisualizerCls.

Implicit Types (w : World (VisualizerCls := VisualizerCls)) (a : Namespace).

(** X1.  [configure] is not transactional.  Whether or not its assertions
    pass, it has written the class attributes of [CifCaf] and of
    [PafsDijkstra] (the two always agree afterwards), the threshold of
    [PifHr], the state of the visualizer and a keypoint threshold in [args]
    that is no longer [None].  When an assertion fails, the statements that
    follow the assertions have not run: the decoder generator and the
    decoder worker count are as they were. *)
Theorem X1_configure_writes_before_checking w :
  CifCaf_cls (configure vc w).1 = PafsDijkstra_cls (configure vc w).1
  /\ CifCaf_cls (configure vc w).1
     = {| cls_paf_th := paf_th (args w);
          cls_connection_method := connection_method (args w);
          cls_force_complete := force_complete_pose (args w) |}
  /\ PifHr_v_threshold (configure vc w).1 = pif_th (args w)
  /\ Visualizer_cls (configure vc w).1 = vc (args w) (Visualizer_cls w)
  /\ keypoint_threshold (args (configure vc w).1) <> None
  /\ (is_ok (configure vc w).2 = false ->
      Frontier_cls (configure vc w).1 = Frontier_cls w
      /\ decoder_workers (args (configure vc w).1) = decoder_workers (args w)).
Proof.
  rewrite configure_store, configure_outcome, configured_keypoint_threshold,
    configured_decoder_workers.
  unfold configured; cbn.
  repeat split; try discriminate;
    destruct (consistent (args w)); discriminate || reflexivity.
Qed.

(** X2.  Of the attributes of [args], [configure] can change only the
    keypoint threshold and the decoder worker count: every other attribute
    is as it was, on success and on failure. *)
Theorem X2_configure_frame w :
  paf_th (args (configure vc w).1) = paf_th (args w)
  /\ connection_method (args (configure vc w).1) = connection_method (args w)
  /\ force_complete_pose (args (configure vc w).1) = force_complete_pose (args w)
  /\ pif_th (args (configure vc w).1) = pif_th (args w)
  /\ seed_threshold (args (configure vc w).1) = seed_threshold (args w)
  /\ instance_threshold (args (configure vc w).1) = instance_threshold (args w)
  /\ greedy (args (configure vc w).1) = greedy (args w)
  /\ batch_size (args (configure vc w).1) = batch_size (args w)
  /\ debug (args (configure vc w).1) = debug (args w).
Proof.
  rewrite configure_store. unfold configured; cbn.
  destruct (consistent (args w) && workers_from_batch (args w));
    repeat split.
Qed.

Lemma geb_nan_l x : PyFloat.geb PyFloat.nan x = false.
Proof. now destruct x as [[]|[]| |[] ? ?]. Qed.

Lemma geb_nan_r x : PyFloat.geb x PyFloat.nan = false.
Proof. now destruct x as [[]|[]| |[] ? ?]. Qed.

(** X3.  A NaN threshold is never accepted: when the seed threshold or
    the keypoint threshold given is NaN, [configure] raises
    [AssertionError], with or without forced complete poses. *)
Theorem X3_configure_rejects_nan w :
  seed_threshold (args w) = PyFloat.nan
  \/ keypoint_threshold (args w) = Some PyFloat.nan ->
  (configure vc w).2 = Raise AssertionError.
Proof.
  intros H. rewrite configure_outcome.
  assert (consistent (args w) = false) as ->; [|reflexivity].
  unfold consistent. apply andb_false_iff. right.
  destruct H as [-> | H].
  - apply geb_nan_l.
  - unfold resolved_keypoint_threshold. rewrite H. apply geb_nan_r.
Qed.

Lemma configured_twice_rejected w :
  consistent (args w) = false ->
  consistent (args (configured vc w)) = false
  /\ configured vc (configured vc w)
     = on_Visualizer (vc (args (configured vc w))) (configured vc w).
Proof.
  intros Hc.
  assert (consistent (args (configured vc w)) = false) as Hc'
    by (unfold configured; cbn; now rewrite Hc).
  split; [exact Hc'|].
  unfold configured at 1. rewrite Hc'. cbn.
  unfold on_Visualizer, configured, configured_assembler,
    resolved_keypoint_threshold.
  rewrite Hc. reflexivity.
Qed.

(** X4.  A rejected configuration is rejected again: a second call on
    the arguments a failed call left raises the same exception and leaves
    [args] and the decoder class attributes as the first call left them. *)
Theorem X4_configure_repeats_failure w e :
  (configure vc w).2 = Raise e ->
  (configure vc (configure vc w).1).2 = Raise e
  /\ args (configure vc (configure vc w).1).1 = args (configure vc w).1
  /\ CifCaf_cls (configure vc (configure vc w).1).1 = CifCaf_cls (configure vc w).1
  /\ PafsDijkstra_cls (configure vc (configure vc w).1).1
     = PafsDijkstra_cls (configure vc w).1
  /\ PifHr_v_threshold (configure vc (configure vc w).1).1
     = PifHr_v_threshold (configure vc w).1
  /\ Frontier_cls (configure vc (configure vc w).1).1 = Frontier_cls (configure vc w).1.
Proof.
  intros He. pose proof (configure_only_asserts vc w e He) as ->.
  rewrite configure_outcome in He.
  destruct (consistent (args w)) eqn:Hc; [discriminate|].
  destruct (configured_twice_rejected w Hc) as [Hc' Htwice].
  rewrite !configure_store, configure_outcome, Hc', Htwice.
  repeat split.
Qed.

Lemma eqb_zero_inv k :
  PyFloat.eqb k PyFloat.zero = true -> exists s, k = S754_zero s.
Proof. destruct k as [s|[]| |[] ? ?]; try discriminate. eauto. Qed.

Lemma geb_signed_zero x s : PyFloat.geb x (S754_zero s) = PyFloat.geb x PyFloat.zero.
Proof. now destruct x as [[]|[]| |[] ? ?], s. Qed.

(** X5.  With complete poses forced, [configure] accepts exactly the
    arguments whose keypoint threshold is unset or equal to 0.0 and whose
    seed threshold is at least 0.0. *)
Theorem X5_forced_pose_acceptance w :
  force_complete_pose (args w) = true ->
  ((configure vc w).2 = Ok tt
   <-> (keypoint_threshold (args w) = None
        \/ exists k, keypoint_threshold (args w) = Some k
                     /\ PyFloat.eqb k PyFloat.zero = true)
       /\ PyFloat.geb (seed_threshold (args w)) PyFloat.zero = true).
Proof.
  intros Hf. rewrite configure_ok_consistent.
  unfold consistent, resolved_keypoint_threshold. rewrite Hf.
  destruct (keypoint_threshold (args w)) as [k|].
  - split.
    + intros H. apply andb_prop in H as [Hk Hs].
      destruct (eqb_zero_inv k Hk) as [s ->].
      rewrite geb_signed_zero in Hs. eauto.
    + intros [[H|(k' & [= <-] & Hk)] Hs]; [discriminate|].
      rewrite Hk. destruct (eqb_zero_inv k Hk) as [s ->].
      now rewrite geb_signed_zero.
  - split.
    + intros H. apply andb_prop in H as [_ Hs]. auto.
    + intros [_ Hs]. now rewrite Hs.
Qed.

End ConfigureMore.

(** ** [factory_decode]: dispatch, options and errors *)

Section FactoryMore.

Variable KEYPOINTS : list string.
Variables SKELETON DENSER : skeleton_t.

Abbreviation decode' := (factory_decode KEYPOINTS SKELETON DENSER).

Implicit Types (model : Model) (kwargs : gmap string pyval) (d : Decoder).

Lemma head_names_cases model :
  head_names model = ["cif"]
  \/ head_names model = ["cif"; "caf"; "caf25"]
  \/ head_names model = ["cif"; "paf"; "paf25"]
  \/ head_names model ∉ supported_head_names.
Proof.
  destruct (decide (head_names model = ["cif"])) as [|H1]; [auto|].
  destruct (decide (head_names model = ["cif"; "caf"; "caf25"])) as [|H2]; [auto|].
  destruct (decide (head_names model = ["cif"; "paf"; "paf25"])) as [|H3]; [auto|].
  do 3 right. unfold supported_head_names. intros Hin.
  apply elem_of_cons in Hin as [?|Hin]; [done|].
  apply elem_of_cons in Hin as [?|Hin]; [done|].
  apply list_elem_of_singleton in Hin. done.
Qed.

(** A run ends with an exception and no instance, or with the one
    instance it made. *)
Lemma decode_run_shape model dc dense seeds ms hflip kwargs :
  (exists e, decode' model dc dense seeds ms hflip kwargs = raised e)
  \/ exists d, decode' model dc dense seeds ms hflip kwargs
               = {| instantiated := [class_of d]; outcome := Ok d |}.
Proof.
  destruct (head_names_cases model) as [H|[H|[H|H]]].
  - rewrite decode_cif by exact H.
    destruct (last_item (head_strides model)) as [s|e]; cbn; [|eauto].
    match goal with
    | |- context [call ?w ?k ?d'] => destruct (call_run w k d') as [-> | [what ->]]
    end; eauto.
  - destruct (decode_caf_run KEYPOINTS SKELETON DENSER model dc dense seeds ms
                hflip kwargs H) as [?|(d & -> & _)]; eauto.
  - rewrite decode_paf by exact H.
    destruct (paf_locals model dense ms hflip) as [l|e]; cbn; [|eauto].
    match goal with
    | |- context [call ?w ?k ?d'] => destruct (call_run w k d') as [-> | [what ->]]
    end; eauto.
  - rewrite decode_unknown by exact H. eauto.
Qed.

(** X6.  The class of the decoder returned is decided by the head names
    and, for [('cif', 'caf', 'caf25')] only, by [paf_seeds]: [Pif] for
    [('cif',)], [PafsDijkstra] for the caf heads with [paf_seeds], [CifCaf]
    for the caf heads without it and for the paf heads whatever
    [paf_seeds] is.  The forwarded keywords reach the decoder unchanged. *)
Theorem X6_decoder_class_by_head_names model dc dense seeds ms hflip kwargs d :
  outcome (decode' model dc dense seeds ms hflip kwargs) = Ok d ->
  decoder_kwargs d = kwargs
  /\ (class_of d = Class_Pif <-> head_names model = ["cif"])
  /\ (class_of d = Class_PafsDijkstra
      <-> head_names model = ["cif"; "caf"; "caf25"] /\ seeds = true)
  /\ (class_of d = Class_CifCaf
      <-> (head_names model = ["cif"; "caf"; "caf25"] /\ seeds = false)
          \/ head_names model = ["cif"; "paf"; "paf25"]).
Proof.
  destruct (head_names_cases model) as [H|[H|[H|H]]].
  - rewrite decode_cif by exact H.
    destruct (last_item (head_strides model)) as [s|e]; cbn; [|discriminate].
    match goal with
    | |- context [call ?w ?k ?d'] => destruct (call_run w k d') as [-> | [what ->]]
    end; [|discriminate].
    intros [= <-]. cbn. rewrite H.
    repeat split; try done; intros; intuition discriminate.
  - rewrite decode_caf by exact H. cbn zeta.
    destruct (last_item (head_strides model)) as [s|e]; cbn; [|discriminate].
    destruct seeds;
      match goal with
      | |- context [call ?w ?k ?d'] => destruct (call_run w k d') as [-> | [what ->]]
      end; try discriminate;
      intros [= <-]; cbn; rewrite H;
      repeat split; try done; intros; intuition discriminate.
  - rewrite decode_paf by exact H.
    destruct (paf_locals model dense ms hflip) as [l|e]; cbn; [|discriminate].
    match goal with
    | |- context [call ?w ?k ?d'] => destruct (call_run w k d') as [-> | [what ->]]
    end; [|discriminate].
    intros [= <-]. cbn. rewrite H.
    repeat split; try done; intros; intuition discriminate.
  - rewrite decode_unknown by exact H. discriminate.
Qed.

(** X7.  Without multi-scale decoding the [('cif', 'paf', 'paf25')]
    decoder is constructed with single values, not tables: the last head
    stride as it is, pif index 0, paf index 1, a minimal scale and a
    minimal distance of 0.0, no maximal distance, and no output skeleton. *)
Theorem X7_single_scale_paf model s dc dense seeds hflip kwargs d :
  head_names model = ["cif"; "paf"; "paf25"] ->
  last (head_strides model) = Some s ->
  outcome (decode' model dc dense seeds false hflip kwargs) = Ok d ->
  exists c, d = CifCaf c
            /\ cc_stride c = Single s
            /\ cc_pif_index c = Single 0
            /\ cc_paf_index c = Single 1
            /\ cc_pif_min_scale c = Passed (Single PyFloat.zero)
            /\ cc_paf_min_distance c = Passed (Single PyFloat.zero)
            /\ cc_paf_max_distance c = Passed (Single None)
            /\ cc_out_skeleton c = Omitted.
Proof.
  intros H Hlast. rewrite decode_paf by exact H.
  rewrite (paf_locals_single_scale _ s) by exact Hlast. cbn.
  match goal with
  | |- context [call ?w ?k ?d'] => destruct (call_run w k d') as [-> | [what ->]]
  end; [|discriminate].
  intros [= <-]. eexists. repeat split.
Qed.

(** X8.  Options that a branch does not read have no effect on the run:
    the dense coupling without dense connections; the two multi-scale
    flags for head names other than [('cif', 'paf', 'paf25')]; [paf_seeds]
    for head names other than [('cif', 'caf', 'caf25')]; and the mirrored
    pass without multi-scale decoding. *)
Theorem X8_unread_options_have_no_effect
    model dc dc' dense seeds seeds' ms ms' hflip hflip' kwargs :
  (dense = false ->
     factory_decode KEYPOINTS SKELETON DENSER model dc dense seeds ms hflip kwargs
     = factory_decode KEYPOINTS SKELETON DENSER model dc' dense seeds ms hflip kwargs)
  /\ (head_names model <> ["cif"; "paf"; "paf25"] ->
      factory_decode KEYPOINTS SKELETON DENSER model dc dense seeds ms hflip kwargs
      = factory_decode KEYPOINTS SKELETON DENSER model dc dense seeds ms' hflip' kwargs)
  /\ (head_names model <> ["cif"; "caf"; "caf25"] ->
      factory_decode KEYPOINTS SKELETON DENSER model dc dense seeds ms hflip kwargs
      = factory_decode KEYPOINTS SKELETON DENSER model dc dense seeds' ms hflip kwargs)
  /\ factory_decode KEYPOINTS SKELETON DENSER model dc dense seeds false hflip kwargs
     = factory_decode KEYPOINTS SKELETON DENSER model dc dense seeds false hflip' kwargs.
Proof.
  destruct (head_names_cases model) as [H|[H|[H|H]]].
  - rewrite !(decode_cif _ _ _ _ _ _ _ _ _ _ H). repeat split.
  - rewrite !(decode_caf _ _ _ _ _ _ _ _ _ _ H).
    split; [|split; [|split]]; [now intros -> |reflexivity|done|reflexivity].
  - rewrite !(decode_paf _ _ _ _ _ _ _ _ _ _ H).
    split; [|split; [|split]]; [now intros -> |done|reflexivity|reflexivity].
  - rewrite !(decode_unknown _ _ _ _ _ _ _ _ _ _ H). repeat split.
Qed.

(** X9.  A decoder constructed with a confidence-scale list is
    constructed with a skeleton of the same length: one scale per edge. *)
Theorem X9_one_confidence_scale_per_edge model dc dense seeds ms hflip kwargs d l :
  outcome (decode' model dc dense seeds ms hflip kwargs) = Ok d ->
  decoder_confidence_scales d = Some l ->
  exists sk, decoder_skeleton d = Some sk /\ length l = length sk.
Proof.
  assert (length (dense_confidence_scales SKELETON DENSER dc)
          = length (SKELETON ++ DENSER)%list) as Hlen.
  { unfold dense_confidence_scales. now rewrite !length_app, !length_map. }
  destruct (head_names_cases model) as [H|[H|[H|H]]].
  - rewrite decode_cif by exact H.
    destruct (last_item (head_strides model)) as [s|e]; cbn; [|discriminate].
    match goal with
    | |- context [call ?w ?k ?d'] => destruct (call_run w k d') as [-> | [what ->]]
    end; [|discriminate].
    intros [= <-]. discriminate.
  - rewrite decode_caf by exact H. cbn zeta.
    destruct (last_item (head_strides model)) as [s|e]; cbn; [|discriminate].
    destruct seeds;
      match goal with
      | |- context [call ?w ?k ?d'] => destruct (call_run w k d') as [-> | [what ->]]
      end; try discriminate;
      intros [= <-]; destruct dense; cbn; try discriminate;
      intros [= <-]; eauto.
  - rewrite decode_paf by exact H.
    destruct (paf_locals model dense ms hflip) as [loc|e]; cbn; [|discriminate].
    match goal with
    | |- context [call ?w ?k ?d'] => destruct (call_run w k d') as [-> | [what ->]]
    end; [|discriminate].
    intros [= <-]; destruct dense; cbn; try discriminate.
    intros [= <-]; eauto.
  - rewrite decode_unknown by exact H. discriminate.
Qed.

(** X10.  The multi-scale tables are aligned: the six per-resolution
    tables of the constructed decoder have the same length; each paf index
    is the pif index of the same position plus one; no index occurs twice
    among the pif and paf indices; and wherever a maximal distance is
    given, the minimal distance of that position is below it. *)
Theorem X10_multi_scale_tables_aligned model dc dense seeds hflip kwargs c :
  head_names model = ["cif"; "paf"; "paf25"] ->
  outcome (decode' model dc dense seeds true hflip kwargs) = Ok (CifCaf c) ->
  exists strides pifs pafs mins dmins dmaxs,
    cc_stride c = Table strides
    /\ cc_pif_index c = Table pifs
    /\ cc_paf_index c = Table pafs
    /\ cc_pif_min_scale c = Passed (Table mins)
    /\ cc_paf_min_distance c = Passed (Table dmins)
    /\ cc_paf_max_distance c = Passed (Table dmaxs)
    /\ length strides = length pifs
    /\ length pafs = length pifs
    /\ length mins = length pifs
    /\ length dmins = length pifs
    /\ length dmaxs = length pifs
    /\ pafs = map (fun i => i + 1) pifs
    /\ NoDup (pifs ++ pafs)
    /\ Forall2 (fun lo hi => match hi with
                             | Some h => PyFloat.ltb lo h = true
                             | None => True
                             end) dmins dmaxs.
Proof.
  intros H. rewrite decode_paf by exact H.
  destruct (last (head_strides model)) as [s|] eqn:Hlast.
  - rewrite (paf_locals_multi_scale _ s) by exact Hlast.
    destruct (comprehension _ _) as [strides|e] eqn:Hc; cbn; [|discriminate].
    match goal with
    | |- context [call ?w ?k ?d'] => destruct (call_run w k d') as [-> | [what ->]]
    end; [|discriminate].
    intros [= <-]. cbn. apply comprehension_length in Hc.
    eexists strides, _, _, _, _, _.
    do 6 (split; [reflexivity|]).
    split; [rewrite Hc; now destruct hflip|].
    destruct hflip, dense; cbn;
      (do 4 (split; [reflexivity|]));
      (split; [reflexivity|]);
      (split; [apply (bool_decide_unpack _); vm_compute; exact I|]);
      repeat constructor.
  - unfold paf_locals, last_item. rewrite Hlast. discriminate.
Qed.

(** X11.  A run that raises has instantiated nothing, and a run that
    returns has instantiated exactly the decoder it returns.  The run
    raises [IndexError] exactly when the head names are supported and the
    model has no head strides. *)
Theorem X11_errors_instantiate_nothing model dc dense seeds ms hflip kwargs :
  (is_ok (outcome (decode' model dc dense seeds ms hflip kwargs)) = false ->
     instantiated (decode' model dc dense seeds ms hflip kwargs) = [])
  /\ (forall d, outcome (decode' model dc dense seeds ms hflip kwargs) = Ok d ->
        instantiated (decode' model dc dense seeds ms hflip kwargs) = [class_of d])
  /\ (outcome (decode' model dc dense seeds ms hflip kwargs) = Raise IndexError
      <-> head_names model ∈ supported_head_names /\ head_strides model = []).
Proof.
  split; [|split].
  - destruct (decode_run_shape model dc dense seeds ms hflip kwargs)
      as [[e ->]|[d ->]]; [reflexivity|discriminate].
  - intros d.
    destruct (decode_run_shape model dc dense seeds ms hflip kwargs)
      as [[e ->]|[d' ->]]; [discriminate|]. now intros [= <-].
  - assert (forall A (l : list A), last l = None <-> l = []) as Hlast_nil.
    { intros A l. split; [|now intros ->].
      destruct l as [|x l]; [reflexivity|].
      intros Hl. exfalso. revert x Hl.
      induction l as [|y l IH]; intros x; cbn; [discriminate|apply IH]. }
    destruct (head_names_cases model) as [H|[H|[H|H]]].
    + rewrite decode_cif by exact H. unfold last_item.
      destruct (last (head_strides model)) as [s|] eqn:Hl; cbn.
      * split.
        -- match goal with
           | |- context [call ?w ?k ?d'] =>
               destruct (call_run w k d') as [-> | [what ->]]
           end; discriminate.
        -- intros [_ Hnil]. apply Hlast_nil in Hnil. congruence.
      * split; [|reflexivity]. intros _. split; [|now apply Hlast_nil].
        unfold supported_head_names. rewrite H. constructor.
    + rewrite decode_caf by exact H. cbn zeta. unfold last_item.
      destruct (last (head_strides model)) as [s|] eqn:Hl; cbn.
      * split.
        -- destruct seeds;
             match goal with
             | |- context [call ?w ?k ?d'] =>
                 destruct (call_run w k d') as [-> | [what ->]]
             end; discriminate.
        -- intros [_ Hnil]. apply Hlast_nil in Hnil. congruence.
      * split; [|reflexivity]. intros _. split; [|now apply Hlast_nil].
        unfold supported_head_names. rewrite H. do 2 constructor.
    + rewrite decode_paf by exact H.
      destruct (last (head_strides model)) as [s|] eqn:Hl.
      * split.
        -- destruct (paf_locals model dense ms hflip) as [loc|e] eqn:Hp; cbn.
           ++ match goal with
              | |- context [call ?w ?k ?d'] =>
                  destruct (call_run w k d') as [-> | [what ->]]
              end; discriminate.
           ++ intros [= ->]. exfalso. revert Hp.
              destruct ms.
              ** rewrite (paf_locals_multi_scale _ s) by exact Hl.
                 destruct (comprehension _ _) as [ys|e'] eqn:Hc; [discriminate|].
                 intros [= ->].
                 assert (IndexError = OverflowError) as Habs; [|discriminate].
                 eapply (comprehension_raises (fun e => e = OverflowError)), Hc.
                 intros x e0. apply py_mul_raises.
              ** now rewrite (paf_locals_single_scale _ s) by exact Hl.
        -- intros [_ Hnil]. apply Hlast_nil in Hnil. congruence.
      * assert (paf_locals model dense ms hflip = Raise IndexError) as ->
          by (unfold paf_locals, last_item; now rewrite Hl).
        cbn. split; [|reflexivity]. intros _. split; [|now apply Hlast_nil].
        unfold supported_head_names. rewrite H. do 3 constructor.
    + rewrite decode_unknown by exact H. cbn.
      split; [discriminate|]. intros [Hin _]. done.
Qed.

(** X12.  The factory raises [OverflowError] exactly when it decodes the
    [('cif', 'paf', 'paf25')] heads at several scales and the last head
    stride is an [int] too large to convert to a float; nothing is
    instantiated then. *)
Theorem X12_overflow_only_for_huge_int_stride model dc dense seeds ms hflip kwargs :
  outcome (decode' model dc dense seeds ms hflip kwargs) = Raise OverflowError
  <-> head_names model = ["cif"; "paf"; "paf25"] /\ ms = true
      /\ exists z, last (head_strides model) = Some (PyInt z)
                   /\ float_of_int z = Raise OverflowError.
Proof.
  destruct (head_names_cases model) as [H|[H|[H|H]]].
  - rewrite decode_cif by exact H. split.
    + destruct (last_item (head_strides model)) as [s|e] eqn:Hl; cbn.
      * match goal with
        | |- context [call ?w ?k ?d'] => destruct (call_run w k d') as [-> | [what ->]]
        end; discriminate.
      * intros [= ->]. now apply last_item_raises in Hl.
    + intros [Hp _]. congruence.
  - rewrite decode_caf by exact H. cbn zeta. split.
    + destruct (last_item (head_strides model)) as [s|e] eqn:Hl; cbn.
      * destruct seeds;
          match goal with
          | |- context [call ?w ?k ?d'] =>
              destruct (call_run w k d') as [-> | [what ->]]
          end; discriminate.
      * intros [= ->]. now apply last_item_raises in Hl.
    + intros [Hp _]. congruence.
  - rewrite decode_paf by exact H.
    destruct (last (head_strides model)) as [s|] eqn:Hl.
    + destruct ms.
      * rewrite (paf_locals_multi_scale _ s) by exact Hl.
        destruct s as [z|f].
        -- destruct (float_of_int z) as [g|e] eqn:Hz.
           ++ assert (usable_stride (PyInt z) = true) as Hu
                by (unfold usable_stride, py_mul; now rewrite Hz).
              pose proof (comprehension_is_ok (py_mul (PyInt z)) _
                (per_pass_Forall _ hflip _ (usable_stride_resolutions _ Hu))) as Hc.
              destruct (comprehension _ _) as [ys|]; [|discriminate]. cbn.
              split.
              ** match goal with
                 | |- context [call ?w ?k ?d'] =>
                     destruct (call_run w k d') as [-> | [what ->]]
                 end; discriminate.
              ** intros (_ & _ & z' & [= <-] & Hz'). congruence.
           ++ pose proof (float_of_int_raises _ _ Hz) as ->.
              assert (comprehension (py_mul (PyInt z))
                        (per_pass hflip
                           [PyInt 1; PyFlt PyFloat.f1_5; PyInt 2; PyInt 3; PyInt 5])
                      = Raise OverflowError) as ->.
              { destruct hflip; cbn [comprehension per_pass app py_mul];
                  now rewrite Hz. }
              cbn. split; [|reflexivity]. intros _. eauto.
        -- assert (usable_stride (PyFlt f) = true) as Hu by reflexivity.
           pose proof (comprehension_is_ok (py_mul (PyFlt f)) _
             (per_pass_Forall _ hflip _ (usable_stride_resolutions _ Hu))) as Hc.
           destruct (comprehension _ _) as [ys|]; [|discriminate]. cbn.
           split.
           ++ match goal with
              | |- context [call ?w ?k ?d'] =>
                  destruct (call_run w k d') as [-> | [what ->]]
              end; discriminate.
           ++ intros (_ & _ & z' & [=] & _).
      * rewrite (paf_locals_single_scale _ s) by exact Hl. cbn. split.
        -- match goal with
           | |- context [call ?w ?k ?d'] =>
               destruct (call_run w k d') as [-> | [what ->]]
           end; discriminate.
        -- intros (_ & [=] & _).
    + assert (paf_locals model dense ms hflip = Raise IndexError) as ->
        by (unfold paf_locals, last_item; now rewrite Hl).
      cbn. split; [discriminate|]. intros (_ & _ & z & [=] & _).
  - rewrite decode_unknown by exact H. cbn. split; [discriminate|].
    intros [Hp _]. exfalso. apply H. unfold supported_head_names. rewrite Hp.
    do 3 constructor.
Qed.

End FactoryMore.

(** ** [factory_from_args] *)

Section FromArgsMore.

Context {VisualizerCls : Type}.
Variable vc : Namespace -> VisualizerCls -> VisualizerCls.
Variable KEYPOINTS : list string.
Variables SKELETON DENSER : skeleton_t.

Abbreviation from_args := (factory_from_args vc KEYPOINTS SKELETON DENSER).
Abbreviation decode'' := (factory_decode KEYPOINTS SKELETON DENSER).

Implicit Types (w : World (VisualizerCls := VisualizerCls)) (model : Model).

Lemma forwarded_kwargs_not_repeated seed dv :
  repeated_keyword written_keywords (forwarded_kwargs seed dv) = false.
Proof. destruct dv; vm_compute; reflexivity. Qed.

Lemma forwarded_kwargs_lookup seed dv :
  forwarded_kwargs seed dv !! "seed_threshold" = Some (VNum (PyFlt seed))
  /\ forwarded_kwargs seed dv !! "debug_visualizer"
     = Some (match dv with Some _ => VObject "Visualizer" | None => VNone end).
Proof.
  unfold forwarded_kwargs. split.
  - apply lookup_insert_eq.
  - rewrite lookup_insert_ne by done. apply lookup_insert_eq.
Qed.

(** A returned decoder holds the forwarded keywords. *)
Lemma decode_forwards_kwargs model dc dense seeds ms hflip kwargs d :
  outcome (decode'' model dc dense seeds ms hflip kwargs) = Ok d ->
  decoder_kwargs d = kwargs.
Proof.
  destruct (head_names_cases model) as [H|[H|[H|H]]].
  - rewrite decode_cif by exact H.
    destruct (last_item (head_strides model)) as [s|e]; cbn; [|discriminate].
    match goal with
    | |- context [call ?w ?k ?d'] => destruct (call_run w k d') as [-> | [what ->]]
    end; [|discriminate]. now intros [= <-].
  - rewrite decode_caf by exact H. cbn zeta.
    destruct (last_item (head_strides model)) as [s|e]; cbn; [|discriminate].
    destruct seeds;
      match goal with
      | |- context [call ?w ?k ?d'] => destruct (call_run w k d') as [-> | [what ->]]
      end; try discriminate; now intros [= <-].
  - rewrite decode_paf by exact H.
    destruct (paf_locals model dense ms hflip) as [l|e]; cbn; [|discriminate].
    match goal with
    | |- context [call ?w ?k ?d'] => destruct (call_run w k d') as [-> | [what ->]]
    end; [|discriminate]. now intros [= <-].
  - rewrite decode_unknown by exact H. discriminate.
Qed.

(** Without a repeated keyword no [TypeError] is raised. *)
Lemma decode_no_type_error model dc dense seeds ms hflip kwargs what :
  repeated_keyword written_keywords kwargs = false ->
  outcome (decode'' model dc dense seeds ms hflip kwargs) <> Raise (TypeError what).
Proof.
  intros Hk.
  destruct (head_names_cases model) as [H|[H|[H|H]]].
  - rewrite decode_cif by exact H.
    destruct (last_item (head_strides model)) as [s|e] eqn:Hl; cbn.
    + rewrite call_made; [discriminate|].
      apply (repeated_keyword_subset _ written_keywords); [cbn; tauto|exact Hk].
    + apply last_item_raises in Hl as ->. discriminate.
  - rewrite decode_caf by exact H. cbn zeta.
    destruct (last_item (head_strides model)) as [s|e] eqn:Hl; cbn.
    + destruct seeds; (rewrite call_made; [discriminate|]);
        (apply (repeated_keyword_subset _ written_keywords); [cbn; tauto|exact Hk]).
    + apply last_item_raises in Hl as ->. discriminate.
  - rewrite decode_paf by exact H.
    destruct (paf_locals model dense ms hflip) as [l|e] eqn:Hl; cbn.
    + rewrite call_made; [discriminate|].
      apply (repeated_keyword_subset _ written_keywords); [|exact Hk].
      destruct dense; cbn; tauto.
    + destruct (paf_locals_raises _ _ _ _ _ Hl) as [-> | ->]; discriminate.
  - rewrite decode_unknown by exact H. discriminate.
Qed.

Lemma from_args_rejected opts model device w :
  consistent (args w) = false ->
  from_args opts model device w
  = {| fa_world := configured vc w; fa_instantiated := [];
       fa_outcome := Raise AssertionError |}.
Proof.
  intros Hc. unfold factory_from_args. rewrite configure_run, Hc. reflexivity.
Qed.

Lemma from_args_accepted opts model device w :
  consistent (args w) = true ->
  from_args opts model device w
  = let a := args (configured vc w) in
    let dv := if debug a
              then Some {| vis_keypoints := KEYPOINTS;
                           vis_skeleton := (SKELETON ++ DENSER)%list |}
              else None in
    let run := decode'' model (dense_coupling opts) (dense_connections opts)
                 (paf_seeds opts) (multi_scale opts) (multi_scale_hflip opts)
                 (forwarded_kwargs (seed_threshold a) dv) in
    {| fa_world := configured vc w;
       fa_instantiated := instantiated run;
       fa_outcome :=
         match outcome run with
         | Raise e => Raise e
         | Ok decode =>
             Ok {| pr_model := model; pr_decode := decode;
                   pr_instance_threshold := instance_threshold a;
                   pr_keypoint_threshold := keypoint_threshold a;
                   pr_debug_visualizer := dv;
                   pr_profile := profile_decoder opts;
                   pr_worker_pool := decoder_workers a;
                   pr_device := device |}
         end |}.
Proof.
  intros Hc. unfold factory_from_args. rewrite configure_run, Hc. cbn zeta.
  destruct (outcome _); reflexivity.
Qed.

(** X13.  [factory_from_args] configures before it constructs: the store
    it leaves is the one [configure] leaves, whatever happens afterwards.
    When [configure] rejects the arguments, it raises [AssertionError] and
    no decoder is instantiated, whatever the model; when the arguments are
    accepted but the head names are unknown, the generic exception is
    raised with the class attributes already configured. *)
Theorem X13_from_args_configures_first opts model device w :
  fa_world (from_args opts model device w) = (configure vc w).1
  /\ ((configure vc w).2 <> Ok tt ->
      fa_outcome (from_args opts model device w) = Raise AssertionError
      /\ fa_instantiated (from_args opts model device w) = [])
  /\ ((configure vc w).2 = Ok tt ->
      head_names model ∉ supported_head_names ->
      fa_outcome (from_args opts model device w)
      = Raise (Exception_ "decoder unknown for head names: {}" (head_names model))
      /\ fa_instantiated (from_args opts model device w) = []
      /\ CifCaf_cls (fa_world (from_args opts model device w))
         = configured_assembler (args w)).
Proof.
  rewrite configure_store, configure_outcome.
  destruct (consistent (args w)) eqn:Hc.
  - rewrite from_args_accepted by exact Hc. cbn zeta. cbn [fa_world].
    split; [reflexivity|]. split; [done|].
    intros _ Hn. rewrite decode_unknown by exact Hn. cbn. repeat split.
  - rewrite from_args_rejected by exact Hc. cbn.
    split; [reflexivity|]. split; [done|discriminate].
Qed.

(** X14.  [factory_from_args] never raises [TypeError]: the two keywords
    it forwards repeat none of the keywords written at a constructor call.
    On accepted arguments, supported head names and a usable last head
    stride it returns a processor, holding the model, the device and the
    one decoder that was instantiated. *)
Theorem X14_from_args_returns_processor opts model device w :
  (forall what, fa_outcome (from_args opts model device w) <> Raise (TypeError what))
  /\ ((configure vc w).2 = Ok tt ->
      head_names model ∈ supported_head_names ->
      (exists s, last (head_strides model) = Some s /\ usable_stride s = true) ->
      exists p, fa_outcome (from_args opts model device w) = Ok p
                /\ fa_instantiated (from_args opts model device w)
                   = [class_of (pr_decode p)]
                /\ pr_model p = model
                /\ pr_device p = device).
Proof.
  split.
  - intros what. destruct (consistent (args w)) eqn:Hc.
    + rewrite from_args_accepted by exact Hc. cbn zeta. cbn [fa_outcome].
      match goal with
      | |- context [outcome (factory_decode ?K ?S ?D ?m ?dc ?de ?se ?ms ?hf ?kw)] =>
          pose proof (decode_no_type_error m dc de se ms hf kw what
                        (forwarded_kwargs_not_repeated _ _)) as Hn;
          destruct (outcome (factory_decode K S D m dc de se ms hf kw))
      end; [discriminate|intros [= ->]; now apply Hn].
    + rewrite from_args_rejected by exact Hc. discriminate.
  - intros Hok Hin (s & Hlast & Hs).
    apply configure_ok_consistent in Hok.
    rewrite from_args_accepted by exact Hok. cbn zeta. cbn [fa_outcome fa_instantiated].
    match goal with
    | |- context [outcome (factory_decode ?K ?S ?D ?m ?dc ?de ?se ?ms ?hf ?kw)] =>
        destruct (decode_is_ok K S D m dc de se ms hf kw Hin) as [d ->]
    end.
    + unfold well_formed_call. rewrite Hlast, Hs, forwarded_kwargs_not_repeated.
      reflexivity.
    + cbn. eexists. repeat split.
Qed.

(** X15.  The processor returned filters keypoints with the threshold
    the decoder generator was configured with, which is never [None]; the
    seed threshold forwarded to the decoder is at least that threshold,
    and with complete poses forced that threshold equals 0.0.  The
    instance threshold is passed on as given, and the worker pool is the
    decoder worker count that [configure] left. *)
Theorem X15_processor_thresholds opts model device w p :
  fa_outcome (from_args opts model device w) = Ok p ->
  exists k,
    pr_keypoint_threshold p = Some k
    /\ fr_keypoint_threshold (Frontier_cls (fa_world (from_args opts model device w)))
       = Some k
    /\ decoder_kwargs (pr_decode p) !! "seed_threshold"
       = Some (VNum (PyFlt (seed_threshold (args w))))
    /\ PyFloat.geb (seed_threshold (args w)) k = true
    /\ (force_complete_pose (args w) = true -> PyFloat.eqb k PyFloat.zero = true)
    /\ pr_instance_threshold p = instance_threshold (args w)
    /\ pr_worker_pool p
       = decoder_workers (args (fa_world (from_args opts model device w)))
    /\ pr_profile p = profile_decoder opts.
Proof.
  destruct (consistent (args w)) eqn:Hc.
  - rewrite from_args_accepted by exact Hc.
    remember (configured vc w) as w1 eqn:Hw1.
    cbn zeta. cbn [fa_outcome fa_world].
    match goal with
    | |- context [outcome (factory_decode ?K ?S ?D ?m ?dc ?de ?se ?ms ?hf ?kw)] =>
        pose proof (decode_forwards_kwargs m dc de se ms hf kw) as Hkw;
        destruct (outcome (factory_decode K S D m dc de se ms hf kw)) as [d|]
    end; [|discriminate].
    intros [= <-]. cbn [pr_keypoint_threshold pr_decode pr_instance_threshold
                        pr_worker_pool pr_profile].
    subst w1.
    rewrite (Hkw d eq_refl), configured_keypoint_threshold,
      configured_seed_threshold, configured_instance_threshold.
    exists (resolved_keypoint_threshold (args w)).
    split; [reflexivity|].
    split; [unfold configured; cbn; now rewrite Hc|].
    split; [apply forwarded_kwargs_lookup|].
    unfold consistent in Hc. apply andb_prop in Hc as [Hf Hs].
    split; [exact Hs|].
    split; [intros Hfc; rewrite Hfc in Hf; exact Hf|].
    repeat split.
  - rewrite from_args_rejected by exact Hc. discriminate.
Qed.

(** X16.  The debug visualizer exists exactly in debug mode.  In debug
    mode one visualizer, constructed with the base skeleton followed by
    the denser connections whether or not dense connections are decoded,
    is given to the processor and forwarded to the decoder, and the decoder
    worker count is the one given on the command line; otherwise both
    receive [None]. *)
Theorem X16_debug_visualizer opts model device w p :
  fa_outcome (from_args opts model device w) = Ok p ->
  (debug (args w) = true ->
     pr_debug_visualizer p
     = Some {| vis_keypoints := KEYPOINTS;
               vis_skeleton := (SKELETON ++ DENSER)%list |}
     /\ decoder_kwargs (pr_decode p) !! "debug_visualizer"
        = Some (VObject "Visualizer")
     /\ pr_worker_pool p = decoder_workers (args w))
  /\ (debug (args w) = false ->
      pr_debug_visualizer p = None
      /\ decoder_kwargs (pr_decode p) !! "debug_visualizer" = Some VNone).
Proof.
  destruct (consistent (args w)) eqn:Hc.
  - rewrite from_args_accepted by exact Hc.
    remember (configured vc w) as w1 eqn:Hw1.
    cbn zeta. cbn [fa_outcome].
    match goal with
    | |- context [outcome (factory_decode ?K ?S ?D ?m ?dc ?de ?se ?ms ?hf ?kw)] =>
        pose proof (decode_forwards_kwargs m dc de se ms hf kw) as Hkw;
        destruct (outcome (factory_decode K S D m dc de se ms hf kw)) as [d|]
    end; [|discriminate].
    intros [= <-]. cbn [pr_debug_visualizer pr_decode pr_worker_pool].
    subst w1.
    rewrite (Hkw d eq_refl), configured_decoder_workers.
    assert (debug (args (configured vc w)) = debug (args w)) as ->.
    { unfold configured; cbn.
      now destruct (consistent (args w) && workers_from_batch (args w)). }
    split; intros Hd; rewrite Hd.
    + split; [reflexivity|]. split; [apply forwarded_kwargs_lookup|].
      unfold workers_from_batch. rewrite Hd, andb_false_r, andb_false_r.
      reflexivity.
    + split; [reflexivity|apply forwarded_kwargs_lookup].
  - rewrite from_args_rejected by exact Hc. discriminate.
Qed.

End FromArgsMore.

(** ** [train.py] *)

(** *** Strings *)

Lemma append_cons x (a b : string) : String x a +:+ b = String x (a +:+ b).
Proof. reflexivity. Qed.

Lemma append_assoc' (a b c : string) : (a +:+ b) +:+ c = a +:+ (b +:+ c).
Proof.
  induction a as [|x a IH]; [reflexivity|]. now rewrite !append_cons, IH.
Qed.

Lemma append_nil_r (a : string) : a +:+ "" = a.
Proof. induction a as [|x a IH]; [reflexivity|]. now rewrite append_cons, IH. Qed.

Lemma length_append (a b : string) :
  String.length (a +:+ b) = (String.length a + String.length b)%nat.
Proof.
  induction a as [|x a IH]; [reflexivity|].
  rewrite append_cons. cbn [String.length]. now rewrite IH.
Qed.

Lemma occurs_append c (a b : string) :
  occurs c (a +:+ b) = occurs c a || occurs c b.
Proof.
  induction a as [|x a IH]; [reflexivity|].
  rewrite append_cons. cbn [occurs]. now rewrite IH, orb_assoc.
Qed.

Lemma rfind_lower c s : -1 <= rfind c s.
Proof.
  induction s as [|a s IH]; cbn; [lia|].
  destruct (0 <=? rfind c s) eqn:E; [apply Z.leb_le in E; lia|].
  destruct (Ascii.eqb a c); lia.
Qed.

Lemma rfind_absent c s : occurs c s = false -> rfind c s = -1.
Proof.
  induction s as [|a s IH]; cbn; [reflexivity|].
  intros H. apply orb_false_iff in H as [Ha Hs].
  rewrite (IH Hs), Ha. reflexivity.
Qed.

(** The last occurrence of [c] in [u c t], where [c] does not occur in
    [t], is at the length of [u]. *)
Lemma rfind_last c (u t : string) :
  occurs c t = false ->
  rfind c (u +:+ String c t) = Z.of_nat (String.length u).
Proof.
  intros Ht. induction u as [|a u IH].
  - change ("" +:+ String c t) with (String c t). cbn [rfind String.length].
    rewrite (rfind_absent c t Ht), Ascii.eqb_refl. reflexivity.
  - rewrite append_cons. cbn [rfind String.length]. rewrite IH.
    destruct (0 <=? Z.of_nat (String.length u)) eqn:E;
      [lia|apply Z.leb_gt in E; lia].
Qed.

Lemma string_from_append (u t : string) :
  string_from (String.length u) (u +:+ t) = t.
Proof.
  induction u as [|a u IH]; [now destruct t|].
  rewrite append_cons. exact IH.
Qed.

Lemma basename_no_slash (t : string) :
  occurs "/"%char t = false -> basename t = t.
Proof. intros H. unfold basename. rewrite (rfind_absent _ _ H). reflexivity. Qed.

Lemma basename_after_slash (u t : string) :
  occurs "/"%char t = false -> basename (u +:+ String "/"%char t) = t.
Proof.
  intros H. unfold basename. rewrite (rfind_last _ _ _ H).
  replace (Z.to_nat (Z.of_nat (String.length u) + 1))
    with (String.length (u +:+ "/")) by (rewrite length_append; cbn; lia).
  replace (u +:+ String "/"%char t) with ((u +:+ "/") +:+ t)
    by (now rewrite append_assoc').
  apply string_from_append.
Qed.

Lemma partition_first c (h t : string) :
  occurs c h = false ->
  partition c (h +:+ String c t) = (h, String c EmptyString, t).
Proof.
  induction h as [|a h IH].
  - intros _. change ("" +:+ String c t) with (String c t).
    cbn [partition]. now rewrite Ascii.eqb_refl.
  - intros H. cbn [occurs] in H. apply orb_false_iff in H as [Ha Hh].
    rewrite append_cons. cbn [partition]. now rewrite Ha, (IH Hh).
Qed.

Lemma occurs_string_of_uint c d :
  occurs c (NilEmpty.string_of_uint d) = true ->
  In c ["0"; "1"; "2"; "3"; "4"; "5"; "6"; "7"; "8"; "9"]%char.
Proof.
  induction d as [|d IH|d IH|d IH|d IH|d IH|d IH|d IH|d IH|d IH|d IH];
    cbn [NilEmpty.string_of_uint occurs];
    [discriminate|..];
    intros H; apply orb_true_iff in H as [H|H]; auto;
    apply Ascii.eqb_eq in H; subst; cbn [In]; tauto.
Qed.

Lemma str_int_no_slash z : occurs "/"%char (str_int z) = false.
Proof.
  unfold str_int. destruct (occurs _ _) eqn:E; [|reflexivity]. exfalso.
  assert (forall d, occurs "/"%char (NilZero.string_of_uint d) = true -> False)
    as Hu.
  { intros d Hd.
    assert (occurs "/"%char (NilEmpty.string_of_uint d) = true) as Hd'
      by (destruct d; [discriminate Hd|exact Hd..]).
    apply occurs_string_of_uint in Hd'. cbn in Hd'.
    repeat (destruct Hd' as [Hd'|Hd']; [discriminate Hd'|]). exact Hd'. }
  destruct (Z.to_int z) as [d|d]; cbn in E.
  - now apply (Hu d).
  - now apply (Hu d).
Qed.

(** *** The default output file *)

Section TrainMore.

Variable now : string.
Variable str_float : float -> string.
Variable format_02_0f : float -> string.

Abbreviation dof := (default_output_file now str_float format_02_0f).
Abbreviation suffix := (name_suffix str_float format_02_0f).

Lemma append_nil_l (a : string) : "" +:+ a = a.
Proof. reflexivity. Qed.

Lemma default_output_file_shape args :
  dof args
  = match base_name args with
    | Raise e => Raise e
    | Ok b =>
        Ok ("outputs/" +:+ b +:+ "-" +:+ now +:+ "-" +:+ dataset args
            +:+ suffix args +:+ ".pkl")
    end.
Proof.
  unfold default_output_file, base_name, name_suffix.
  destruct (if falsy_name (basenet args) then _ else _) as [b|e]; [|reflexivity].
  destruct (negb (cocokp_square_edge args =? 385)),
    (negb (String.eqb (regression_loss args) "laplace")),
    (negb (PyFloat.eqb (r_smooth args) PyFloat.zero)),
    (float_truth (cocokp_orientation_invariant args)),
    (cocokp_extended_scale args);
    cbn [orb]; f_equal;
    rewrite ?append_assoc', ?append_nil_l, ?append_nil_r; reflexivity.
Qed.

(** X17.  [default_output_file] fails exactly when [args] names neither a
    base network nor a checkpoint, and then with [TypeError]; when a base
    network is named, the checkpoint is not looked at. *)
Theorem X17_default_output_file_needs_a_name args :
  (is_ok (dof args) = false
   <-> falsy_name (basenet args) = true /\ checkpoint args = None)
  /\ (forall e, dof args = Raise e -> exists what, e = TypeError what)
  /\ (falsy_name (basenet args) = false ->
      forall c, dof (set_checkpoint c args) = dof args).
Proof.
  rewrite default_output_file_shape. unfold base_name.
  split; [|split].
  - destruct (falsy_name (basenet args)), (checkpoint args); cbn;
      split; try discriminate; try tauto; intros [? ?]; discriminate.
  - intros e. destruct (falsy_name (basenet args)), (checkpoint args);
      try discriminate. intros [= <-]. eauto.
  - intros Hb c. rewrite default_output_file_shape. unfold base_name.
    cbn [basenet set_checkpoint]. rewrite Hb. reflexivity.
Qed.

(** The base name read off a checkpoint path [prefix name - tail]. *)
Lemma base_name_of_checkpoint (prefix name tail : string) :
  prefix = "" \/ (exists dir, prefix = dir +:+ "/") ->
  occurs "/"%char name = false ->
  occurs "/"%char tail = false ->
  occurs "-"%char name = false ->
  (partition "-"%char (basename (prefix +:+ name +:+ "-" +:+ tail))).1.1 = name.
Proof.
  intros Hp Hn Ht Hd.
  assert (occurs "/"%char (name +:+ "-" +:+ tail) = false) as Hrest.
  { rewrite !occurs_append, Hn, Ht. reflexivity. }
  assert (basename (prefix +:+ name +:+ "-" +:+ tail) = name +:+ "-" +:+ tail)
    as ->.
  { destruct Hp as [-> | [dir ->]].
    - rewrite append_nil_l. now apply basename_no_slash.
    - rewrite append_assoc'. now apply basename_after_slash. }
  change (name +:+ "-" +:+ tail) with (name +:+ String "-"%char tail).
  now rewrite partition_first.
Qed.

(** X18.  Training from a checkpoint [dir/name-tail] (or [name-tail])
    names the output after [name], the part of the file name before its
    first ['-']: the default output file is the one that [--basenet name]
    gives. *)
Theorem X18_checkpoint_names_the_base (prefix name tail : string) args :
  falsy_name (basenet args) = true ->
  checkpoint args = Some (prefix +:+ name +:+ "-" +:+ tail) ->
  prefix = "" \/ (exists dir, prefix = dir +:+ "/") ->
  occurs "/"%char name = false ->
  occurs "/"%char tail = false ->
  occurs "-"%char name = false ->
  name <> "" ->
  dof args = dof (set_basenet (Some name) args).
Proof.
  intros Hb Hc Hp Hn Ht Hd Hne.
  rewrite !default_output_file_shape. unfold base_name.
  cbn [basenet checkpoint set_basenet dataset]. rewrite Hb, Hc.
  rewrite (base_name_of_checkpoint prefix name tail Hp Hn Ht Hd).
  destruct name; [done|]. reflexivity.
Qed.

Lemma suffix_no_slash args :
  occurs "/"%char (regression_loss args) = false ->
  (forall x, occurs "/"%char (str_float x) = false) ->
  (forall x, occurs "/"%char (format_02_0f x) = false) ->
  occurs "/"%char (suffix args) = false.
Proof.
  intros Hl Hs Hf. unfold name_suffix.
  destruct (negb (cocokp_square_edge args =? 385)),
    (negb (String.eqb (regression_loss args) "laplace")),
    (negb (PyFloat.eqb (r_smooth args) PyFloat.zero)),
    (float_truth (cocokp_orientation_invariant args)),
    (cocokp_extended_scale args);
    cbn [orb]; rewrite !occurs_append, ?str_int_no_slash, ?Hl, ?Hs, ?Hf;
    reflexivity.
Qed.

(** X20.  With a base network named, the plain name
    [outputs/<base>-<now>-<dataset>.pkl] is generated exactly for the
    standard options: a square edge of 385, the laplace regression loss,
    no smoothing, no orientation invariance and no extended scale.  Any
    other option lengthens the name. *)
Theorem X20_plain_name_for_standard_options args b :
  basenet args = Some b ->
  b <> "" ->
  (dof args = Ok ("outputs/" +:+ b +:+ "-" +:+ now +:+ "-" +:+ dataset args +:+ ".pkl")
   <-> cocokp_square_edge args = 385
       /\ regression_loss args = "laplace"
       /\ PyFloat.eqb (r_smooth args) PyFloat.zero = true
       /\ PyFloat.eqb (cocokp_orientation_invariant args) PyFloat.zero = true
       /\ cocokp_extended_scale args = false).
Proof.
  intros Hb Hne. rewrite default_output_file_shape. unfold base_name.
  rewrite Hb. destruct b as [|c0 b0] eqn:Eb; [done|].
  cbn [falsy_name default]. rewrite <- Eb.
  assert (suffix args = ""
          <-> cocokp_square_edge args = 385
              /\ regression_loss args = "laplace"
              /\ PyFloat.eqb (r_smooth args) PyFloat.zero = true
              /\ PyFloat.eqb (cocokp_orientation_invariant args) PyFloat.zero = true
              /\ cocokp_extended_scale args = false) as Hsuffix.
  { unfold name_suffix, float_truth.
    destruct (cocokp_square_edge args =? 385) eqn:He;
      [apply Z.eqb_eq in He|apply Z.eqb_neq in He];
    (destruct (String.eqb (regression_loss args) "laplace") eqn:Hl;
      [apply String.eqb_eq in Hl|apply String.eqb_neq in Hl]);
    destruct (PyFloat.eqb (r_smooth args) PyFloat.zero),
      (PyFloat.eqb (cocokp_orientation_invariant args) PyFloat.zero),
      (cocokp_extended_scale args);
    cbn [negb orb]; rewrite ?append_nil_l;
    (split; [intros Hs; try (exfalso; apply (f_equal String.length) in Hs;
                             rewrite ?length_append in Hs; cbn in Hs; lia);
             tauto
            |intros (? & ? & ? & ? & ?); try done; try discriminate]). }
  split.
  - intros [= Heq]. apply Hsuffix.
    apply (f_equal String.length) in Heq.
    rewrite !length_append in Heq. cbn [String.length] in Heq.
    destruct (suffix args); [reflexivity|cbn [String.length] in Heq; lia].
  - intros H. apply Hsuffix in H. rewrite H, append_nil_l. reflexivity.
Qed.

End TrainMore.

(** ** [default_output_file]: training again from a generated file *)

Lemma append_cancel_l (p a b : string) : p +:+ a = p +:+ b -> a = b.
Proof.
  induction p as [|x p IH]; [trivial|].
  rewrite !append_cons. intros [= E]. now apply IH.
Qed.

Lemma append_cancel_r (a b c : string) : a +:+ c = b +:+ c -> a = b.
Proof.
  intros E.
  assert (String.length a = String.length b) as Hlen.
  { apply (f_equal String.length) in E. rewrite !length_append in E. lia. }
  revert b E Hlen. induction a as [|x a IH]; intros [|y b] E Hlen;
    try discriminate Hlen; [reflexivity|].
  rewrite !append_cons in E. injection E as -> E.
  f_equal. apply IH; [exact E|]. cbn in Hlen. lia.
Qed.

Section TrainAgain.

(** The clock is read at every call: [now] is the time stamp of the run
    that generated the file, [later] that of the run that trains from it. *)
Variables now later : string.
Variable str_float : float -> string.
Variable format_02_0f : float -> string.

(** X19.  A generated default output file can be trained from again: when
    the base network name has no ['-'] and no ['/'], and no ['/'] occurs in
    the time stamp, the data set, the loss name and the formatted numbers,
    a later run given the generated file as its checkpoint, with no base
    network, derives the same base name, so that its output file is the one
    the base network itself would give at that later time.  The two file
    names differ in the time stamp only: the later run generates the name
    of the earlier one exactly when its clock reads the same. *)
Theorem X19_retraining_keeps_the_base_name args b out :
  basenet args = Some b ->
  b <> "" ->
  occurs "-"%char b = false ->
  occurs "/"%char b = false ->
  occurs "/"%char now = false ->
  occurs "/"%char (dataset args) = false ->
  occurs "/"%char (regression_loss args) = false ->
  (forall x, occurs "/"%char (str_float x) = false) ->
  (forall x, occurs "/"%char (format_02_0f x) = false) ->
  default_output_file now str_float format_02_0f args = Ok out ->
  default_output_file later str_float format_02_0f
    (set_basenet None (set_checkpoint (Some out) args))
  = default_output_file later str_float format_02_0f args
  /\ default_output_file later str_float format_02_0f args
     = Ok ("outputs/" +:+ b +:+ "-" +:+ later +:+ "-" +:+ dataset args
           +:+ name_suffix str_float format_02_0f args +:+ ".pkl")
  /\ (default_output_file later str_float format_02_0f
        (set_basenet None (set_checkpoint (Some out) args)) = Ok out
      <-> later = now).
Proof.
  intros Hb Hne Hd Hs Hnow Hdata Hloss Hsf Hff.
  rewrite !default_output_file_shape. unfold base_name.
  cbn [basenet checkpoint set_basenet set_checkpoint dataset falsy_name].
  rewrite Hb. destruct b as [|c0 b0] eqn:Eb; [done|].
  cbn [falsy_name default]. rewrite <- Eb in *. intros [= <-].
  change (name_suffix str_float format_02_0f
            (set_basenet None (set_checkpoint _ args)))
    with (name_suffix str_float format_02_0f args).
  assert ((partition "-"%char
             (basename ("outputs/" +:+ b +:+ "-" +:+ now +:+ "-" +:+ dataset args
                        +:+ name_suffix str_float format_02_0f args
                        +:+ ".pkl"))).1.1 = b) as ->.
  { change ("outputs/" +:+ b +:+ "-" +:+ now +:+ "-" +:+ dataset args
            +:+ name_suffix str_float format_02_0f args +:+ ".pkl")
      with (("outputs" +:+ "/") +:+ b +:+ "-"
            +:+ (now +:+ "-" +:+ dataset args
                 +:+ name_suffix str_float format_02_0f args +:+ ".pkl")).
    apply base_name_of_checkpoint; [eauto|exact Hs| |exact Hd].
    rewrite !occurs_append, Hnow, Hdata,
      (suffix_no_slash str_float format_02_0f args Hloss Hsf Hff).
    reflexivity. }
  split; [reflexivity|]. split; [reflexivity|].
  split; [|now intros ->].
  intros E. assert (forall x y : string, Ok x = Ok y -> x = y) as Hinj
    by (intros x y [= ->]; reflexivity).
  apply Hinj in E.
  apply (append_cancel_l "outputs/") in E.
  apply append_cancel_l in E. apply (append_cancel_l "-") in E.
  now apply append_cancel_r in E.
Qed.

End TrainAgain.

(** *** The set-up statements of [cli] *)

Section CliMore.

Variable now : string.
Variable str_float : float -> string.
Variable format_02_0f : float -> string.

Abbreviation dof' := (default_output_file now str_float format_02_0f).
Abbreviation setup := (cli_setup now str_float format_02_0f).

Ltac env_lookup :=
  intros;
  repeat first [rewrite lookup_insert_eq | rewrite lookup_insert_ne by done];
  try done; try congruence.

Lemma env_truth_insert_ne env k k' v :
  k <> k' -> env_truth (<[k := v]> env) k' = env_truth env k'.
Proof. intros H. unfold env_truth. now rewrite lookup_insert_ne. Qed.

(** X21.  The SLURM block.  Without [SLURM_PROCID] in the environment
    nothing changes.  With it, [RANK] becomes the SLURM process id and the
    local rank 0; a [WORLD_SIZE] that is set and not empty is never
    replaced; an unset or empty one becomes [SLURM_NTASKS] when that is set
    and not empty, and is left as it is otherwise; no other variable is
    touched. *)
Theorem X21_slurm_environment w :
  (environ w !! "SLURM_PROCID" = None -> slurm_setup w = w)
  /\ (forall pid, environ w !! "SLURM_PROCID" = Some pid ->
        environ (slurm_setup w) !! "RANK" = Some pid
        /\ local_rank (targs (slurm_setup w)) = Some 0
        /\ (env_truth (environ w) "WORLD_SIZE" = true ->
            environ (slurm_setup w) !! "WORLD_SIZE" = environ w !! "WORLD_SIZE")
        /\ (env_truth (environ w) "WORLD_SIZE" = false ->
            env_truth (environ w) "SLURM_NTASKS" = true ->
            environ (slurm_setup w) !! "WORLD_SIZE" = environ w !! "SLURM_NTASKS")
        /\ (env_truth (environ w) "SLURM_NTASKS" = false ->
            environ (slurm_setup w) !! "WORLD_SIZE" = environ w !! "WORLD_SIZE")
        /\ (forall k, k <> "RANK" -> k <> "WORLD_SIZE" ->
            environ (slurm_setup w) !! k = environ w !! k)).
Proof.
  split.
  - intros H. unfold slurm_setup. now rewrite H.
  - intros pid H. unfold slurm_setup. rewrite H.
    rewrite !env_truth_insert_ne by done.
    rewrite (lookup_insert_ne (environ w) "RANK" "SLURM_NTASKS") by done.
    destruct (env_truth (environ w) "WORLD_SIZE") eqn:Hw,
      (env_truth (environ w) "SLURM_NTASKS") eqn:Hn; cbn [negb andb environ targs].
    3: { unfold env_truth in Hn.
         destruct (environ w !! "SLURM_NTASKS") as [n|] eqn:En; [|discriminate].
         cbn [environ targs]. repeat split; env_lookup. }
    all: repeat split; env_lookup.
Qed.

Lemma default_output_file_ignores_setup cuda w :
  dof' (targs (device_setup cuda (slurm_setup w))) = dof' (targs w).
Proof.
  unfold device_setup, slurm_setup.
  destruct (environ w !! "SLURM_PROCID"); cbn [targs];
    destruct (negb (disable_cuda _) && cuda); reflexivity.
Qed.

(** X22.  The output block of [cli].  An output file given on the command
    line is kept as it is and no directory is made.  Without one, the
    default output file is computed from the parsed arguments, unaffected
    by the SLURM and device set-up, and the directory [outputs] is asked
    for once; if no name can be derived the exception is passed on, with no
    directory made and no output set.  In every case the device is [cuda]
    with pinned memory when CUDA is available and not disabled, and [cpu]
    without pinned memory otherwise. *)
Theorem X22_cli_output_and_device cuda w :
  (forall o, output (targs w) = Some o ->
     (cli_setup now str_float format_02_0f cuda w).2 = Ok tt
     /\ output (targs (cli_setup now str_float format_02_0f cuda w).1) = Some o
     /\ made_dirs (cli_setup now str_float format_02_0f cuda w).1 = made_dirs w)
  /\ (output (targs w) = None ->
      forall out, default_output_file now str_float format_02_0f (targs w) = Ok out ->
        (cli_setup now str_float format_02_0f cuda w).2 = Ok tt
        /\ output (targs (cli_setup now str_float format_02_0f cuda w).1) = Some out
        /\ made_dirs (cli_setup now str_float format_02_0f cuda w).1 = (made_dirs w ++ ["outputs"])%list)
  /\ (output (targs w) = None ->
      forall e, default_output_file now str_float format_02_0f (targs w) = Raise e ->
        (cli_setup now str_float format_02_0f cuda w).2 = Raise e
        /\ output (targs (cli_setup now str_float format_02_0f cuda w).1) = None
        /\ made_dirs (cli_setup now str_float format_02_0f cuda w).1 = made_dirs w)
  /\ device (targs (cli_setup now str_float format_02_0f cuda w).1)
     = Some (if negb (disable_cuda (targs w)) && cuda then "cuda" else "cpu")
  /\ pin_memory (targs (cli_setup now str_float format_02_0f cuda w).1)
     = Some (negb (disable_cuda (targs w)) && cuda).
Proof.
  assert (output (targs (device_setup cuda (slurm_setup w))) = output (targs w))
    as Hout.
  { unfold device_setup, slurm_setup.
    destruct (environ w !! "SLURM_PROCID"); cbn [targs];
      destruct (negb (disable_cuda _) && cuda); reflexivity. }
  assert (made_dirs (device_setup cuda (slurm_setup w)) = made_dirs w) as Hdirs.
  { unfold device_setup, slurm_setup.
    destruct (environ w !! "SLURM_PROCID"); reflexivity. }
  assert (device (targs (device_setup cuda (slurm_setup w)))
          = Some (if negb (disable_cuda (targs w)) && cuda then "cuda" else "cpu")
          /\ pin_memory (targs (device_setup cuda (slurm_setup w)))
             = Some (negb (disable_cuda (targs w)) && cuda)) as [Hdev Hpin].
  { unfold device_setup, slurm_setup.
    destruct (environ w !! "SLURM_PROCID"); cbn [targs set_device set_local_rank
                                                   disable_cuda];
      destruct (negb (disable_cuda (targs w)) && cuda); split; reflexivity. }
  unfold cli_setup, output_setup.
  rewrite Hout, default_output_file_ignores_setup.
  destruct (output (targs w)) as [o|].
  - cbn [fst snd]. rewrite Hout, Hdirs, Hdev, Hpin.
    repeat split; try done; intros; simplify_eq; done.
  - destruct (dof' (targs w)) as [out|e]; cbn [fst snd targs made_dirs].
    + rewrite Hdirs. cbn [output device pin_memory set_output].
      rewrite Hdev, Hpin.
      repeat split; try done; intros; simplify_eq; done.
    + rewrite Hout, Hdirs, Hdev, Hpin.
      repeat split; try done; intros; simplify_eq; done.
Qed.

End CliMore.

(** ** The further properties on concrete inputs *)

Lemma X1_configure_writes_before_checking_witness :
  Frontier_cls (configure Examples.vis_configure
                  (Examples.world_of Examples.args_low_seed)).1
  = Frontier_cls (Examples.world_of Examples.args_low_seed)
  /\ decoder_workers
       (args (configure Examples.vis_configure
                (Examples.world_of Examples.args_low_seed)).1)
     = decoder_workers (args (Examples.world_of Examples.args_low_seed)).
Proof.
  destruct (X1_configure_writes_before_checking Examples.vis_configure
              (Examples.world_of Examples.args_low_seed))
    as (_ & _ & _ & _ & _ & H).
  apply H. reflexivity.
Defined.

Lemma X3_configure_rejects_nan_witness :
  (configure Examples.vis_configure
     (Examples.world_of MoreExamples.args_nan_seed)).2 = Raise AssertionError.
Proof.
  apply (X3_configure_rejects_nan Examples.vis_configure
           (Examples.world_of MoreExamples.args_nan_seed)).
  left. reflexivity.
Defined.

Lemma X4_configure_repeats_failure_witness :
  (configure Examples.vis_configure
     (configure Examples.vis_configure
        (Examples.world_of Examples.args_low_seed)).1).2 = Raise AssertionError
  /\ args (configure Examples.vis_configure
             (configure Examples.vis_configure
                (Examples.world_of Examples.args_low_seed)).1).1
     = args (configure Examples.vis_configure
               (Examples.world_of Examples.args_low_seed)).1.
Proof.
  destruct (X4_configure_repeats_failure Examples.vis_configure
              (Examples.world_of Examples.args_low_seed) AssertionError eq_refl)
    as (H1 & H2 & _).
  split; assumption.
Defined.

Lemma X5_forced_pose_acceptance_witness :
  (configure Examples.vis_configure (Examples.world_of Examples.args_default)).2
  = Ok tt.
Proof.
  apply (X5_forced_pose_acceptance Examples.vis_configure
           (Examples.world_of Examples.args_default) eq_refl).
  split; [left|]; reflexivity.
Defined.

Lemma X6_decoder_class_by_head_names_witness :
  exists d,
    outcome (factory_decode Examples.keypoints3 Examples.skeleton3
               Examples.denser3 Examples.model_paf PyFloat.zero false true
               false true Examples.kwargs0) = Ok d
    /\ decoder_kwargs d = Examples.kwargs0
    /\ class_of d = Class_CifCaf.
Proof.
  destruct (outcome _) as [d|] eqn:E; [|exfalso; vm_compute in E; discriminate E].
  destruct (X6_decoder_class_by_head_names _ _ _ _ _ _ _ _ _ _ d E)
    as (Hk & _ & _ & Hc).
  exists d. split; [reflexivity|]. split; [exact Hk|].
  apply Hc. right. reflexivity.
Defined.

Lemma X7_single_scale_paf_witness :
  exists c,
    outcome (factory_decode Examples.keypoints3 Examples.skeleton3
               Examples.denser3 Examples.model_paf PyFloat.zero false false
               false true Examples.kwargs0) = Ok (CifCaf c)
    /\ cc_stride c = Single (PyInt 8)
    /\ cc_pif_index c = Single 0
    /\ cc_paf_index c = Single 1
    /\ cc_paf_max_distance c = Passed (Single None).
Proof.
  destruct (outcome _) as [d|] eqn:E; [|exfalso; vm_compute in E; discriminate E].
  destruct (X7_single_scale_paf Examples.keypoints3 Examples.skeleton3
              Examples.denser3 Examples.model_paf (PyInt 8) PyFloat.zero false
              false true Examples.kwargs0 d eq_refl eq_refl E)
    as (c & -> & H1 & H2 & H3 & _ & _ & H4 & _).
  exists c. repeat split; assumption.
Defined.

Lemma X8_unread_options_have_no_effect_witness :
  factory_decode Examples.keypoints3 Examples.skeleton3 Examples.denser3
    Examples.model_caf PyFloat.zero false true false false Examples.kwargs0
  = factory_decode Examples.keypoints3 Examples.skeleton3 Examples.denser3
      Examples.model_caf PyFloat.f0_01 false true false false Examples.kwargs0
  /\ factory_decode Examples.keypoints3 Examples.skeleton3 Examples.denser3
       Examples.model_caf PyFloat.zero false true false false Examples.kwargs0
     = factory_decode Examples.keypoints3 Examples.skeleton3 Examples.denser3
         Examples.model_caf PyFloat.zero false true true true Examples.kwargs0
  /\ factory_decode Examples.keypoints3 Examples.skeleton3 Examples.denser3
       Examples.model_paf PyFloat.zero false true false false Examples.kwargs0
     = factory_decode Examples.keypoints3 Examples.skeleton3 Examples.denser3
         Examples.model_paf PyFloat.zero false false false false Examples.kwargs0.
Proof.
  split; [|split].
  - apply (proj1 (X8_unread_options_have_no_effect Examples.keypoints3
                    Examples.skeleton3 Examples.denser3 Examples.model_caf
                    PyFloat.zero PyFloat.f0_01 false true true false false
                    false false Examples.kwargs0)).
    reflexivity.
  - apply (proj1 (proj2 (X8_unread_options_have_no_effect Examples.keypoints3
                    Examples.skeleton3 Examples.denser3 Examples.model_caf
                    PyFloat.zero PyFloat.zero false true true false true
                    false true Examples.kwargs0))).
    discriminate.
  - apply (proj1 (proj2 (proj2 (X8_unread_options_have_no_effect
                    Examples.keypoints3
                    Examples.skeleton3 Examples.denser3 Examples.model_paf
                    PyFloat.zero PyFloat.zero false true false false false
                    false false Examples.kwargs0)))).
    discriminate.
Defined.

Lemma X9_one_confidence_scale_per_edge_witness :
  exists d l sk,
    outcome (factory_decode Examples.keypoints3 Examples.skeleton3
               Examples.denser3 Examples.model_paf PyFloat.f0_01 true false
               false true Examples.kwargs0) = Ok d
    /\ decoder_confidence_scales d = Some l
    /\ decoder_skeleton d = Some sk
    /\ length l = length sk.
Proof.
  destruct (outcome _) as [d|] eqn:E; [|exfalso; vm_compute in E; discriminate E].
  destruct (decoder_confidence_scales d) as [l|] eqn:El;
    [|exfalso; vm_compute in E; injection E as <-; discriminate El].
  destruct (X9_one_confidence_scale_per_edge _ _ _ _ _ _ _ _ _ _ d l E El)
    as (sk & Hsk & Hlen).
  exists d, l, sk. repeat split; assumption.
Defined.

Lemma X10_multi_scale_tables_aligned_witness :
  exists c pifs pafs,
    outcome (factory_decode Examples.keypoints3 Examples.skeleton3
               Examples.denser3 Examples.model_paf PyFloat.f0_01 true false
               true false Examples.kwargs0) = Ok (CifCaf c)
    /\ cc_pif_index c = Table pifs
    /\ cc_paf_index c = Table pafs
    /\ pafs = map (fun i => i + 1) pifs
    /\ NoDup (pifs ++ pafs).
Proof.
  destruct (outcome _) as [[| |c]|] eqn:E;
    try (exfalso; vm_compute in E; discriminate E).
  destruct (X10_multi_scale_tables_aligned Examples.keypoints3
              Examples.skeleton3 Examples.denser3 Examples.model_paf
              PyFloat.f0_01 true false false Examples.kwargs0 c eq_refl E)
    as (strides & pifs & pafs & mins & dmins & dmaxs & _ & Hp & Hq & _ & _ & _
        & _ & _ & _ & _ & _ & Hmap & Hnd & _).
  exists c, pifs, pafs. repeat split; assumption.
Defined.

Lemma X11_errors_instantiate_nothing_witness :
  instantiated
    (factory_decode Examples.keypoints3 Examples.skeleton3 Examples.denser3
       MoreExamples.model_no_strides PyFloat.zero false false false true
       Examples.kwargs0) = []
  /\ outcome
       (factory_decode Examples.keypoints3 Examples.skeleton3 Examples.denser3
          MoreExamples.model_no_strides PyFloat.zero false false false true
          Examples.kwargs0) = Raise IndexError.
Proof.
  destruct (X11_errors_instantiate_nothing Examples.keypoints3
              Examples.skeleton3 Examples.denser3 MoreExamples.model_no_strides
              PyFloat.zero false false false true Examples.kwargs0)
    as (H1 & _ & H3).
  split.
  - apply H1. reflexivity.
  - apply H3. split; [|reflexivity]. do 3 constructor.
Defined.

Lemma X12_overflow_only_for_huge_int_stride_witness :
  outcome
    (factory_decode Examples.keypoints3 Examples.skeleton3 Examples.denser3
       MoreExamples.model_huge_stride PyFloat.zero false false true true
       Examples.kwargs0) = Raise OverflowError.
Proof.
  apply (X12_overflow_only_for_huge_int_stride Examples.keypoints3
           Examples.skeleton3 Examples.denser3 MoreExamples.model_huge_stride
           PyFloat.zero false false true true Examples.kwargs0).
  split; [reflexivity|]. split; [reflexivity|].
  exists (2 ^ 1030). split; [reflexivity|]. vm_compute. reflexivity.
Defined.

Lemma X13_from_args_configures_first_witness :
  (fa_outcome
     (factory_from_args Examples.vis_configure Examples.keypoints3
        Examples.skeleton3 Examples.denser3 MoreExamples.options0
        Examples.model_paf None (Examples.world_of Examples.args_low_seed))
   = Raise AssertionError
   /\ fa_instantiated
        (factory_from_args Examples.vis_configure Examples.keypoints3
           Examples.skeleton3 Examples.denser3 MoreExamples.options0
           Examples.model_paf None (Examples.world_of Examples.args_low_seed))
      = [])
  /\ fa_outcome
       (factory_from_args Examples.vis_configure Examples.keypoints3
          Examples.skeleton3 Examples.denser3 MoreExamples.options0
          Examples.model_pif_paf None
          (Examples.world_of Examples.args_incomplete))
     = Raise (Exception_ "decoder unknown for head names: {}" ["pif"; "paf"]).
Proof.
  split.
  - apply (proj1 (proj2 (X13_from_args_configures_first Examples.vis_configure
             Examples.keypoints3 Examples.skeleton3 Examples.denser3
             MoreExamples.options0 Examples.model_paf None
             (Examples.world_of Examples.args_low_seed)))).
    vm_compute. discriminate.
  - apply (proj2 (proj2 (X13_from_args_configures_first Examples.vis_configure
             Examples.keypoints3 Examples.skeleton3 Examples.denser3
             MoreExamples.options0 Examples.model_pif_paf None
             (Examples.world_of Examples.args_incomplete)))).
    + vm_compute. reflexivity.
    + intros Hin.
      repeat (apply elem_of_cons in Hin as [Hin|Hin]; [discriminate Hin|]).
      inversion Hin.
Defined.

Lemma X14_from_args_returns_processor_witness :
  exists p,
    fa_outcome
      (factory_from_args Examples.vis_configure Examples.keypoints3
         Examples.skeleton3 Examples.denser3 MoreExamples.options0
         Examples.model_paf (Some "cpu")
         (Examples.world_of Examples.args_incomplete)) = Ok p
    /\ pr_model p = Examples.model_paf
    /\ pr_device p = Some "cpu".
Proof.
  destruct (proj2 (X14_from_args_returns_processor Examples.vis_configure
              Examples.keypoints3 Examples.skeleton3 Examples.denser3
              MoreExamples.options0 Examples.model_paf (Some "cpu")
              (Examples.world_of Examples.args_incomplete)))
    as (p & Hp & _ & Hm & Hd).
  - vm_compute. reflexivity.
  - do 3 constructor.
  - exists (PyInt 8). split; reflexivity.
  - exists p. repeat split; assumption.
Defined.

Lemma X15_processor_thresholds_witness :
  exists p,
    fa_outcome
      (factory_from_args Examples.vis_configure Examples.keypoints3
         Examples.skeleton3 Examples.denser3 MoreExamples.options0
         Examples.model_paf None
         (Examples.world_of Examples.args_incomplete)) = Ok p
    /\ pr_keypoint_threshold p = Some PyFloat.f0_001
    /\ pr_worker_pool p = Some 8
    /\ decoder_kwargs (pr_decode p) !! "seed_threshold"
       = Some (VNum (PyFlt PyFloat.f0_2)).
Proof.
  destruct (fa_outcome _) as [p|] eqn:E;
    [|exfalso; vm_compute in E; discriminate E].
  destruct (X15_processor_thresholds Examples.vis_configure Examples.keypoints3
              Examples.skeleton3 Examples.denser3 MoreExamples.options0
              Examples.model_paf None
              (Examples.world_of Examples.args_incomplete) p E)
    as (k & Hk & Hf & Hs & _ & _ & _ & Hw & _).
  exists p. split; [reflexivity|].
  split; [|split; [|exact Hs]].
  - rewrite Hk. vm_compute in Hf. exact (eq_sym Hf).
  - rewrite Hw. vm_compute. reflexivity.
Defined.

Lemma X16_debug_visualizer_witness :
  exists p,
    fa_outcome
      (factory_from_args Examples.vis_configure Examples.keypoints3
         Examples.skeleton3 Examples.denser3 MoreExamples.options0
         Examples.model_paf None
         (Examples.world_of MoreExamples.args_debug)) = Ok p
    /\ pr_debug_visualizer p
       = Some {| vis_keypoints := Examples.keypoints3;
                 vis_skeleton := [(2, 3); (1, 2); (1, 3); (1, 4); (1, 5)] |}
    /\ pr_worker_pool p = None.
Proof.
  destruct (fa_outcome _) as [p|] eqn:E;
    [|exfalso; vm_compute in E; discriminate E].
  destruct (proj1 (X16_debug_visualizer Examples.vis_configure
              Examples.keypoints3 Examples.skeleton3 Examples.denser3
              MoreExamples.options0 Examples.model_paf None
              (Examples.world_of MoreExamples.args_debug) p E) eq_refl)
    as (Hv & _ & Hw).
  exists p. repeat split; assumption.
Defined.

Lemma X17_default_output_file_needs_a_name_witness :
  is_ok (default_output_file TrainExamples.now0 TrainExamples.str_float0
           TrainExamples.format0 TrainExamples.args_nameless) = false
  /\ default_output_file TrainExamples.now0 TrainExamples.str_float0
       TrainExamples.format0
       (set_checkpoint (Some "x/y-z.pkl") TrainExamples.args_basenet)
     = default_output_file TrainExamples.now0 TrainExamples.str_float0
         TrainExamples.format0 TrainExamples.args_basenet.
Proof.
  destruct (X17_default_output_file_needs_a_name TrainExamples.now0
              TrainExamples.str_float0 TrainExamples.format0
              TrainExamples.args_nameless) as (H1 & _ & _).
  destruct (X17_default_output_file_needs_a_name TrainExamples.now0
              TrainExamples.str_float0 TrainExamples.format0
              TrainExamples.args_basenet) as (_ & _ & H3).
  split.
  - apply H1. split; reflexivity.
  - apply H3. reflexivity.
Defined.

Lemma X18_checkpoint_names_the_base_witness :
  default_output_file TrainExamples.now0 TrainExamples.str_float0
    TrainExamples.format0 TrainExamples.args_checkpoint
  = default_output_file TrainExamples.now0 TrainExamples.str_float0
      TrainExamples.format0
      (set_basenet (Some "resnet50") TrainExamples.args_checkpoint).
Proof.
  apply (X18_checkpoint_names_the_base TrainExamples.now0
           TrainExamples.str_float0 TrainExamples.format0
           "outputs/" "resnet50" "200101-120000-cocokp.pkl"
           TrainExamples.args_checkpoint);
    try reflexivity.
  - right. exists "outputs". reflexivity.
  - discriminate.
Defined.

Lemma X19_retraining_keeps_the_base_name_witness :
  default_output_file TrainExamples.later0 TrainExamples.str_float0
    TrainExamples.format0
    (set_basenet None
       (set_checkpoint (Some "outputs/resnet50-201104-101010-cocokp.pkl")
          TrainExamples.args_basenet))
  = Ok "outputs/resnet50-201104-101011-cocokp.pkl".
Proof.
  assert ("resnet50" <> "") as Hne by discriminate.
  assert (forall x, occurs "/"%char (TrainExamples.str_float0 x) = false) as Hsf.
  { intros x. unfold TrainExamples.str_float0.
    destruct (PyFloat.eqb x PyFloat.f0_2); reflexivity. }
  assert (forall x, occurs "/"%char (TrainExamples.format0 x) = false) as Hff.
  { intros x. unfold TrainExamples.format0.
    destruct (PyFloat.eqb x (PyFloat.of_Z 20)); reflexivity. }
  destruct (X19_retraining_keeps_the_base_name TrainExamples.now0
              TrainExamples.later0 TrainExamples.str_float0
              TrainExamples.format0 TrainExamples.args_basenet "resnet50"
              "outputs/resnet50-201104-101010-cocokp.pkl"
              eq_refl Hne eq_refl eq_refl eq_refl eq_refl eq_refl Hsf Hff eq_refl)
    as (H1 & H2 & _).
  rewrite H1. exact H2.
Defined.

Lemma X20_plain_name_for_standard_options_witness :
  default_output_file TrainExamples.now0 TrainExamples.str_float0
    TrainExamples.format0 TrainExamples.args_basenet
  = Ok "outputs/resnet50-201104-101010-cocokp.pkl".
Proof.
  apply (X20_plain_name_for_standard_options TrainExamples.now0
           TrainExamples.str_float0 TrainExamples.format0
           TrainExamples.args_basenet "resnet50" eq_refl).
  - discriminate.
  - repeat split.
Defined.

Lemma X21_slurm_environment_witness :
  environ (slurm_setup (TrainExamples.world_of TrainExamples.args_basenet
                          TrainExamples.env_slurm)) !! "RANK" = Some "3"
  /\ environ (slurm_setup (TrainExamples.world_of TrainExamples.args_basenet
                             TrainExamples.env_slurm)) !! "WORLD_SIZE" = Some "8"
  /\ environ (slurm_setup (TrainExamples.world_of TrainExamples.args_basenet
                             TrainExamples.env_slurm_world)) !! "WORLD_SIZE"
     = Some "4"
  /\ slurm_setup (TrainExamples.world_of TrainExamples.args_basenet ∅)
     = TrainExamples.world_of TrainExamples.args_basenet ∅.
Proof.
  destruct (proj2 (X21_slurm_environment
                     (TrainExamples.world_of TrainExamples.args_basenet
                        TrainExamples.env_slurm)) "3" eq_refl)
    as (H1 & _ & _ & H2 & _).
  destruct (proj2 (X21_slurm_environment
                     (TrainExamples.world_of TrainExamples.args_basenet
                        TrainExamples.env_slurm_world)) "3" eq_refl)
    as (_ & _ & H3 & _).
  split; [exact H1|]. split; [|split].
  - rewrite H2 by reflexivity. reflexivity.
  - rewrite H3 by reflexivity. reflexivity.
  - apply (proj1 (X21_slurm_environment
                    (TrainExamples.world_of TrainExamples.args_basenet ∅))).
    reflexivity.
Defined.

Lemma X22_cli_output_and_device_witness :
  output (targs (cli_setup TrainExamples.now0 TrainExamples.str_float0
                   TrainExamples.format0 true
                   (TrainExamples.world_of TrainExamples.args_output ∅)).1)
  = Some "my.pkl"
  /\ made_dirs (cli_setup TrainExamples.now0 TrainExamples.str_float0
                  TrainExamples.format0 true
                  (TrainExamples.world_of TrainExamples.args_output ∅)).1 = []
  /\ made_dirs (cli_setup TrainExamples.now0 TrainExamples.str_float0
                  TrainExamples.format0 true
                  (TrainExamples.world_of TrainExamples.args_basenet ∅)).1
     = ["outputs"]
  /\ (cli_setup TrainExamples.now0 TrainExamples.str_float0
        TrainExamples.format0 true
        (TrainExamples.world_of TrainExamples.args_nameless ∅)).2
     = Raise (TypeError "expected str, bytes or os.PathLike object, not NoneType").
Proof.
  destruct (X22_cli_output_and_device TrainExamples.now0
              TrainExamples.str_float0 TrainExamples.format0 true
              (TrainExamples.world_of TrainExamples.args_output ∅))
    as (H1 & _).
  destruct (X22_cli_output_and_device TrainExamples.now0
              TrainExamples.str_float0 TrainExamples.format0 true
              (TrainExamples.world_of TrainExamples.args_basenet ∅))
    as (_ & H2 & _).
  destruct (X22_cli_output_and_device TrainExamples.now0
              TrainExamples.str_float0 TrainExamples.format0 true
              (TrainExamples.world_of TrainExamples.args_nameless ∅))
    as (_ & _ & H3 & _).
  destruct (H1 "my.pkl" eq_refl) as (_ & Ho & Hd).
  destruct (H2 eq_refl "outputs/resnet50-201104-101010-cocokp.pkl" eq_refl)
    as (_ & _ & Hd2).
  destruct (H3 eq_refl _ eq_refl) as (He & _).
  repeat split; assumption.
Defined.

(** ** [cli] of the decoder *)

Lemma taken_iff (o : string) (parser : list Argument) :
  existsb (fun b => String.eqb (option_string b) o) parser = true
  <-> o ∈ map option_string parser.
Proof.
  rewrite existsb_exists. split.
  - intros (b & Hb & Heq). apply String.eqb_eq in Heq. subst o.
    apply list_elem_of_In. now apply in_map.
  - intros H. apply list_elem_of_In, in_map_iff in H as (b & Hb & Hin).
    exists b. split; [exact Hin|]. now apply String.eqb_eq.
Qed.

Lemma register_all_fresh (specs parser : list Argument) :
  NoDup (map option_string specs) ->
  (forall o, o ∈ map option_string specs -> o ∉ map option_string parser) ->
  register_all specs parser = Registered (parser ++ specs)%list.
Proof.
  revert parser. induction specs as [|a rest IH]; intros parser Hnd Hfresh.
  - cbn. now rewrite app_nil_r.
  - cbn [register_all]. cbn [map] in Hnd, Hfresh.
    apply NoDup_cons in Hnd as [Ha Hnd].
    destruct (existsb _ parser) eqn:E.
    + apply taken_iff in E. exfalso. apply (Hfresh (option_string a)); [|exact E].
      constructor.
    + rewrite IH; [now rewrite <- app_assoc|exact Hnd|].
      intros o Ho. rewrite map_app. cbn [map].
      intros Hin. apply elem_of_app in Hin as [Hin|Hin].
      * apply (Hfresh o); [now constructor|exact Hin].
      * apply list_elem_of_singleton in Hin. subst o. contradiction.
Qed.

Lemma register_all_conflict (specs parser : list Argument) :
  NoDup (map option_string specs) ->
  (exists o, o ∈ map option_string specs /\ o ∈ map option_string parser) ->
  exists o, register_all specs parser = ArgumentError o
            /\ o ∈ map option_string specs
            /\ o ∈ map option_string parser.
Proof.
  revert parser. induction specs as [|a rest IH]; intros parser Hnd (o & Ho & Hp).
  - inversion Ho.
  - cbn [register_all]. cbn [map] in Hnd, Ho.
    apply NoDup_cons in Hnd as [Ha Hnd].
    destruct (existsb _ parser) eqn:E.
    + apply taken_iff in E. exists (option_string a).
      split; [reflexivity|]. split; [constructor|exact E].
    + assert (o <> option_string a) as Hne.
      { intros ->. apply taken_iff in Hp. congruence. }
      apply elem_of_cons in Ho as [Ho|Ho]; [contradiction|].
      destruct (IH (parser ++ [a])%list Hnd) as (o' & Hr & Ho' & Hp').
      { exists o. split; [exact Ho|]. rewrite map_app.
        apply elem_of_app. now left. }
      exists o'. split; [exact Hr|]. split; [now constructor|].
      rewrite map_app in Hp'. apply elem_of_app in Hp' as [Hp'|Hp']; [exact Hp'|].
      cbn [map] in Hp'. apply list_elem_of_singleton in Hp'. subst o'.
      contradiction.
Qed.

Lemma parse_defaults_cons a l d :
  parse_defaults (a :: l) !! d
  = if decide (arg_dest a = d) then Some (arg_default a) else parse_defaults l !! d.
Proof.
  unfold parse_defaults. cbn [fold_right]. apply lookup_insert.
Qed.

Lemma parse_defaults_app parser added d :
  d ∉ map arg_dest parser ->
  parse_defaults (parser ++ added) !! d = parse_defaults added !! d.
Proof.
  induction parser as [|a parser IH]; intros Hd; [reflexivity|].
  cbn [app]. rewrite parse_defaults_cons. cbn [map] in Hd.
  apply not_elem_of_cons in Hd as [Hne Hd].
  destruct (decide (arg_dest a = d)); [congruence|]. now apply IH.
Qed.

Section CliFacts.

Variables (pif_v paf_t : float) (cm : string).
Variables (fcp : bool) (seed inst : float) (kp : option float) (workers : option Z).

Abbreviation cli' := (cli pif_v paf_t cm fcp seed inst kp workers).
Abbreviation specs := (cli_arguments pif_v paf_t cm fcp seed inst kp workers).

Lemma cli_register_all parser : cli' parser = register_all specs parser.
Proof.
  unfold cli, cli_arguments, add_argument, argument.
  cbn [register_all option_string].
  repeat (match goal with
          | |- context [existsb ?f ?l] => destruct (existsb f l)
          end; cbn [and_register]; [reflexivity|]).
  destruct fcp; cbn [option_string];
    repeat (match goal with
            | |- context [existsb ?f ?l] => destruct (existsb f l)
            end; cbn [and_register]; [reflexivity|]);
    reflexivity.
Qed.

Lemma specs_option_strings : map option_string specs = cli_option_strings fcp.
Proof. destruct fcp; reflexivity. Qed.

Lemma specs_dests : map arg_dest specs = cli_dests.
Proof. destruct fcp; reflexivity. Qed.

Lemma cli_option_strings_NoDup : NoDup (cli_option_strings fcp).
Proof. destruct fcp; apply (bool_decide_unpack _); vm_compute; exact I. Qed.

(** X23.  On a parser that holds none of its option strings, [cli]
    registers thirteen options after the ones already there, each under an
    attribute of its own; on a parser that already holds one of them it
    raises [ArgumentError], naming an option string that is taken. *)
Theorem X23_cli_registers_or_conflicts parser :
  ((forall o, o ∈ cli_option_strings fcp -> o ∉ map option_string parser) ->
     exists added,
       cli' parser = Registered (parser ++ added)%list
       /\ map option_string added = cli_option_strings fcp
       /\ map arg_dest added = cli_dests
       /\ NoDup (map arg_dest added)
       /\ length added = 13%nat)
  /\ ((exists o, o ∈ cli_option_strings fcp /\ o ∈ map option_string parser) ->
      exists o, cli' parser = ArgumentError o
                /\ o ∈ cli_option_strings fcp
                /\ o ∈ map option_string parser).
Proof.
  rewrite cli_register_all. split.
  - intros Hfresh. exists specs.
    rewrite register_all_fresh;
      [|rewrite specs_option_strings; apply cli_option_strings_NoDup
       |now rewrite specs_option_strings].
    split; [reflexivity|]. split; [apply specs_option_strings|].
    split; [apply specs_dests|]. rewrite specs_dests.
    split; [apply (bool_decide_unpack _); vm_compute; exact I|].
    now destruct fcp.
  - intros Hc. rewrite <- specs_option_strings in *.
    apply register_all_conflict; [|exact Hc].
    rewrite specs_option_strings. apply cli_option_strings_NoDup.
Qed.

(** The namespace of an empty command line, attribute by attribute. *)
Lemma cli_defaults_parsed parser parser' debug bs :
  (forall o, o ∈ cli_option_strings fcp -> o ∉ map option_string parser) ->
  (forall d, d ∈ cli_dests -> d ∉ map arg_dest parser) ->
  cli' parser = Registered parser' ->
  decoder_args (parse_defaults parser') debug bs
  = Some {| paf_th := paf_t; connection_method := cm;
            force_complete_pose := fcp; pif_th := pif_v;
            seed_threshold := seed; instance_threshold := inst;
            keypoint_threshold := kp; greedy := false;
            decoder_workers := workers; batch_size := bs; debug := debug |}
  /\ parse_defaults parser' !! "dense_coupling" = Some (VNum (PyFlt PyFloat.f0_01))
  /\ parse_defaults parser' !! "dense_connections" = Some (VBool false)
  /\ parse_defaults parser' !! "paf_seeds" = Some (VBool false)
  /\ parse_defaults parser' !! "profile_decoder" = Some VNone.
Proof.
  intros Hfresh Hdests. rewrite cli_register_all.
  rewrite register_all_fresh;
    [|rewrite specs_option_strings; apply cli_option_strings_NoDup
     |now rewrite specs_option_strings].
  intros [= <-].
  assert (forall d, d ∈ cli_dests ->
            parse_defaults (parser ++ specs) !! d = parse_defaults specs !! d)
    as Hlook.
  { intros d Hd. apply parse_defaults_app. now apply Hdests. }
  unfold decoder_args.
  rewrite !Hlook by (unfold cli_dests; repeat constructor).
  destruct fcp, kp, workers; repeat split; vm_compute; reflexivity.
Qed.

(** X24.  An empty command line gives every attribute that [configure]
    reads from the decoder's options: when the parser holds neither an
    option string nor an attribute of [cli], the parsed namespace has each
    of them at the default [cli] was called with, the thresholds of
    [PifHr] and [CifCaf] and the connection method at the class
    attributes, and the dense coupling at 0.01 with dense connections, paf
    seeds and greedy decoding off. *)
Theorem X24_cli_defaults parser parser' debug bs :
  (forall o, o ∈ cli_option_strings fcp -> o ∉ map option_string parser) ->
  (forall d, d ∈ cli_dests -> d ∉ map arg_dest parser) ->
  cli' parser = Registered parser' ->
  decoder_args (parse_defaults parser') debug bs
  = Some {| paf_th := paf_t; connection_method := cm;
            force_complete_pose := fcp; pif_th := pif_v;
            seed_threshold := seed; instance_threshold := inst;
            keypoint_threshold := kp; greedy := false;
            decoder_workers := workers; batch_size := bs; debug := debug |}
  /\ parse_defaults parser' !! "dense_coupling" = Some (VNum (PyFlt PyFloat.f0_01))
  /\ parse_defaults parser' !! "dense_connections" = Some (VBool false)
  /\ parse_defaults parser' !! "paf_seeds" = Some (VBool false)
  /\ parse_defaults parser' !! "profile_decoder" = Some VNone.
Proof. apply cli_defaults_parsed. Qed.

End CliFacts.

(** X25.  With the threshold defaults of [cli] itself (a seed threshold of
    0.2, an instance threshold of 0.0, no keypoint threshold), whether or
    not complete poses are forced, [configure] accepts the namespace of an
    empty command line, and leaves [CifCaf.paf_th],
    [CifCaf.connection_method] and [PifHr.v_threshold], which the defaults
    were read from, as they were. *)
Theorem X25_empty_command_line_is_accepted
    {VisualizerCls : Type} (vc : Namespace -> VisualizerCls -> VisualizerCls)
    (w : World) (fcp : bool) (workers : option Z)
    (parser parser' : list Argument) (debug : bool) (bs : option Z) :
  (forall o, o ∈ cli_option_strings fcp -> o ∉ map option_string parser) ->
  (forall d, d ∈ cli_dests -> d ∉ map arg_dest parser) ->
  cli (PifHr_v_threshold w) (cls_paf_th (CifCaf_cls w))
    (cls_connection_method (CifCaf_cls w)) fcp PyFloat.f0_2 PyFloat.zero None
    workers parser = Registered parser' ->
  exists a,
    decoder_args (parse_defaults parser') debug bs = Some a
    /\ (configure vc (on_args (fun _ => a) w)).2 = Ok tt
    /\ cls_paf_th (CifCaf_cls (configure vc (on_args (fun _ => a) w)).1)
       = cls_paf_th (CifCaf_cls w)
    /\ cls_connection_method (CifCaf_cls (configure vc (on_args (fun _ => a) w)).1)
       = cls_connection_method (CifCaf_cls w)
    /\ PifHr_v_threshold (configure vc (on_args (fun _ => a) w)).1
       = PifHr_v_threshold w.
Proof.
  intros Hfresh Hdests Hcli.
  destruct (cli_defaults_parsed _ _ _ _ _ _ _ _ parser parser' debug bs
              Hfresh Hdests Hcli) as (Ha & _).
  eexists. split; [exact Ha|].
  rewrite configure_store, configure_outcome.
  unfold configured, consistent, resolved_keypoint_threshold. cbn.
  destruct fcp; repeat split.
Qed.

Ltac disjoint_by_computation :=
  let o := fresh "o" in
  let Ho := fresh "Ho" in
  intros o Ho; revert o Ho; apply Forall_forall;
  apply (bool_decide_unpack _); vm_compute; exact I.

Lemma X23_cli_registers_or_conflicts_witness :
  (exists added,
     cli PyFloat.f0_2 PyFloat.f0_2 "blend" false PyFloat.f0_2 PyFloat.zero None
       None MoreExamples.parser_visualizer
     = Registered (MoreExamples.parser_visualizer ++ added)%list
     /\ length added = 13%nat)
  /\ exists o,
       cli PyFloat.f0_2 PyFloat.f0_2 "blend" false PyFloat.f0_2 PyFloat.zero None
         None MoreExamples.parser_taken = ArgumentError o
       /\ o ∈ map option_string MoreExamples.parser_taken.
Proof.
  split.
  - destruct (proj1 (X23_cli_registers_or_conflicts PyFloat.f0_2 PyFloat.f0_2
                       "blend" false PyFloat.f0_2 PyFloat.zero None None
                       MoreExamples.parser_visualizer))
      as (added & Hr & _ & _ & _ & Hlen).
    + disjoint_by_computation.
    + exists added. split; assumption.
  - destruct (proj2 (X23_cli_registers_or_conflicts PyFloat.f0_2 PyFloat.f0_2
                       "blend" false PyFloat.f0_2 PyFloat.zero None None
                       MoreExamples.parser_taken))
      as (o & Hr & _ & Hin).
    + exists "--greedy". split; repeat constructor.
    + exists o. split; assumption.
Defined.

Lemma X24_cli_defaults_witness :
  exists parser',
    cli PyFloat.f0_2 PyFloat.f0_2 "blend" false PyFloat.f0_2 PyFloat.zero None
      None MoreExamples.parser_visualizer = Registered parser'
    /\ decoder_args (parse_defaults parser') false (Some 8)
       = Some Examples.args_incomplete.
Proof.
  destruct (cli PyFloat.f0_2 PyFloat.f0_2 "blend" false PyFloat.f0_2
              PyFloat.zero None None MoreExamples.parser_visualizer)
    as [parser'|o] eqn:E; [|exfalso; vm_compute in E; discriminate E].
  exists parser'. split; [reflexivity|].
  apply (X24_cli_defaults PyFloat.f0_2 PyFloat.f0_2 "blend" false PyFloat.f0_2
           PyFloat.zero None None MoreExamples.parser_visualizer parser'
           false (Some 8)); [disjoint_by_computation..|exact E].
Defined.

Lemma X25_empty_command_line_is_accepted_witness :
  exists parser' a,
    cli PyFloat.zero PyFloat.zero "max" true PyFloat.f0_2 PyFloat.zero None None
      MoreExamples.parser_visualizer = Registered parser'
    /\ decoder_args (parse_defaults parser') false None = Some a
    /\ (configure Examples.vis_configure
          (on_args (fun _ => a) (Examples.world_of Examples.args_default))).2
       = Ok tt.
Proof.
  destruct (cli PyFloat.zero PyFloat.zero "max" true PyFloat.f0_2 PyFloat.zero
              None None MoreExamples.parser_visualizer)
    as [parser'|o] eqn:E; [|exfalso; vm_compute in E; discriminate E].
  destruct (X25_empty_command_line_is_accepted Examples.vis_configure
              (Examples.world_of Examples.args_default) true None
              MoreExamples.parser_visualizer parser' false None)
    as (a & Ha & Hok & _); [disjoint_by_computation..|exact E|].
  exists parser', a. repeat split; assumption.
Defined.
